(** * Secure hospital patient management: field encryption, intake and audit

    A shallow embedding of [crypto_utils.py], [hospital_db_setup.py] and
    [app.py], followed by the properties proved about them.

    - Python [bytes] are lists of [Byte.byte], Python [str] are lists of
      code points, exceptions are values of [exn].
    - The libraries the sources call are modelled by what they compute:
      AES and GCM from FIPS 197 and SP 800-38D (checked against their
      published test vectors), base64 as [binascii] decodes it, UTF-8 with
      strict errors.
    - Effects are explicit: a computation of type [M] reads and changes a
      [world] (random tape, key, committed and uncommitted store, cursor,
      failures the server will report) and returns a value or raises.
    - The MySQL store is a finite map from table names to tables; the
      audit triggers are part of [INSERT] and [UPDATE]. *)

From Stdlib Require Import NArith ZArith Lia List.
From Stdlib Require Import Init.Byte Strings.Byte DecimalString.
From stdpp Require Import gmap strings list.

Local Open Scope N_scope.

(** ** Bytes *)

Abbreviation bytes := (list byte).

#[global] Instance byte_eq_decision : EqDecision byte := Byte.byte_eq_dec.

Definition byte_of_N (n : N) : byte :=
  match Byte.of_N (n mod 256) with
  | Some b => b
  | None => x00
  end.

Definition N_of_byte (b : byte) : N := Byte.to_N b.

Definition byte_xor (a b : byte) : byte :=
  let '(a0, (a1, (a2, (a3, (a4, (a5, (a6, a7))))))) := Byte.to_bits a in
  let '(b0, (b1, (b2, (b3, (b4, (b5, (b6, b7))))))) := Byte.to_bits b in
  Byte.of_bits
    (xorb a0 b0, (xorb a1 b1, (xorb a2 b2, (xorb a3 b3,
    (xorb a4 b4, (xorb a5 b5, (xorb a6 b6, xorb a7 b7))))))).

(** Big-endian integer of a byte string, and the [w]-byte big-endian
    encoding of an integer ([long_to_bytes(n, w)]). *)
Definition bytes_to_long (bs : bytes) : N :=
  fold_left (fun acc b => acc * 256 + N_of_byte b) bs 0.

Fixpoint long_to_bytes (w : nat) (n : N) : bytes :=
  match w with
  | O => []
  | S w' => long_to_bytes w' (n / 256) ++ [byte_of_N n]
  end.

(** ** AES (FIPS 197), the block cipher behind [AES.new]

    The S-box is computed from its definition (inverse in GF(2^8) followed
    by the affine map), the state is the 16-byte block in input order
    (column-major). *)
Module AES.

Definition xtime (a : N) : N :=
  let d := N.shiftl a 1 in
  N.land (if N.testbit a 7 then N.lxor d 0x1b else d) 0xff.

Fixpoint gmul_aux (n : nat) (a b acc : N) : N :=
  match n with
  | O => acc
  | S n' =>
      gmul_aux n' (xtime a) (N.shiftr b 1)
        (if N.testbit b 0 then N.lxor acc a else acc)
  end.

Definition gmul (a b : N) : N := gmul_aux 8 a b 0.

Definition ginv (a : N) : N :=
  let a2 := gmul a a in
  let a4 := gmul a2 a2 in
  let a8 := gmul a4 a4 in
  let a16 := gmul a8 a8 in
  let a32 := gmul a16 a16 in
  let a64 := gmul a32 a32 in
  let a128 := gmul a64 a64 in
  gmul a128 (gmul a64 (gmul a32 (gmul a16 (gmul a8 (gmul a4 a2))))).

Definition rotl8 (a : N) (k : N) : N :=
  N.land (N.lor (N.shiftl a k) (N.shiftr a (8 - k))) 0xff.

Definition sbox_calc (a : N) : N :=
  let b := ginv a in
  N.lxor b (N.lxor (rotl8 b 1) (N.lxor (rotl8 b 2)
    (N.lxor (rotl8 b 3) (N.lxor (rotl8 b 4) 0x63)))).

Definition sbox_table : list N :=
  Eval vm_compute in List.map (fun i => sbox_calc (N.of_nat i)) (seq 0 256).

Definition sbox (a : N) : N := nth (N.to_nat a) sbox_table 0.

Definition xor_words (x y : list N) : list N :=
  List.map (fun p => N.lxor (fst p) (snd p)) (combine x y).

Definition sub_word (w : list N) : list N := List.map sbox w.

Definition rot_word (w : list N) : list N :=
  match w with
  | a :: r => r ++ [a]
  | [] => []
  end.

Fixpoint rcon (i : nat) : N :=
  match i with
  | O => 0x8d
  | S i' => xtime (rcon i')
  end.

(** Key schedule: [ws] holds the words generated so far, newest last. *)
Fixpoint expand_words (fuel : nat) (nk i : nat) (ws : list (list N))
  : list (list N) :=
  match fuel with
  | O => ws
  | S fuel' =>
      let prev := nth (i - 1) ws [] in
      let temp :=
        if Nat.eqb (i mod nk) 0
        then xor_words (sub_word (rot_word prev)) [rcon (i / nk); 0; 0; 0]
        else if andb (Nat.ltb 6 nk) (Nat.eqb (i mod nk) 4)
             then sub_word prev
             else prev in
      expand_words fuel' nk (S i) (ws ++ [xor_words (nth (i - nk) ws []) temp])
  end.

Fixpoint chunks4 (fuel : nat) (l : list N) : list (list N) :=
  match fuel with
  | O => []
  | S fuel' => firstn 4 l :: chunks4 fuel' (skipn 4 l)
  end.

Definition rounds (nk : nat) : nat := (nk + 6)%nat.

Definition key_expansion (key : bytes) : list (list N) :=
  let nk := (length key / 4)%nat in
  let w0 := chunks4 nk (List.map N_of_byte key) in
  expand_words (4 * (rounds nk + 1) - nk) nk nk w0.

Definition round_key (ws : list (list N)) (r : nat) : list N :=
  concat (firstn 4 (skipn (4 * r) ws)).

Definition sub_bytes (st : list N) : list N := List.map sbox st.

Definition shift_rows (st : list N) : list N :=
  List.map (fun i =>
         let r := (i mod 4)%nat in
         let c := (i / 4)%nat in
         nth (r + 4 * ((c + r) mod 4))%nat st 0)
      (seq 0 16).

Definition mix_column (col : list N) : list N :=
  match col with
  | [a0; a1; a2; a3] =>
      [ N.lxor (gmul 2 a0) (N.lxor (gmul 3 a1) (N.lxor a2 a3));
        N.lxor a0 (N.lxor (gmul 2 a1) (N.lxor (gmul 3 a2) a3));
        N.lxor a0 (N.lxor a1 (N.lxor (gmul 2 a2) (gmul 3 a3)));
        N.lxor (gmul 3 a0) (N.lxor a1 (N.lxor a2 (gmul 2 a3))) ]
  | _ => col
  end.

Definition mix_columns (st : list N) : list N :=
  concat (List.map mix_column (chunks4 4 st)).

Fixpoint main_rounds (n : nat) (r : nat) (ws : list (list N)) (st : list N)
  : list N :=
  match n with
  | O => st
  | S n' =>
      main_rounds n' (S r) ws
        (xor_words (mix_columns (shift_rows (sub_bytes st))) (round_key ws r))
  end.

(** [encrypt_block key blk] is the forward cipher on one 16-byte block. *)
Definition encrypt_block (key blk : bytes) : bytes :=
  let ws := key_expansion key in
  let nr := rounds (length key / 4) in
  let st0 := xor_words (List.map N_of_byte blk) (round_key ws 0) in
  let st1 := main_rounds (nr - 1) 1 ws st0 in
  List.map byte_of_N
    (xor_words (shift_rows (sub_bytes st1)) (round_key ws nr)).

End AES.

Definition hex_digit (c : Ascii.ascii) : N :=
  let n := Ascii.N_of_ascii c in
  if (48 <=? n) && (n <=? 57) then n - 48
  else if (97 <=? n) && (n <=? 102) then n - 87
  else 0.

(** [unhex "0a1b"] is the byte string written in hexadecimal. *)
Fixpoint unhex (s : string) : bytes :=
  match s with
  | String h (String l r) => byte_of_N (16 * hex_digit h + hex_digit l) :: unhex r
  | _ => []
  end.

(** ** Galois/Counter Mode (NIST SP 800-38D) over the AES forward cipher

    Blocks are 128-bit integers read big-endian; bit 0 of the standard is
    the most significant bit.  The header is empty, as [crypto_utils.py]
    never passes one; the bound of the standard on the length of a message
    is left out. *)
Module GCM.

Definition R : N := N.shiftl 0xe1 120.

Fixpoint gf_mul_aux (n : nat) (x v z : N) : N :=
  match n with
  | O => z
  | S n' =>
      let z' := if N.testbit x (N.of_nat n') then N.lxor z v else z in
      let v' := if N.testbit v 0 then N.lxor (N.shiftr v 1) R
                else N.shiftr v 1 in
      gf_mul_aux n' x v' z'
  end.

Definition gf_mul (x y : N) : N := gf_mul_aux 128 x y 0.

Definition zeros (n : nat) : bytes := repeat x00 n.

Definition pad16 (bs : bytes) : bytes :=
  bs ++ zeros ((16 - length bs mod 16) mod 16).

(** [ghash_loop fuel h y bs] absorbs [bs] sixteen bytes at a time. *)
Fixpoint ghash_loop (fuel : nat) (h y : N) (bs : bytes) : N :=
  match fuel with
  | O => y
  | S fuel' =>
      match bs with
      | [] => y
      | _ =>
          ghash_loop fuel' h
            (gf_mul (N.lxor y (bytes_to_long (firstn 16 bs))) h)
            (skipn 16 bs)
      end
  end.

Definition ghash (h : N) (bs : bytes) : N :=
  ghash_loop (length bs) h 0 bs.

Definition hash_subkey (key : bytes) : N :=
  bytes_to_long (AES.encrypt_block key (zeros 16)).

(** The pre-counter block [J0]: a 96-bit nonce is used as it is, any other
    length is hashed. *)
Definition j0 (key nonce : bytes) : bytes :=
  if Nat.eqb (length nonce) 12
  then nonce ++ [x00; x00; x00; x01]
  else
    let fill := ((16 - length nonce mod 16) mod 16 + 8)%nat in
    long_to_bytes 16
      (ghash (hash_subkey key)
         (nonce ++ zeros fill
            ++ long_to_bytes 8 (8 * N.of_nat (length nonce)))).

(** Counter block number [i] after [J0]; only the low 32 bits count. *)
Definition ctr_block (j : bytes) (i : N) : bytes :=
  firstn 12 j
    ++ long_to_bytes 4 ((bytes_to_long (skipn 12 j) + i) mod 2 ^ 32).

Definition keystream_byte (key j : bytes) (k : nat) : byte :=
  nth (k mod 16)
      (AES.encrypt_block key (ctr_block j (1 + N.of_nat (k / 16)))) x00.

Definition xor_bytes (x y : bytes) : bytes :=
  List.map (fun p => byte_xor (fst p) (snd p)) (combine x y).

Definition keystream (key j : bytes) (n : nat) : bytes :=
  List.map (keystream_byte key j) (seq 0 n).

(** CTR encryption and decryption are the same map. *)
Definition ctr_crypt (key j data : bytes) : bytes :=
  xor_bytes data (keystream key j (length data)).

(** The 16-byte tag over an empty header and the ciphertext [ct]. *)
Definition mac_tag (key j ct : bytes) : bytes :=
  let s := ghash (hash_subkey key)
             (pad16 ct ++ long_to_bytes 8 0
                ++ long_to_bytes 8 (8 * N.of_nat (length ct))) in
  xor_bytes (long_to_bytes 16 s) (AES.encrypt_block key j).

End GCM.

(** ** Python values: strings and exceptions *)

(** A Python [str] is a sequence of code points. *)
Abbreviation str := (list N).

(** The [str] of a literal made of one-byte characters. *)
Fixpoint py (s : string) : str :=
  match s with
  | EmptyString => []
  | String c r => Ascii.N_of_ascii c :: py r
  end.

(** Same, with every apostrophe of the literal standing for a double
    quote (U+0022). *)
Definition py_dq (s : string) : str :=
  List.map (fun c => if c =? 39 then 34 else c) (py s).

(** Exceptions by Python class.  [BinasciiError], [UnicodeEncodeError] and
    [UnicodeDecodeError] are subclasses of [ValueError] in Python; [DbError]
    stands for [mysql.connector.Error]. *)
Inductive exn : Type :=
| ValueError (msg : string)
| BinasciiError (msg : string)
| UnicodeEncodeError (msg : string)
| UnicodeDecodeError (msg : string)
| TypeError (msg : string)
| DbError (msg : string).

(** [str(e)]: the text an f-string shows for an exception. *)
Definition exn_message (e : exn) : string :=
  match e with
  | ValueError m | BinasciiError m | UnicodeEncodeError m
  | UnicodeDecodeError m | TypeError m | DbError m => m
  end.

Inductive result (A : Type) : Type :=
| Ok (a : A)
| Raise (e : exn).
Arguments Ok {A} a.
Arguments Raise {A} e.

Definition result_map {A B} (f : A -> B) (r : result A) : result B :=
  match r with
  | Ok a => Ok (f a)
  | Raise e => Raise e
  end.

(** ** UTF-8 ([str.encode("utf-8")] and [bytes.decode("utf-8")], strict) *)

Definition is_surrogate (cp : N) : bool := (0xD800 <=? cp) && (cp <=? 0xDFFF).

(** Unicode scalar values: the code points UTF-8 can carry. *)
Definition is_scalar (cp : N) : bool :=
  (cp <=? 0x10FFFF) && negb (is_surrogate cp).

Definition utf8_encode_cp (cp : N) : option bytes :=
  if cp <? 0x80 then Some [byte_of_N cp]
  else if cp <? 0x800 then
    Some [byte_of_N (0xC0 + cp / 64); byte_of_N (0x80 + cp mod 64)]
  else if cp <? 0x10000 then
    if is_surrogate cp then None
    else Some [byte_of_N (0xE0 + cp / 4096);
               byte_of_N (0x80 + (cp / 64) mod 64);
               byte_of_N (0x80 + cp mod 64)]
  else if cp <=? 0x10FFFF then
    Some [byte_of_N (0xF0 + cp / 262144);
          byte_of_N (0x80 + (cp / 4096) mod 64);
          byte_of_N (0x80 + (cp / 64) mod 64);
          byte_of_N (0x80 + cp mod 64)]
  else None.

Fixpoint utf8_encode_opt (s : str) : option bytes :=
  match s with
  | [] => Some []
  | cp :: r =>
      match utf8_encode_cp cp, utf8_encode_opt r with
      | Some b, Some br => Some (b ++ br)
      | _, _ => None
      end
  end.

Definition utf8_encode (s : str) : result bytes :=
  match utf8_encode_opt s with
  | Some b => Ok b
  | None =>
      Raise (UnicodeEncodeError
               "'utf-8' codec can't encode character: surrogates not allowed")
  end.

Definition is_cont (b : byte) : bool :=
  (0x80 <=? N_of_byte b) && (N_of_byte b <? 0xC0).

Definition cont_bits (b : byte) : N := N_of_byte b - 0x80.

Fixpoint utf8_decode_opt (bs : bytes) : option str :=
  match bs with
  | [] => Some []
  | b0 :: r0 =>
      let n0 := N_of_byte b0 in
      if n0 <? 0x80 then option_map (cons n0) (utf8_decode_opt r0)
      else if n0 <? 0xC0 then None
      else if n0 <? 0xE0 then
        match r0 with
        | b1 :: r1 =>
            let cp := (n0 - 0xC0) * 64 + cont_bits b1 in
            if is_cont b1 && (0x80 <=? cp)
            then option_map (cons cp) (utf8_decode_opt r1)
            else None
        | _ => None
        end
      else if n0 <? 0xF0 then
        match r0 with
        | b1 :: b2 :: r2 =>
            let cp := (n0 - 0xE0) * 4096 + cont_bits b1 * 64 + cont_bits b2 in
            if is_cont b1 && is_cont b2 && (0x800 <=? cp)
               && negb (is_surrogate cp)
            then option_map (cons cp) (utf8_decode_opt r2)
            else None
        | _ => None
        end
      else if n0 <? 0xF8 then
        match r0 with
        | b1 :: b2 :: b3 :: r3 =>
            let cp := (n0 - 0xF0) * 262144 + cont_bits b1 * 4096
                      + cont_bits b2 * 64 + cont_bits b3 in
            if is_cont b1 && is_cont b2 && is_cont b3
               && (0x10000 <=? cp) && (cp <=? 0x10FFFF)
            then option_map (cons cp) (utf8_decode_opt r3)
            else None
        | _ => None
        end
      else None
  end.

Definition utf8_decode (bs : bytes) : result str :=
  match utf8_decode_opt bs with
  | Some s => Ok s
  | None =>
      Raise (UnicodeDecodeError "'utf-8' codec can't decode byte: invalid data")
  end.

(** ** Base64 ([base64.b64encode] and [base64.b64decode]) *)

(** The alphabet character of a six-bit value. *)
Definition b64_char (s : N) : byte :=
  byte_of_N (if s <? 26 then 65 + s
             else if s <? 52 then 71 + s
             else if s <? 62 then s - 4
             else if s =? 62 then 43
             else 47).

(** [table_a2b_base64]: the six-bit value of an alphabet character. *)
Definition b64_index (c : byte) : option N :=
  let n := N_of_byte c in
  if (65 <=? n) && (n <=? 90) then Some (n - 65)
  else if (97 <=? n) && (n <=? 122) then Some (n - 71)
  else if (48 <=? n) && (n <=? 57) then Some (n + 4)
  else if n =? 43 then Some 62
  else if n =? 47 then Some 63
  else None.

Definition b64_pad : byte := byte_of_N 61.

Definition sextet1 (a : byte) : N := N_of_byte a / 4.
Definition sextet2 (a b : byte) : N :=
  (N_of_byte a mod 4) * 16 + N_of_byte b / 16.
Definition sextet3 (b c : byte) : N :=
  (N_of_byte b mod 16) * 4 + N_of_byte c / 64.
Definition sextet4 (c : byte) : N := N_of_byte c mod 64.

Fixpoint b64encode (bs : bytes) : bytes :=
  match bs with
  | [] => []
  | [a] =>
      [b64_char (sextet1 a); b64_char (sextet2 a x00); b64_pad; b64_pad]
  | [a; b] =>
      [b64_char (sextet1 a); b64_char (sextet2 a b);
       b64_char (sextet3 b x00); b64_pad]
  | a :: b :: c :: r =>
      b64_char (sextet1 a) :: b64_char (sextet2 a b)
        :: b64_char (sextet3 b c) :: b64_char (sextet4 c) :: b64encode r
  end.

(** [binascii.a2b_base64] in its default, lenient mode: characters outside
    the alphabet are skipped, a complete pad sequence ends the input, and
    an unfinished quad is an error.  [quad_pos] counts the characters of
    the current quad, [leftchar] holds its pending bits, [pads] the pad
    characters seen since the last data character. *)
Fixpoint a2b_base64 (s : bytes) (quad_pos : nat) (leftchar : N) (pads : nat)
  : result bytes :=
  match s with
  | [] =>
      match quad_pos with
      | O => Ok []
      | 1%nat =>
          Raise (BinasciiError
                   "Invalid base64-encoded string: number of data characters cannot be 1 more than a multiple of 4")
      | _ => Raise (BinasciiError "Incorrect padding")
      end
  | ch :: rest =>
      if bool_decide (ch = b64_pad) then
        if Nat.leb 2 quad_pos then
          if Nat.leb 4 (quad_pos + S pads) then Ok []
          else a2b_base64 rest quad_pos leftchar (S pads)
        else a2b_base64 rest quad_pos leftchar pads
      else
        match b64_index ch with
        | None => a2b_base64 rest quad_pos leftchar pads
        | Some v =>
            match quad_pos with
            | O => a2b_base64 rest 1 v 0
            | 1%nat =>
                result_map (cons (byte_of_N (leftchar * 4 + v / 16)))
                           (a2b_base64 rest 2 (v mod 16) 0)
            | 2%nat =>
                result_map (cons (byte_of_N (leftchar * 16 + v / 4)))
                           (a2b_base64 rest 3 (v mod 4) 0)
            | _ =>
                result_map (cons (byte_of_N (leftchar * 64 + v)))
                           (a2b_base64 rest 0 0 0)
            end
        end
  end.

(** ASCII conversion between [str] and [bytes] for text that holds an
    encoded envelope. *)
Definition ascii_str (bs : bytes) : str := List.map N_of_byte bs.

Definition encode_ascii (s : str) : result bytes :=
  if forallb (fun c => c <? 128) s
  then Ok (List.map byte_of_N s)
  else Raise (ValueError "string argument should contain only ASCII characters").

(** [b64decode(s)] of a [str]: ASCII only, then [a2b_base64]. *)
Definition b64decode (s : str) : result bytes :=
  match encode_ascii s with
  | Ok bs => a2b_base64 bs 0 0 0
  | Raise e => Raise e
  end.

(** ** The MySQL store *)

(** Cell values, as the connector passes them and as the server keeps
    them.  [VDec] is an amount in hundredths ([DECIMAL(10,2)]),
    [VDateTime] a time in seconds, [VDefault] a cell the server fills by
    itself (the [created_at] and [updated_at] stamps). *)
Inductive value : Type :=
| VNull
| VInt (z : Z)
| VStr (s : str)
| VBytes (b : bytes)
| VBool (b : bool)
| VDec (cents : Z)
| VDateTime (t : Z)
| VDefault.

#[global] Instance value_eq_dec : EqDecision value.
Proof. solve_decision. Defined.

Inductive coltype : Type := CInt | CText | CBlob | CDecimal | CBool | CTime.

Record column : Type := Column {
  col_name : string;
  col_type : coltype;
  col_default : value
}.

(** A table: its columns in declaration order (the first one is the
    [AUTO_INCREMENT] primary key), the next identifier, and the rows,
    oldest first. *)
Record table : Type := Table {
  t_cols : list column;
  t_next : Z;
  t_rows : list (list value)
}.

Abbreviation store := (gmap string table).

Fixpoint assoc {A} (k : string) (l : list (string * A)) : option A :=
  match l with
  | [] => None
  | (k', v) :: r => if bool_decide (k = k') then Some v else assoc k r
  end.

(** What a column keeps of a parameter: text sent to a [BLOB] column is
    kept as its UTF-8 bytes. *)
Definition to_column (ty : coltype) (v : value) : option value :=
  match ty, v with
  | CBlob, VStr s => option_map VBytes (utf8_encode_opt s)
  | _, _ => Some v
  end.

Fixpoint build_cells (cols : list column) (assigns : list (string * value))
  : option (list value) :=
  match cols with
  | [] => Some []
  | c :: cs =>
      match build_cells cs assigns with
      | None => None
      | Some vs =>
          match assoc (col_name c) assigns with
          | Some v => option_map (fun v' => v' :: vs) (to_column (col_type c) v)
          | None => Some (col_default c :: vs)
          end
      end
  end.

(** The row an [INSERT] makes: the key cell gets the fresh identifier. *)
Definition build_row (cols : list column) (id : Z)
    (assigns : list (string * value)) : option (list value) :=
  match cols with
  | [] => Some []
  | _ :: cs => option_map (cons (VInt id)) (build_cells cs assigns)
  end.

Definition no_such_table : exn := DbError "1146 (42S02): Table doesn't exist".

(** [INSERT INTO t (...) VALUES (...)] without triggers: the new store and
    the identifier given to the row. *)
Definition store_insert (st : store) (t : string)
    (assigns : list (string * value)) : result (store * Z) :=
  match st !! t with
  | None => Raise no_such_table
  | Some tb =>
      match build_row (t_cols tb) (t_next tb) assigns with
      | None => Raise (UnicodeEncodeError "'utf-8' codec can't encode character")
      | Some row =>
          Ok (<[t := Table (t_cols tb) (t_next tb + 1) (t_rows tb ++ [row])]> st,
              t_next tb)
      end
  end.

Fixpoint col_index (cols : list column) (name : string) : option nat :=
  match cols with
  | [] => None
  | c :: cs =>
      if bool_decide (col_name c = name) then Some O
      else option_map S (col_index cs name)
  end.

(** [OLD.name] / [NEW.name] / [row.name]: a missing column reads as NULL. *)
Definition field (cols : list column) (row : list value) (name : string)
  : value :=
  match col_index cols name with
  | Some i => nth i row VNull
  | None => VNull
  end.

(** *** SQL text functions used by the triggers *)

Definition dec_str (z : Z) : str :=
  py (DecimalString.NilZero.string_of_int (Z.to_int z)).

Definition two_digits (z : Z) : str :=
  (if (z <? 10)%Z then py "0" else []) ++ dec_str z.

(** The text MySQL makes of a value inside [CONCAT]. *)
Definition sql_text (v : value) : option str :=
  match v with
  | VNull => None
  | VInt z => Some (dec_str z)
  | VStr s => Some s
  | VBytes b => Some (ascii_str b)
  | VBool b => Some (py (if b then "1" else "0"))
  | VDec c =>
      Some ((if (c <? 0)%Z then py "-" else [])
              ++ dec_str (Z.abs c / 100) ++ py "." ++ two_digits (Z.abs c mod 100))
  | VDateTime t => Some (dec_str t)
  | VDefault => Some (py "CURRENT_TIMESTAMP")
  end.

(** [CONCAT(...)]: NULL as soon as one argument is NULL. *)
Fixpoint sql_concat (vs : list value) : value :=
  match vs with
  | [] => VStr []
  | v :: r =>
      match sql_text v, sql_concat r with
      | Some s, VStr sr => VStr (s ++ sr)
      | _, _ => VNull
      end
  end.

Definition lit (s : string) : value := VStr (py_dq s).

(** *** The audit triggers of [create_database_and_tables]

    Each function builds the column assignment of the trigger's
    [INSERT INTO Audit_Log]; [r] reads a column of [OLD] or [NEW]. *)

Definition patient_snapshot (r : string -> value) : value :=
  sql_concat [lit "{'first_name':'"; r "first_name"; lit "','last_name':'";
              r "last_name"; lit "','dob':'"; r "dob"; lit "','gender':'";
              r "gender"; lit "'}"].

Definition patient_sensitive_snapshot (r : string -> value) : value :=
  sql_concat [lit "{'card_last4':'"; r "card_last4"; lit "'}"].

Definition billing_snapshot (r : string -> value) : value :=
  sql_concat [lit "{'total_amount':"; r "total_amount"; lit ",'paid_amount':";
              r "paid_amount"; lit ",'status':'"; r "status"; lit "'}"].

Definition paymethod_snapshot (r : string -> value) : value :=
  sql_concat [lit "{'type':'"; r "type"; lit "','last4':'"; r "last4";
              lit "','is_default':"; r "is_default"; lit "}"].

Definition payment_tx_snapshot (r : string -> value) : value :=
  sql_concat [lit "{'billing_id':"; r "billing_id"; lit ",'patient_id':";
              r "patient_id"; lit ",'amount':"; r "amount"; lit ",'status':'";
              r "status"; lit "'}"].

Definition audit_update (tname key : string)
    (snapshot : (string -> value) -> value) (old new : string -> value)
  : list (string * value) :=
  [("table_name", VStr (py tname)); ("record_id", old key);
   ("action", VStr (py "UPDATE")); ("changed_by", VStr (py "SYSTEM"));
   ("old_data", snapshot old); ("new_data", snapshot new)].

(** The [BEFORE UPDATE] trigger of a table, if it has one. *)
Definition before_update_trigger (t : string) (old new : string -> value)
  : option (list (string * value)) :=
  if bool_decide (t = "Patient") then
    Some (audit_update "Patient" "patient_id" patient_snapshot old new)
  else if bool_decide (t = "Patient_Sensitive") then
    Some (audit_update "Patient_Sensitive" "sensitive_id"
            patient_sensitive_snapshot old new)
  else if bool_decide (t = "Billing") then
    Some (audit_update "Billing" "billing_id" billing_snapshot old new)
  else if bool_decide (t = "Payment_Methods") then
    Some (audit_update "Payment_Methods" "payment_method_id"
            paymethod_snapshot old new)
  else None.

(** The [AFTER INSERT] trigger of a table, if it has one. *)
Definition after_insert_trigger (t : string) (new : string -> value)
  : option (list (string * value)) :=
  if bool_decide (t = "Payment_Transactions") then
    Some [("table_name", VStr (py "Payment_Transactions"));
          ("record_id", new "payment_id");
          ("action", VStr (py "INSERT")); ("changed_by", VStr (py "SYSTEM"));
          ("new_data", payment_tx_snapshot new)]
  else None.

(** [INSERT] with its trigger: the row is written, then the audit row. *)
Definition sql_insert (st : store) (t : string)
    (assigns : list (string * value)) : result (store * Z) :=
  match store_insert st t assigns with
  | Raise e => Raise e
  | Ok (st1, id) =>
      match st1 !! t with
      | None => Ok (st1, id)
      | Some tb =>
          match after_insert_trigger t (field (t_cols tb) (List.last (t_rows tb) [])) with
          | None => Ok (st1, id)
          | Some audit =>
              match store_insert st1 "Audit_Log" audit with
              | Raise e => Raise e
              | Ok (st2, _) => Ok (st2, id)
              end
          end
      end
  end.

(** A row after [SET col = v, ...]. *)
Fixpoint set_cells (cols : list column) (row : list value)
    (sets : list (string * value)) : list value :=
  match cols, row with
  | c :: cs, v :: vs =>
      match assoc (col_name c) sets with
      | Some v' =>
          match to_column (col_type c) v' with
          | Some v'' => v''
          | None => v
          end
      | None => v
      end :: set_cells cs vs sets
  | _, _ => row
  end.

Definition row_matches (cols : list column) (row : list value)
    (wcol : string) (wval : value) : bool :=
  match wval with
  | VNull => false
  | _ => bool_decide (field cols row wcol = wval)
  end.

(** One row of [UPDATE t SET sets WHERE wcol = wval]: the trigger writes
    its audit row into [st] before the row changes. *)
Definition update_row (t : string) (cols : list column)
    (sets : list (string * value)) (wcol : string) (wval : value)
    (acc : result (store * list (list value))) (row : list value)
  : result (store * list (list value)) :=
  match acc with
  | Raise e => Raise e
  | Ok (st, done) =>
      if row_matches cols row wcol wval then
        let row' := set_cells cols row sets in
        match before_update_trigger t (field cols row) (field cols row') with
        | None => Ok (st, done ++ [row'])
        | Some audit =>
            match store_insert st "Audit_Log" audit with
            | Raise e => Raise e
            | Ok (st', _) => Ok (st', done ++ [row'])
            end
        end
      else Ok (st, done ++ [row])
  end.

Definition sql_update (st : store) (t : string)
    (sets : list (string * value)) (wcol : string) (wval : value)
  : result store :=
  match st !! t with
  | None => Raise no_such_table
  | Some tb =>
      match fold_left (update_row t (t_cols tb) sets wcol wval) (t_rows tb)
                      (Ok (st, [])) with
      | Raise e => Raise e
      | Ok (st', rows') =>
          Ok (<[t := Table (t_cols tb) (t_next tb) rows']> st')
      end
  end.

Definition sql_select (st : store) (t : string) (wcol : string) (wval : value)
  : result (list (list value)) :=
  match st !! t with
  | None => Raise no_such_table
  | Some tb =>
      Ok (List.filter (fun row => row_matches (t_cols tb) row wcol wval)
                      (t_rows tb))
  end.

Definition sql_count (st : store) (t : string) : result Z :=
  match st !! t with
  | None => Raise no_such_table
  | Some tb => Ok (Z.of_nat (length (t_rows tb)))
  end.

(** ** The process and its environment *)

(** What a run of the program can touch: the bytes the random source will
    deliver, the key of the key provider, the committed store that every
    reader sees, the uncommitted view of the open connection, the cursor's
    [lastrowid], the failures the server is going to report (one entry per
    statement, connection or commit: [Some msg] makes it fail), and the
    clock. *)
Record world : Type := World {
  rng_tape : nat -> byte;
  rng_pos : nat;
  aes_key : bytes;
  committed : store;
  working : store;
  lastrowid : Z;
  faults : list (option string);
  clock : Z
}.

Definition set_rng_pos (n : nat) (w : world) : world :=
  World (rng_tape w) n (aes_key w) (committed w) (working w) (lastrowid w)
        (faults w) (clock w).
Definition set_committed (s : store) (w : world) : world :=
  World (rng_tape w) (rng_pos w) (aes_key w) s (working w) (lastrowid w)
        (faults w) (clock w).
Definition set_working (s : store) (w : world) : world :=
  World (rng_tape w) (rng_pos w) (aes_key w) (committed w) s (lastrowid w)
        (faults w) (clock w).
Definition set_lastrowid (z : Z) (w : world) : world :=
  World (rng_tape w) (rng_pos w) (aes_key w) (committed w) (working w) z
        (faults w) (clock w).
Definition set_faults (f : list (option string)) (w : world) : world :=
  World (rng_tape w) (rng_pos w) (aes_key w) (committed w) (working w)
        (lastrowid w) f (clock w).

(** Computations that read and change the world and may raise. *)
Definition M (A : Type) : Type := world -> result A * world.

Definition ret {A} (a : A) : M A := fun w => (Ok a, w).

Definition bind {A B} (m : M A) (k : A -> M B) : M B :=
  fun w =>
    match m w with
    | (Ok a, w') => k a w'
    | (Raise e, w') => (Raise e, w')
    end.

Definition raise {A} (e : exn) : M A := fun w => (Raise e, w).

Definition lift {A} (r : result A) : M A := fun w => (r, w).

(** [try: m except Exception as e: h e] *)
Definition try_except {A} (m : M A) (h : exn -> M A) : M A :=
  fun w =>
    match m w with
    | (Ok a, w') => (Ok a, w')
    | (Raise e, w') => h e w'
    end.

(** [try: m finally: f] *)
Definition try_finally {A} (m : M A) (f : M unit) : M A :=
  fun w =>
    match m w with
    | (r, w') =>
        match f w' with
        | (Ok _, w'') => (r, w'')
        | (Raise e, w'') => (Raise e, w'')
        end
    end.

Declare Scope py_scope.
Delimit Scope py_scope with py.
Notation "x <- m ;; k" := (bind m (fun x => k))
  (at level 100, m at level 99, right associativity) : py_scope.
Notation "m ;; k" := (bind m (fun _ => k))
  (at level 100, right associativity) : py_scope.
Local Open Scope py_scope.

(** [Crypto.Random.get_random_bytes(n)] *)
Definition get_random_bytes (n : nat) : M bytes :=
  fun w =>
    (Ok (List.map (fun i => rng_tape w (rng_pos w + i)%nat) (seq 0 n)),
     set_rng_pos (rng_pos w + n) w).

(** Modelled from the spec: [config.get_aes_key] hands out the one key the
    key provider resolved at process start. *)
Definition get_aes_key : M bytes := fun w => (Ok (aes_key w), w).

(** The server reports the next scheduled failure, if any. *)
Definition server_step : M unit :=
  fun w =>
    match faults w with
    | Some msg :: r => (Raise (DbError msg), set_faults r w)
    | None :: r => (Ok tt, set_faults r w)
    | [] => (Ok tt, w)
    end.

(** Modelled from the spec: [config.get_db_conn] and [connect_to_db] open a
    connection of their own whose transaction starts from the committed
    store. *)
Definition get_db_conn : M unit :=
  server_step ;;
  fun w => (Ok tt, set_lastrowid 0 (set_working (committed w) w)).

Definition connect_to_db : M unit := get_db_conn.

(** [cursor.execute("INSERT INTO t (...) VALUES (...)", params)] *)
Definition execute_insert (t : string) (assigns : list (string * value))
  : M unit :=
  server_step ;;
  fun w =>
    match sql_insert (working w) t assigns with
    | Raise e => (Raise e, w)
    | Ok (st, id) => (Ok tt, set_lastrowid id (set_working st w))
    end.

(** [cursor.execute("UPDATE t SET ... WHERE wcol = %s", params)] *)
Definition execute_update (t : string) (sets : list (string * value))
    (wcol : string) (wval : value) : M unit :=
  server_step ;;
  fun w =>
    match sql_update (working w) t sets wcol wval with
    | Raise e => (Raise e, w)
    | Ok st => (Ok tt, set_working st w)
    end.

(** [cursor.execute("SELECT * FROM t WHERE wcol = %s", ...); fetchone()] *)
Definition execute_select_one (t : string) (wcol : string) (wval : value)
  : M (option (list value)) :=
  server_step ;;
  fun w =>
    match sql_select (working w) t wcol wval with
    | Raise e => (Raise e, w)
    | Ok rows => (Ok (head rows), w)
    end.

(** [cursor.execute("SELECT COUNT(*) FROM t"); fetchone()[0]] *)
Definition execute_count (t : string) : M Z :=
  server_step ;;
  fun w => (sql_count (working w) t, w).

Definition get_lastrowid : M Z := fun w => (Ok (lastrowid w), w).

Definition commit : M unit :=
  server_step ;;
  fun w => (Ok tt, set_committed (working w) w).

Definition rollback : M unit :=
  fun w => (Ok tt, set_working (committed w) w).

(** Closing the connection drops what it had not committed. *)
Definition close : M unit := rollback.

(** ** [crypto_utils.py] *)

(** The cipher object of [AES.new(key, AES.MODE_GCM, nonce=iv)]: the key
    and the pre-counter block derived from the nonce. *)
Record cipher : Type := Cipher { c_key : bytes; c_j0 : bytes }.

Definition AES_new (key nonce : bytes) : result cipher :=
  if Nat.eqb (length nonce) 0 then Raise (ValueError "Nonce cannot be empty")
  else if Nat.eqb (length key) 16 || Nat.eqb (length key) 24
          || Nat.eqb (length key) 32
  then Ok (Cipher key (GCM.j0 key nonce))
  else Raise (ValueError "Incorrect AES key length").

(** [cipher.encrypt_and_digest(data)]: ciphertext and 16-byte tag. *)
Definition encrypt_and_digest (c : cipher) (data : bytes) : bytes * bytes :=
  let ct := GCM.ctr_crypt (c_key c) (c_j0 c) data in
  (ct, GCM.mac_tag (c_key c) (c_j0 c) ct).

(** [cipher.decrypt_and_verify(ciphertext, tag)]: the plaintext is handed
    out only when the received tag is the computed one (the library compares
    keyed digests of the two tags, which is read here as their equality). *)
Definition decrypt_and_verify (c : cipher) (ciphertext tag : bytes)
  : result bytes :=
  let data := GCM.ctr_crypt (c_key c) (c_j0 c) ciphertext in
  if bool_decide (GCM.mac_tag (c_key c) (c_j0 c) ciphertext = tag)
  then Ok data
  else Raise (ValueError "MAC check failed").

Definition encrypt_value (plaintext : str) : M str :=
  key <- get_aes_key ;;
  data <- lift (utf8_encode plaintext) ;;
  iv <- get_random_bytes 12 ;;
  cipher <- lift (AES_new key iv) ;;
  let '(ciphertext, tag) := encrypt_and_digest cipher data in
  lift (utf8_decode (b64encode (iv ++ tag ++ ciphertext))).

Definition decrypt_value (enc : str) : M str :=
  key <- get_aes_key ;;
  raw <- lift (b64decode enc) ;;
  let iv := firstn 12 raw in
  let tag := firstn 16 (skipn 12 raw) in
  let ciphertext := skipn 28 raw in
  cipher <- lift (AES_new key iv) ;;
  data <- lift (decrypt_and_verify cipher ciphertext tag) ;;
  lift (utf8_decode data).

(** ** [hospital_db_setup.py] *)

(** [plain_text or str()]: [None] and the empty string both give the
    empty string. *)
Definition or_empty (plain_text : option str) : str :=
  match plain_text with
  | Some s => s
  | None => []
  end.

Definition encrypt_data (plain_text : option str) : M str :=
  encrypt_value (or_empty plain_text).

Definition decrypt_data (encrypted_data : value) : M str :=
  match encrypted_data with
  | VNull | VBytes [] | VStr [] => ret []
  | VBytes b => s <- lift (utf8_decode b) ;; decrypt_value s
  | VStr s => decrypt_value s
  | _ => raise (TypeError "argument should be a bytes-like object or ASCII string")
  end.

Definition col (name : string) (ty : coltype) : column := Column name ty VNull.
Definition stamp (name : string) : column := Column name CTime VDefault.

Definition Users_cols : list column :=
  [col "user_id" CInt; col "email" CText; col "password_hash" CText;
   col "role" CText; col "reference_id" CInt;
   Column "is_active" CBool (VBool true); stamp "created_at";
   stamp "updated_at"].

Definition Staff_cols : list column :=
  [col "staff_id" CInt; col "first_name" CText; col "last_name" CText;
   col "role" CText; col "email" CBlob; col "phone_number" CBlob;
   stamp "created_at"; stamp "updated_at"].

Definition Patient_cols : list column :=
  [col "patient_id" CInt; col "first_name" CText; col "last_name" CText;
   col "dob" CText; col "gender" CText; col "phone_number" CBlob;
   col "email" CBlob; col "ssn" CBlob; col "state_id" CBlob;
   col "primary_doctor_id" CInt; stamp "created_at"; stamp "updated_at"].

Definition Appointment_cols : list column :=
  [col "appointment_id" CInt; col "patient_id" CInt; col "doctor_id" CInt;
   col "appointment_date" CTime;
   Column "status" CText (VStr (py "Scheduled")); stamp "created_at";
   stamp "updated_at"].

Definition Medical_Record_cols : list column :=
  [col "record_id" CInt; col "patient_id" CInt; col "doctor_id" CInt;
   col "diagnosis" CBlob; col "treatment_plan" CBlob; stamp "created_at";
   stamp "updated_at"].

Definition Billing_cols : list column :=
  [col "billing_id" CInt; col "patient_id" CInt; col "total_amount" CDecimal;
   Column "paid_amount" CDecimal (VDec 0);
   Column "status" CText (VStr (py "Pending")); col "payment_due_date" CTime;
   stamp "created_at"; stamp "updated_at"].

Definition Payment_Methods_cols : list column :=
  [col "payment_method_id" CInt; col "patient_id" CInt; col "type" CText;
   col "last4" CText; col "data_enc" CBlob;
   Column "is_default" CBool (VBool false); stamp "created_at";
   stamp "updated_at"].

Definition Payment_Transactions_cols : list column :=
  [col "payment_id" CInt; col "billing_id" CInt; col "patient_id" CInt;
   col "payment_method_id" CInt; col "amount" CDecimal; stamp "paid_at";
   Column "status" CText (VStr (py "Posted")); col "note" CText;
   stamp "created_at"].

Definition Patient_Sensitive_cols : list column :=
  [col "sensitive_id" CInt; col "patient_id" CInt; col "mrn" CBlob;
   col "home_address" CBlob; col "insurance_policy" CBlob;
   col "card_last4" CText; stamp "created_at"; stamp "updated_at"].

Definition Audit_Log_cols : list column :=
  [col "audit_id" CInt; col "table_name" CText; col "record_id" CInt;
   col "action" CText; col "changed_by" CText; stamp "changed_at";
   col "old_data" CText; col "new_data" CText].

(** [CREATE TABLE IF NOT EXISTS]: a statement that commits by itself. *)
Definition create_table_if_not_exists (name : string) (cols : list column)
  : M unit :=
  server_step ;;
  fun w =>
    let st := match working w !! name with
              | Some _ => working w
              | None => <[name := Table cols 1 []]> (working w)
              end in
    (Ok tt, set_committed st (set_working st w)).

(** The tables of [create_database_and_tables], in its order.  The
    indexes do not change what the store holds; the triggers it installs
    are the ones [sql_insert] and [sql_update] run. *)
Definition create_database_and_tables : M unit :=
  connect_to_db ;;
  create_table_if_not_exists "Users" Users_cols ;;
  create_table_if_not_exists "Staff" Staff_cols ;;
  create_table_if_not_exists "Patient" Patient_cols ;;
  create_table_if_not_exists "Appointment" Appointment_cols ;;
  create_table_if_not_exists "Medical_Record" Medical_Record_cols ;;
  create_table_if_not_exists "Billing" Billing_cols ;;
  create_table_if_not_exists "Payment_Methods" Payment_Methods_cols ;;
  create_table_if_not_exists "Payment_Transactions" Payment_Transactions_cols ;;
  create_table_if_not_exists "Patient_Sensitive" Patient_Sensitive_cols ;;
  create_table_if_not_exists "Audit_Log" Audit_Log_cols ;;
  commit ;;
  close.

(** The [patient_data] dictionary: the four sensitive entries may be
    [None]. *)
Record patient_data : Type := PatientData {
  p_first_name : str;
  p_last_name : str;
  p_dob : str;
  p_gender : str;
  p_phone_number : option str;
  p_email : option str;
  p_ssn : option str;
  p_state_id : option str;
  p_primary_doctor_id : option Z
}.

Definition opt_int (z : option Z) : value :=
  match z with
  | Some i => VInt i
  | None => VNull
  end.

Definition insert_patient_data (pd : patient_data) : M Z :=
  encrypted_phone <- encrypt_data (p_phone_number pd) ;;
  encrypted_email <- encrypt_data (p_email pd) ;;
  encrypted_ssn <- encrypt_data (p_ssn pd) ;;
  encrypted_state_id <- encrypt_data (p_state_id pd) ;;
  execute_insert "Patient"
    [("first_name", VStr (p_first_name pd));
     ("last_name", VStr (p_last_name pd));
     ("dob", VStr (p_dob pd));
     ("gender", VStr (p_gender pd));
     ("phone_number", VStr encrypted_phone);
     ("email", VStr encrypted_email);
     ("ssn", VStr encrypted_ssn);
     ("state_id", VStr encrypted_state_id);
     ("primary_doctor_id", opt_int (p_primary_doctor_id pd))] ;;
  commit ;;
  patient_id <- get_lastrowid ;;
  ret patient_id.

(** The dictionary [get_patient_data] returns. *)
Record patient_view : Type := PatientView {
  v_patient_id : value;
  v_first_name : value;
  v_last_name : value;
  v_dob : value;
  v_gender : value;
  v_phone_number : str;
  v_email : str;
  v_ssn : str;
  v_state_id : str;
  v_primary_doctor_id : value
}.

Definition get_patient_data (patient_id : Z) : M (option patient_view) :=
  result <- execute_select_one "Patient" "patient_id" (VInt patient_id) ;;
  match result with
  | Some row =>
      decrypted_phone <- decrypt_data (nth 5 row VNull) ;;
      decrypted_email <- decrypt_data (nth 6 row VNull) ;;
      decrypted_ssn <- decrypt_data (nth 7 row VNull) ;;
      decrypted_state_id <- decrypt_data (nth 8 row VNull) ;;
      ret (Some (PatientView (nth 0 row VNull) (nth 1 row VNull)
                   (nth 2 row VNull) (nth 3 row VNull) (nth 4 row VNull)
                   decrypted_phone decrypted_email decrypted_ssn
                   decrypted_state_id (nth 9 row VNull)))
  | None => ret None
  end.

Record staff_data : Type := StaffData {
  s_first_name : str;
  s_last_name : str;
  s_role : str;
  s_email : option str;
  s_phone_number : option str
}.

Definition insert_staff_data (sd : staff_data) : M Z :=
  encrypted_email <- encrypt_data (s_email sd) ;;
  encrypted_phone <- encrypt_data (s_phone_number sd) ;;
  execute_insert "Staff"
    [("first_name", VStr (s_first_name sd));
     ("last_name", VStr (s_last_name sd));
     ("role", VStr (s_role sd));
     ("email", VStr encrypted_email);
     ("phone_number", VStr encrypted_phone)] ;;
  commit ;;
  staff_id <- get_lastrowid ;;
  ret staff_id.

(** [for x in xs: ys.append(f(x))] *)
Fixpoint for_each {A B} (f : A -> M B) (xs : list A) : M (list B) :=
  match xs with
  | [] => ret []
  | x :: r => y <- f x ;; ys <- for_each f r ;; ret (y :: ys)
  end.

Definition staff_members : list staff_data :=
  [StaffData (py "Dr. Michael") (py "Johnson") (py "Doctor")
     (Some (py "michael.johnson@hospital.com")) (Some (py "555-0101"));
   StaffData (py "Dr. Sarah") (py "Williams") (py "Doctor")
     (Some (py "sarah.williams@hospital.com")) (Some (py "555-0102"));
   StaffData (py "Dr. Robert") (py "Brown") (py "Doctor")
     (Some (py "robert.brown@hospital.com")) (Some (py "555-0103"));
   StaffData (py "Nurse") (py "Emily") (py "Nurse")
     (Some (py "emily.nurse@hospital.com")) (Some (py "555-0200"));
   StaffData (py "Nurse") (py "James") (py "Nurse")
     (Some (py "james.nurse@hospital.com")) (Some (py "555-0201"))].

(** [ids[i]] of a list the script has just filled. *)
Definition at_index (ids : list Z) (i : nat) : Z := nth i ids 0%Z.

Definition patients (staff_ids : list Z) : list patient_data :=
  [PatientData (py "Michael") (py "Brown") (py "1992-08-10") (py "Male")
     (Some (py "555-345-6789")) (Some (py "michael.brown@email.com"))
     (Some (py "345-67-8901")) (Some (py "TX4567890"))
     (Some (at_index staff_ids 0));
   PatientData (py "Emily") (py "Davis") (py "1988-12-05") (py "Female")
     (Some (py "555-456-7890")) (Some (py "emily.davis@email.com"))
     (Some (py "456-78-9012")) (Some (py "FL7890123"))
     (Some (at_index staff_ids 1));
   PatientData (py "David") (py "Wilson") (py "1995-03-25") (py "Male")
     (Some (py "555-567-8901")) (Some (py "david.wilson@email.com"))
     (Some (py "567-89-0123")) (Some (py "IL2345678"))
     (Some (at_index staff_ids 0));
   PatientData (py "Sarah") (py "Miller") (py "1991-07-18") (py "Female")
     (Some (py "555-678-9012")) (Some (py "sarah.miller@email.com"))
     (Some (py "678-90-1234")) (Some (py "WA3456789"))
     (Some (at_index staff_ids 2))].

Record sensitive_data : Type := SensitiveData {
  sd_patient_id : Z;
  sd_mrn : str;
  sd_home_address : str;
  sd_insurance_policy : str;
  sd_card_last4 : str
}.

Definition sensitive_data_list (patient_ids : list Z) : list sensitive_data :=
  [SensitiveData (at_index patient_ids 0) (py "MRN003456")
     (py "789 Pine Road, Houston, TX 77001") (py "INS-345678901") (py "3456");
   SensitiveData (at_index patient_ids 1) (py "MRN004567")
     (py "321 Elm Street, Miami, FL 33101") (py "INS-456789012") (py "4567");
   SensitiveData (at_index patient_ids 2) (py "MRN005678")
     (py "654 Maple Drive, Chicago, IL 60601") (py "INS-567890123") (py "5678");
   SensitiveData (at_index patient_ids 3) (py "MRN006789")
     (py "987 Cedar Lane, Seattle, WA 98101") (py "INS-678901234") (py "6789")].

Definition insert_sensitive (sd : sensitive_data) : M unit :=
  mrn <- encrypt_data (Some (sd_mrn sd)) ;;
  home_address <- encrypt_data (Some (sd_home_address sd)) ;;
  insurance_policy <- encrypt_data (Some (sd_insurance_policy sd)) ;;
  execute_insert "Patient_Sensitive"
    [("patient_id", VInt (sd_patient_id sd)); ("mrn", VStr mrn);
     ("home_address", VStr home_address);
     ("insurance_policy", VStr insurance_policy);
     ("card_last4", VStr (sd_card_last4 sd))].

Definition days (d : Z) : Z := (d * 86400)%Z.
Definition hours (h : Z) : Z := (h * 3600)%Z.

(** (patient, doctor, offset from now, status) *)
Definition appointments (patient_ids staff_ids : list Z)
  : list (Z * Z * Z * str) :=
  [(at_index patient_ids 0, at_index staff_ids 0, (days 3 + hours 9)%Z,
    py "Scheduled");
   (at_index patient_ids 1, at_index staff_ids 1, (- (days 2 + hours 15))%Z,
    py "Completed");
   (at_index patient_ids 2, at_index staff_ids 0, (days 4 + hours 13)%Z,
    py "Scheduled");
   (at_index patient_ids 3, at_index staff_ids 1, (- (days 1 + hours 10))%Z,
    py "Completed")].

Definition insert_appointment (apt : Z * Z * Z * str) : M unit :=
  let '(patient_id, doctor_id, offset, status) := apt in
  fun w =>
    execute_insert "Appointment"
      [("patient_id", VInt patient_id); ("doctor_id", VInt doctor_id);
       ("appointment_date", VDateTime (clock w + offset));
       ("status", VStr status)] w.

(** (patient, doctor, diagnosis, treatment plan) *)
Definition medical_records (patient_ids staff_ids : list Z)
  : list (Z * Z * str * str) :=
  [(at_index patient_ids 0, at_index staff_ids 0, py "Common Cold",
    py "Rest, fluids, over-the-counter cold medication. Return if symptoms persist beyond 7 days.");
   (at_index patient_ids 1, at_index staff_ids 1, py "Migraine",
    py "Sumatriptan 50mg as needed for acute attacks. Avoid known triggers. Stress management recommended.");
   (at_index patient_ids 2, at_index staff_ids 0, py "Asthma",
    py "Albuterol inhaler 2 puffs every 4-6 hours as needed. Avoid allergens. Annual flu shot recommended.");
   (at_index patient_ids 3, at_index staff_ids 2, py "Seasonal Allergies",
    py "Loratadine 10mg daily. Nasal spray as needed. Allergy testing recommended if symptoms persist.")].

Definition insert_medical_record (record : Z * Z * str * str) : M unit :=
  let '(patient_id, doctor_id, diagnosis, treatment_plan) := record in
  enc_diagnosis <- encrypt_data (Some diagnosis) ;;
  enc_plan <- encrypt_data (Some treatment_plan) ;;
  execute_insert "Medical_Record"
    [("patient_id", VInt patient_id); ("doctor_id", VInt doctor_id);
     ("diagnosis", VStr enc_diagnosis); ("treatment_plan", VStr enc_plan)].

(** (patient, total, paid, status, offset of the due date) *)
Definition billing_records (patient_ids : list Z)
  : list (Z * Z * Z * str * Z) :=
  [(at_index patient_ids 0, 30000, 30000, py "Paid", - days 5);
   (at_index patient_ids 1, 120000, 0, py "Pending", days 45);
   (at_index patient_ids 2, 45000, 45000, py "Paid", - days 10);
   (at_index patient_ids 3, 85000, 42500, py "Partial", days 15)]%Z.

Definition insert_billing (billing : Z * Z * Z * str * Z) : M Z :=
  let '(patient_id, total_amount, paid_amount, status, offset) := billing in
  (fun w =>
     execute_insert "Billing"
       [("patient_id", VInt patient_id); ("total_amount", VDec total_amount);
        ("paid_amount", VDec paid_amount); ("status", VStr status);
        ("payment_due_date", VDateTime (clock w + offset))] w) ;;
  get_lastrowid.

(** (patient, type, last4, payload to encrypt); all are default methods. *)
Definition payment_methods (patient_ids : list Z) : list (Z * str * str * str) :=
  [(at_index patient_ids 0, py "BANK", py "3456",
    py_dq "{'account_number':'****3456','routing':'123456789','account_type':'checking'}");
   (at_index patient_ids 1, py "CARD", py "4567",
    py_dq "{'card_number':'****4567','expiry':'09/25','cvv':'***','name':'Emily Davis'}");
   (at_index patient_ids 2, py "BANK", py "5678",
    py_dq "{'account_number':'****5678','routing':'987654321','account_type':'savings'}");
   (at_index patient_ids 3, py "CARD", py "6789",
    py_dq "{'card_number':'****6789','expiry':'03/26','cvv':'***','name':'Sarah Miller'}")].

(** The list literal encrypts every payload before the first insert. *)
Definition encrypt_payment_method (pm : Z * str * str * str)
  : M (Z * str * str * str) :=
  let '(patient_id, type, last4, payload) := pm in
  data_enc <- encrypt_data (Some payload) ;;
  ret (patient_id, type, last4, data_enc).

Definition insert_payment_method (pm : Z * str * str * str) : M Z :=
  let '(patient_id, type, last4, data_enc) := pm in
  execute_insert "Payment_Methods"
    [("patient_id", VInt patient_id); ("type", VStr type);
     ("last4", VStr last4); ("data_enc", VStr data_enc);
     ("is_default", VBool true)] ;;
  get_lastrowid.

(** (billing, patient, method, amount, note); all are posted. *)
Definition payment_transactions (billing_ids patient_ids method_ids : list Z)
  : list (Z * Z * Z * Z * str) :=
  [(at_index billing_ids 0, at_index patient_ids 0, at_index method_ids 0,
    30000%Z, py "Full payment for treatment");
   (at_index billing_ids 2, at_index patient_ids 2, at_index method_ids 2,
    45000%Z, py "Full payment completed");
   (at_index billing_ids 3, at_index patient_ids 3, at_index method_ids 3,
    42500%Z, py "Partial payment - balance due")].

Definition insert_payment_transaction (pt : Z * Z * Z * Z * str) : M unit :=
  let '(billing_id, patient_id, payment_method_id, amount, note) := pt in
  execute_insert "Payment_Transactions"
    [("billing_id", VInt billing_id); ("patient_id", VInt patient_id);
     ("payment_method_id", VInt payment_method_id); ("amount", VDec amount);
     ("status", VStr (py "Posted")); ("note", VStr note)].

(** The body of the [try] block of [insert_comprehensive_dummy_data]. *)
Definition dummy_data_body : M unit :=
  staff_count <- execute_count "Staff" ;;
  patient_count <- execute_count "Patient" ;;
  if ((0 <? staff_count) && (0 <? patient_count))%Z then close
  else
    staff_ids <- for_each insert_staff_data staff_members ;;
    patient_ids <- for_each insert_patient_data (patients staff_ids) ;;
    for_each insert_sensitive (sensitive_data_list patient_ids) ;;
    for_each insert_appointment (appointments patient_ids staff_ids) ;;
    for_each insert_medical_record (medical_records patient_ids staff_ids) ;;
    billing_ids <- for_each insert_billing (billing_records patient_ids) ;;
    methods <- for_each encrypt_payment_method (payment_methods patient_ids) ;;
    payment_method_ids <- for_each insert_payment_method methods ;;
    for_each insert_payment_transaction
      (payment_transactions billing_ids patient_ids payment_method_ids) ;;
    (if Nat.ltb 0 (length staff_ids) && Nat.ltb 0 (length patient_ids) then
       execute_update "Users" [("reference_id", VInt (at_index staff_ids 0))]
         "email" (VStr (py "staff@hospital.com")) ;;
       execute_update "Users" [("reference_id", VInt (at_index patient_ids 0))]
         "email" (VStr (py "patient@hospital.com"))
     else ret tt) ;;
    commit.

Definition insert_comprehensive_dummy_data : M unit :=
  connect_to_db ;;
  try_finally
    (try_except dummy_data_body (fun e => rollback ;; raise e))
    close.

(** ** [app.py] *)

(** The characters [str.strip()] removes. *)
Definition is_space (c : N) : bool :=
  ((0x09 <=? c) && (c <=? 0x0D)) || ((0x1C <=? c) && (c <=? 0x20))
  || (c =? 0x85) || (c =? 0xA0) || (c =? 0x1680)
  || ((0x2000 <=? c) && (c <=? 0x200A)) || (c =? 0x2028) || (c =? 0x2029)
  || (c =? 0x202F) || (c =? 0x205F) || (c =? 0x3000).

Fixpoint lstrip (s : str) : str :=
  match s with
  | [] => []
  | c :: r => if is_space c then lstrip r else s
  end.

Definition strip (s : str) : str := rev (lstrip (rev (lstrip s))).

Record request : Type := Request {
  method : string;
  form : gmap string str
}.

(** [request.form.get(name, default)] with the empty string as default. *)
Definition form_get (r : request) (name : string) : str :=
  match form r !! name with
  | Some s => s
  | None => []
  end.

Inductive response : Type :=
| Text (body : string) (status : nat)
| Redirect (location : string)
| Template (name : string).

(** ["@" in email] *)
Definition contains_at (email : str) : bool := existsb (N.eqb 64) email.

(** The server-side validation of [patient_form], on the fields as the
    handler has read them. *)
Definition invalid_input (full_name email mrn card : str) : bool :=
  Nat.ltb (length full_name) 2 || negb (contains_at email)
  || Nat.ltb (length mrn) 3 || Nat.ltb (length card) 4.

(** The tables the handler writes to are declared outside these sources:
    their columns are the ones its [INSERT] statements name, after an
    [AUTO_INCREMENT] key. *)
Definition patients_cols : list column :=
  [col "id" CInt; col "full_name" CText; col "dob" CText; col "email" CText;
   col "phone" CText; col "address" CText].
Definition medical_records_cols : list column :=
  [col "id" CInt; col "patient_id" CInt; col "mrn_enc" CBlob;
   col "diagnosis_enc" CBlob].
Definition insurance_cols : list column :=
  [col "id" CInt; col "patient_id" CInt; col "insurance_policy_enc" CBlob;
   col "provider_name" CText].
Definition billing_cols : list column :=
  [col "id" CInt; col "patient_id" CInt; col "amount" CText;
   col "status" CText].
Definition payments_cols : list column :=
  [col "id" CInt; col "billing_id" CInt; col "card_number_enc" CBlob].

Definition intake_schema : store :=
  <["patients" := Table patients_cols 1 []]>
  (<["medical_records" := Table medical_records_cols 1 []]>
  (<["insurance" := Table insurance_cols 1 []]>
  (<["billing" := Table billing_cols 1 []]>
  (<["payments" := Table payments_cols 1 []]> ∅)))).

(** What the handler does with a valid submission. *)
Definition save_intake (full_name dob email phone address mrn diagnosis
    insurance card amount : str) : M response :=
  get_db_conn ;;
  execute_insert "patients"
    [("full_name", VStr full_name); ("dob", VStr dob); ("email", VStr email);
     ("phone", VStr phone); ("address", VStr address)] ;;
  patient_id <- get_lastrowid ;;
  mrn_enc <- encrypt_value mrn ;;
  diagnosis_enc <- encrypt_value diagnosis ;;
  execute_insert "medical_records"
    [("patient_id", VInt patient_id); ("mrn_enc", VStr mrn_enc);
     ("diagnosis_enc", VStr diagnosis_enc)] ;;
  insurance_enc <- encrypt_value insurance ;;
  execute_insert "insurance"
    [("patient_id", VInt patient_id);
     ("insurance_policy_enc", VStr insurance_enc);
     ("provider_name", VStr (py "Unknown"))] ;;
  execute_insert "billing"
    [("patient_id", VInt patient_id); ("amount", VStr amount);
     ("status", VStr (py "PENDING"))] ;;
  billing_id <- get_lastrowid ;;
  card_enc <- encrypt_value card ;;
  execute_insert "payments"
    [("billing_id", VInt billing_id); ("card_number_enc", VStr card_enc)] ;;
  commit ;;
  close ;;
  ret (Redirect "/success").

Definition patient_form (r : request) : M response :=
  if bool_decide (method r = "POST") then
    try_except
      (let full_name := strip (form_get r "full_name") in
       let dob := strip (form_get r "dob") in
       let email := strip (form_get r "email") in
       let phone := strip (form_get r "phone") in
       let address := strip (form_get r "address") in
       let mrn := strip (form_get r "mrn") in
       let diagnosis := strip (form_get r "diagnosis") in
       let insurance := strip (form_get r "insurance") in
       let card := strip (form_get r "card") in
       let amount := strip (form_get r "amount") in
       if invalid_input full_name email mrn card
       then ret (Text "Invalid input" 400)
       else save_intake full_name dob email phone address mrn diagnosis
              insurance card amount)
      (fun e =>
         ret (Text ("Error while saving to DB: " ++ exn_message e) 500))
  else ret (Template "patient_form.html").

(** ** Vocabulary of the statements *)

(** The twelve bytes the next [get_random_bytes(12)] delivers. *)
Definition drawn_nonce (w : world) : bytes :=
  List.map (fun i => rng_tape w (rng_pos w + i)%nat) (seq 0 12).

(** The envelope bytes [iv + tag + ciphertext] of [encrypt_value]. *)
Definition envelope (key iv data : bytes) : bytes :=
  let c := Cipher key (GCM.j0 key iv) in
  iv ++ snd (encrypt_and_digest c data) ++ fst (encrypt_and_digest c data).

(** A key schedule made of four-byte words. *)
Definition words4 (ws : list (list N)) : Prop :=
  Forall (fun w => length w = 4%nat) ws.

(** A [str] that UTF-8 can encode: Unicode scalar values only. *)
Definition valid_str (s : str) : Prop := forallb is_scalar s = true.

(** A key, a random tape and a world to run the program on. *)
Definition sample_key : bytes :=
  unhex "000102030405060708090a0b0c0d0e0f101112131415161718191a1b1c1d1e1f".

Definition sample_tape (i : nat) : byte := byte_of_N (N.of_nat i * 7 + 3).

Definition sample_world (st : store) (f : list (option string)) : world :=
  World sample_tape 0 sample_key st st 0 f 1000.

(** The envelope and the world after [encrypt_value "555-0101"] in the
    sample world, and after a second call. *)
Definition sample_run : result str * world :=
  Eval vm_compute in
    (let '(r, w) := encrypt_value (py "555-0101") (sample_world ∅ []) in
     (r, set_rng_pos (rng_pos w) (sample_world ∅ []))).

Definition sample_envelope : str :=
  match fst sample_run with
  | Ok e => e
  | Raise _ => []
  end.

Definition sample_second_envelope : str :=
  Eval vm_compute in
    match fst (encrypt_value (py "555-0101") (snd sample_run)) with
    | Ok e => e
    | Raise _ => []
    end.

(** [flip_bit i bs] inverts bit [i mod 8] of byte [i / 8] of [bs]. *)
Fixpoint flip_bit (i : nat) (bs : bytes) : bytes :=
  match bs with
  | [] => []
  | b :: r =>
      if Nat.ltb i 8 then byte_xor b (byte_of_N (2 ^ N.of_nat i)) :: r
      else b :: flip_bit (i - 8) r
  end.

(** The decoded bytes of the sample envelope, its first twenty bytes
    encoded again, and the envelope with one bit of its tag inverted. *)
Definition sample_raw : bytes :=
  Eval vm_compute in
    match b64decode sample_envelope with
    | Ok raw => raw
    | Raise _ => []
    end.


Definition sample_tampered_envelope : str :=
  ascii_str (b64encode (flip_bit 100 sample_raw)).

(** The fields of a submission as [patient_form] reads them. *)
Definition read_field (r : request) (name : string) : str :=
  strip (form_get r name).

(** A submission: the ten fields of the intake form. *)
Definition submission (full_name dob email phone address mrn diagnosis
    insurance card amount : str) : request :=
  Request "POST"
    (list_to_map
       [("full_name", full_name); ("dob", dob); ("email", email);
        ("phone", phone); ("address", address); ("mrn", mrn);
        ("diagnosis", diagnosis); ("insurance", insurance); ("card", card);
        ("amount", amount)]).

(** A well-formed submission, and variants of it. *)
Definition sample_submission (full_name email mrn card : str) : request :=
  submission full_name (py "1990-04-01") email (py "555-0101")
    (py "1 Main Street") mrn (py "Asthma") (py "INS-1") card (py "10.00").

(** The identifier the next [INSERT] into [t] gets. *)
Definition next_id (st : store) (t : string) : Z :=
  match st !! t with
  | Some tb => t_next tb
  | None => 0%Z
  end.

(** The store after one row has been added to [t]. *)
Definition append_row (t : string) (row : list value) (st : store) : store :=
  match st !! t with
  | Some tb =>
      <[t := Table (t_cols tb) (t_next tb + 1) (t_rows tb ++ [row])]> st
  | None => st
  end.

Definition has_table (st : store) (t : string) (cols : list column) : Prop :=
  exists tb, st !! t = Some tb /\ t_cols tb = cols.

(** The nonce of the [k]-th call of [encrypt_value] counted from [w]. *)
Definition nth_nonce (w : world) (k : nat) : bytes :=
  List.map (fun i => rng_tape w (rng_pos w + 12 * k + i)%nat) (seq 0 12).

(** The base64 text of the envelope that call makes of [data]. *)
Definition envelope_text (w : world) (k : nat) (data : bytes) : bytes :=
  b64encode (envelope (aes_key w) (nth_nonce w k) data).

(** The store an accepted submission leaves, given the UTF-8 bytes of the
    four fields the handler encrypts. *)
Definition intake_store (w : world)
    (full_name dob email phone address amount : str)
    (mrn diagnosis insurance card : bytes) : store :=
  let st0 := committed w in
  let patient_id := next_id st0 "patients" in
  let st1 :=
    append_row "patients"
      [VInt patient_id; VStr full_name; VStr dob; VStr email; VStr phone;
       VStr address] st0 in
  let st2 :=
    append_row "medical_records"
      [VInt (next_id st1 "medical_records"); VInt patient_id;
       VBytes (envelope_text w 0 mrn); VBytes (envelope_text w 1 diagnosis)]
      st1 in
  let st3 :=
    append_row "insurance"
      [VInt (next_id st2 "insurance"); VInt patient_id;
       VBytes (envelope_text w 2 insurance); VStr (py "Unknown")] st2 in
  let billing_id := next_id st3 "billing" in
  let st4 :=
    append_row "billing"
      [VInt billing_id; VInt patient_id; VStr amount; VStr (py "PENDING")]
      st3 in
  append_row "payments"
    [VInt (next_id st4 "payments"); VInt billing_id;
     VBytes (envelope_text w 3 card)] st4.

(** The store offers the five tables of the intake handler. *)
Definition intake_ready (st : store) : Prop :=
  has_table st "patients" patients_cols
  /\ has_table st "medical_records" medical_records_cols
  /\ has_table st "insurance" insurance_cols
  /\ has_table st "billing" billing_cols
  /\ has_table st "payments" payments_cols.

(** Every row of [t] carries an identifier below the next one. *)
Definition keys_below_next (st : store) (t : string) : Prop :=
  forall tb, st !! t = Some tb ->
    Forall (fun row => exists i, nth 0 row VNull = VInt i /\ (i < t_next tb)%Z)
           (t_rows tb).

(** The row [insert_patient_data] writes in world [w], given the UTF-8
    bytes of the four sensitive entries. *)
Definition patient_row (w : world) (pd : patient_data)
    (phone email ssn state_id : bytes) : list value :=
  [VInt (next_id (working w) "Patient");
   VStr (p_first_name pd); VStr (p_last_name pd); VStr (p_dob pd);
   VStr (p_gender pd);
   VBytes (envelope_text w 0 phone); VBytes (envelope_text w 1 email);
   VBytes (envelope_text w 2 ssn); VBytes (envelope_text w 3 state_id);
   opt_int (p_primary_doctor_id pd); VDefault; VDefault].

(** A cell holds an envelope of [p]: bytes that are not the UTF-8 bytes of
    [p] and that [decrypt_data] turns back into [p]. *)
Definition holds_envelope_of (w : world) (cell : value) (p : str) : Prop :=
  exists e data,
    cell = VBytes e /\ utf8_encode p = Ok data /\ e <> data
    /\ (length data < length e)%nat
    /\ decrypt_data cell w = (Ok p, w).

(** The view [get_patient_data] makes of a stored row, given the
    plaintexts of its four envelopes. *)
Definition view_of_row (row : list value) (phone email ssn state_id : str)
  : patient_view :=
  PatientView (nth 0 row VNull) (nth 1 row VNull) (nth 2 row VNull)
    (nth 3 row VNull) (nth 4 row VNull) phone email ssn state_id
    (nth 9 row VNull).

(** The empty hospital database [create_database_and_tables] sets up. *)
Definition hospital_schema : store :=
  committed (snd (create_database_and_tables (sample_world ∅ []))).

Definition sample_patient : patient_data :=
  PatientData (py "Ann") (py "Lee") (py "1990-04-01") (py "F")
    (Some (py "555-0101")) (Some (py "a@b.com")) (Some (py "123-45-6789"))
    (Some (py "TX123")) None.

(** A computation that leaves the committed store as it found it. *)
Definition keeps_committed {A} (m : M A) : Prop :=
  forall w, committed (snd (m w)) = committed w.

(** A computation that commits nothing when it raises. *)
Definition all_or_nothing {A} (m : M A) : Prop :=
  forall w e, fst (m w) = Raise e -> committed (snd (m w)) = committed w.

(** A server that answers the first 21 requests of the seed script (the
    connection, the two counts, the inserts and commits of five staff
    members and four patients) and loses the connection at the next one,
    the first [INSERT INTO Patient_Sensitive]. *)
Definition connection_lost : string :=
  "2013 (HY000): Lost connection to MySQL server during query".

Definition failing_seed_world : world :=
  sample_world hospital_schema (repeat None 21 ++ [Some connection_lost]).

(** The hospital database with one payment method on file whose [last4]
    was left NULL. *)
Definition store_with_bank_method : store :=
  match sql_insert hospital_schema "Payment_Methods"
          [("patient_id", VInt 1); ("type", VStr (py "BANK"));
           ("data_enc", VStr sample_envelope); ("is_default", VBool true)] with
  | Ok (st, _) => st
  | Raise _ => hospital_schema
  end.

(** The rows of a table, none if the table is missing. *)
Definition rows_of (st : store) (t : string) : list (list value) :=
  match st !! t with
  | Some tb => t_rows tb
  | None => []
  end.

(** [m] adds one row to table [t]; each listed cell of that row holds an
    envelope of the listed plaintext. *)
Definition writes_envelopes {A} (m : M A) (t : string) (cols : list column)
    (cells : list (nat * str)) : Prop :=
  forall w,
    faults w = [] -> length (aes_key w) = 32%nat ->
    has_table (working w) t cols ->
    Forall (fun c => valid_str (snd c)) cells ->
    exists a w1 row,
      m w = (Ok a, w1)
      /\ working w1 = append_row t row (working w)
      /\ Forall (fun c => holds_envelope_of w1 (nth (fst c) row VNull) (snd c))
                cells.

(** ** Further vocabulary *)

(** A character [a2b_base64] reads: a letter of the alphabet or the pad. *)
Definition is_b64_char (c : byte) : bool :=
  bool_decide (c = b64_pad)
  || match b64_index c with Some _ => true | None => false end.

(** The same test on a character of a [str]. *)
Definition is_b64_code (c : N) : bool := is_b64_char (byte_of_N c).

Definition is_ascii_str (s : str) : bool := forallb (fun c => c <? 128) s.




(** The ten tables of [create_database_and_tables], empty. *)
Definition schema_tables : store :=
  {[ "Users" := Table Users_cols 1 [] ]}
  ∪ {[ "Staff" := Table Staff_cols 1 [] ]}
  ∪ {[ "Patient" := Table Patient_cols 1 [] ]}
  ∪ {[ "Appointment" := Table Appointment_cols 1 [] ]}
  ∪ {[ "Medical_Record" := Table Medical_Record_cols 1 [] ]}
  ∪ {[ "Billing" := Table Billing_cols 1 [] ]}
  ∪ {[ "Payment_Methods" := Table Payment_Methods_cols 1 [] ]}
  ∪ {[ "Payment_Transactions" := Table Payment_Transactions_cols 1 [] ]}
  ∪ {[ "Patient_Sensitive" := Table Patient_Sensitive_cols 1 [] ]}
  ∪ {[ "Audit_Log" := Table Audit_Log_cols 1 [] ]}.

(** A computation that returns and does not talk to the database
    server. *)
Definition leaves_database {A} (m : M A) : Prop :=
  forall w, exists a w',
    m w = (Ok a, w') /\ committed w' = committed w /\ working w' = working w
    /\ faults w' = faults w.

Section Accounts.

(** [werkzeug.security.generate_password_hash]: the salted hash of a
    password, as text. *)
Variable generate_password_hash : str -> M str.

(** The body of the [try] block of [create_initial_users]. *)
Definition create_initial_users_body : M unit :=
  existing_count <- execute_count "Users" ;;
  if (0 <? existing_count)%Z then ret tt
  else
    admin_password_hash <- generate_password_hash (py "default") ;;
    execute_insert "Users"
      [("email", VStr (py "root@gmail.com"));
       ("password_hash", VStr admin_password_hash);
       ("role", VStr (py "admin")); ("reference_id", VNull);
       ("is_active", VBool true)] ;;
    staff_password_hash <- generate_password_hash (py "staff123") ;;
    execute_insert "Users"
      [("email", VStr (py "staff@hospital.com"));
       ("password_hash", VStr staff_password_hash);
       ("role", VStr (py "staff")); ("reference_id", VNull);
       ("is_active", VBool true)] ;;
    patient_password_hash <- generate_password_hash (py "patient123") ;;
    execute_insert "Users"
      [("email", VStr (py "patient@hospital.com"));
       ("password_hash", VStr patient_password_hash);
       ("role", VStr (py "patient")); ("reference_id", VNull);
       ("is_active", VBool true)] ;;
    commit.

Definition create_initial_users : M unit :=
  connect_to_db ;;
  try_finally
    (try_except create_initial_users_body (fun e => rollback))
    close.

Definition main : M unit :=
  create_database_and_tables ;;
  create_initial_users ;;
  insert_comprehensive_dummy_data.

(** [h] is a hash the library gives for the password [p]. *)
Definition hash_of (p h : str) : Prop :=
  exists w w', generate_password_hash p w = (Ok h, w').

End Accounts.

(** The row of [Users] an account gets at its creation. *)
Definition user_row (id : Z) (email password_hash role : str) : list value :=
  [VInt id; VStr email; VStr password_hash; VStr role; VNull; VBool true;
   VDefault; VDefault].

(** The store with the three initial accounts added, given their
    password hashes. *)
Definition with_initial_users (admin_hash staff_hash patient_hash : str)
    (st : store) : store :=
  let st1 :=
    append_row "Users"
      (user_row (next_id st "Users") (py "root@gmail.com") admin_hash
         (py "admin")) st in
  let st2 :=
    append_row "Users"
      (user_row (next_id st1 "Users") (py "staff@hospital.com") staff_hash
         (py "staff")) st1 in
  append_row "Users"
    (user_row (next_id st2 "Users") (py "patient@hospital.com") patient_hash
       (py "patient")) st2.

(** A stand-in for the password hashing of the library: sixteen bytes
    of salt from the random source, then the password. *)
Definition sample_hash (p : str) : M str :=
  salt <- get_random_bytes 16 ;;
  ret (py "salted$" ++ ascii_str (b64encode salt) ++ py "$" ++ p).

(** The world the setup script leaves when it is run for the first
    time, on a server without any table. *)
Definition first_setup : world := snd (main sample_hash (sample_world ∅ [])).

(** The audit row a [BEFORE UPDATE] trigger writes, under identifier
    [n], for a row that is about to change. *)
Definition audit_row (n : Z) (tname key : string)
    (snapshot : (string -> value) -> value) (cols : list column)
    (sets : list (string * value)) (row : list value) : list value :=
  [VInt n; VStr (py tname); field cols row key; VStr (py "UPDATE");
   VStr (py "SYSTEM"); VDefault; snapshot (field cols row);
   snapshot (field cols (set_cells cols row sets))].

(** The audit rows of the rows an [UPDATE] matched, numbered from [n]. *)
Fixpoint audit_rows (tname key : string)
    (snapshot : (string -> value) -> value) (cols : list column)
    (sets : list (string * value)) (n : Z) (matched : list (list value))
  : list (list value) :=
  match matched with
  | [] => []
  | row :: r =>
      audit_row n tname key snapshot cols sets row
        :: audit_rows tname key snapshot cols sets (n + 1) r
  end.

(** The store after these audit rows have been written one by one. *)
Fixpoint audited (tname key : string)
    (snapshot : (string -> value) -> value) (cols : list column)
    (sets : list (string * value)) (matched : list (list value))
    (st : store) : store :=
  match matched with
  | [] => st
  | row :: r =>
      audited tname key snapshot cols sets r
        (append_row "Audit_Log"
           (audit_row (next_id st "Audit_Log") tname key snapshot cols sets row)
           st)
  end.

(** The text the trigger of [Payment_Transactions] records for a posted
    payment. *)
Definition posted_payment_text (billing_id patient_id amount : Z) : str :=
  py_dq "{'billing_id':" ++ dec_str billing_id
    ++ py_dq ",'patient_id':" ++ dec_str patient_id
    ++ py_dq ",'amount':"
    ++ (if (amount <? 0)%Z then py "-" else [])
    ++ dec_str (Z.abs amount / 100) ++ py "."
    ++ two_digits (Z.abs amount mod 100)
    ++ py_dq ",'status':'" ++ py "Posted" ++ py_dq "'}".

(** A connection with work that is not yet committed: a payment method
    waits in its transaction. *)
Definition pending_world : world :=
  set_working store_with_bank_method (sample_world hospital_schema []).

(** The hospital database with one patient on file whose phone cell
    holds the sample envelope and whose [ssn] cell holds that envelope with
    one bit of its tag inverted. *)
Definition store_with_tampered_ssn : store :=
  match sql_insert hospital_schema "Patient"
          [("first_name", VStr (py "Ann")); ("last_name", VStr (py "Lee"));
           ("dob", VStr (py "1990-04-01")); ("gender", VStr (py "F"));
           ("phone_number", VStr sample_envelope);
           ("ssn", VStr sample_tampered_envelope)] with
  | Ok (st, _) => st
  | Raise _ => hospital_schema
  end.






(** A world whose key provider hands out twenty bytes: not a key AES
    accepts. *)
Definition short_key_world : world :=
  World sample_tape 0 (firstn 20 sample_key) hospital_schema hospital_schema
    0 [] 1000.
(** * Properties *)

(** ** Known-answer tests of the cipher model *)

Example aes128_fips197 :
  AES.encrypt_block (unhex "000102030405060708090a0b0c0d0e0f")
                    (unhex "00112233445566778899aabbccddeeff")
  = unhex "69c4e0d86a7b0430d8cdb78070b4c55a".
Proof. vm_compute. reflexivity. Qed.

Example aes192_fips197 :
  AES.encrypt_block (unhex "000102030405060708090a0b0c0d0e0f1011121314151617")
                    (unhex "00112233445566778899aabbccddeeff")
  = unhex "dda97ca4864cdfe06eaf70a0ec0d7191".
Proof. vm_compute. reflexivity. Qed.

Example aes256_fips197 :
  AES.encrypt_block
    (unhex "000102030405060708090a0b0c0d0e0f101112131415161718191a1b1c1d1e1f")
    (unhex "00112233445566778899aabbccddeeff")
  = unhex "8ea2b7ca516745bfeafc49904b496089".
Proof. vm_compute. reflexivity. Qed.

Example gcm_test_case_13 :
  let key := GCM.zeros 32 in
  let j := GCM.j0 key (GCM.zeros 12) in
  GCM.mac_tag key j (GCM.ctr_crypt key j [])
  = unhex "530f8afbc74536b9a963b4f1c4cb738b".
Proof. vm_compute. reflexivity. Qed.

Example gcm_test_case_14 :
  let key := GCM.zeros 32 in
  let j := GCM.j0 key (GCM.zeros 12) in
  let ct := GCM.ctr_crypt key j (GCM.zeros 16) in
  ct = unhex "cea7403d4d606b6e074ec5d3baf39d18"
  /\ GCM.mac_tag key j ct = unhex "d0d1c8a799996bf0265b98b5d48ab919".
Proof. vm_compute. split; reflexivity. Qed.

Example gcm_test_case_15 :
  let key :=
    unhex "feffe9928665731c6d6a8f9467308308feffe9928665731c6d6a8f9467308308" in
  let j := GCM.j0 key (unhex "cafebabefacedbaddecaf888") in
  let ct :=
    GCM.ctr_crypt key j
      (unhex "d9313225f88406e5a55909c5aff5269a86a7a9531534f7da2e4c303d8a318a721c3c0c95956809532fcf0e2449a6b525b16aedf5aa0de657ba637b391aafd255") in
  ct = unhex "522dc1f099567d07f47f37a32a84427d643a8cdcbfe5c0c97598a2bd2555d1aa8cb08e48590dbb3da7b08b1056828838c5f61e6393ba7a0abcc9f662898015ad"
  /\ GCM.mac_tag key j ct = unhex "b094dac5d93471bdec1a502270e3cc6c".
Proof. vm_compute. split; reflexivity. Qed.

Example b64_known : b64encode (List.map byte_of_N (py "foobar")) = List.map byte_of_N (py "Zm9vYmFy")
  /\ b64encode (List.map byte_of_N (py "fooba")) = List.map byte_of_N (py "Zm9vYmE=")
  /\ b64encode (List.map byte_of_N (py "foob")) = List.map byte_of_N (py "Zm9vYg==")
  /\ b64decode (py "Zm9vYg==") = Ok (List.map byte_of_N (py "foob"))
  /\ b64decode (py "Zm9v YmE=") = Ok (List.map byte_of_N (py "fooba")).
Proof. vm_compute. repeat split; reflexivity. Qed.

Example utf8_known :
  utf8_encode [0x24; 0xA3; 0x20AC; 0x10348]
  = Ok (unhex "24c2a3e282acf0908d88")
  /\ utf8_decode (unhex "24c2a3e282acf0908d88") = Ok [0x24; 0xA3; 0x20AC; 0x10348]
  /\ utf8_decode_opt (unhex "c080") = None
  /\ utf8_decode_opt (unhex "eda080") = None
  /\ utf8_encode_opt [0xD800] = None.
Proof. vm_compute. repeat split; reflexivity. Qed.

(** ** Bytes *)

Lemma N_of_byte_lt (b : byte) : N_of_byte b < 256.
Proof. unfold N_of_byte. pose proof (Byte.to_N_bounded b). lia. Qed.

Lemma N_of_byte_of_N (n : N) : N_of_byte (byte_of_N n) = n mod 256.
Proof.
  unfold N_of_byte, byte_of_N.
  destruct (Byte.of_N (n mod 256)) as [b|] eqn:E.
  - now apply Byte.to_of_N.
  - apply Byte.of_N_None_iff in E.
    pose proof (N.mod_upper_bound n 256). lia.
Qed.

Lemma N_of_byte_of_N_small (n : N) : n < 256 -> N_of_byte (byte_of_N n) = n.
Proof. intros H. rewrite N_of_byte_of_N. now apply N.mod_small. Qed.

Lemma byte_of_N_of_byte (b : byte) : byte_of_N (N_of_byte b) = b.
Proof.
  unfold N_of_byte, byte_of_N.
  rewrite N.mod_small by (pose proof (Byte.to_N_bounded b); lia).
  now rewrite Byte.of_to_N.
Qed.

Lemma byte_xor_cancel (a k : byte) : byte_xor (byte_xor a k) k = a.
Proof.
  unfold byte_xor.
  rewrite <- (Byte.of_bits_to_bits a) at 2.
  destruct (Byte.to_bits a) as (a0 & a1 & a2 & a3 & a4 & a5 & a6 & a7).
  destruct (Byte.to_bits k) as (k0 & k1 & k2 & k3 & k4 & k5 & k6 & k7) eqn:Ek.
  rewrite Byte.to_bits_of_bits.
  now rewrite !xorb_assoc, !xorb_nilpotent, !xorb_false_r.
Qed.

(** ** UTF-8 round trip *)

Ltac Zify.zify_post_hook ::= Z.to_euclidean_division_equations.

Ltac n_tests :=
  repeat match goal with
  | |- context [?a <? ?b] => destruct (N.ltb_spec a b); try lia
  | |- context [?a <=? ?b] => destruct (N.leb_spec a b); try lia
  end.

Lemma utf8_decode_encode_cp (cp : N) (b rest : bytes) :
  utf8_encode_cp cp = Some b ->
  utf8_decode_opt (b ++ rest) = option_map (cons cp) (utf8_decode_opt rest).
Proof.
  unfold utf8_encode_cp, is_surrogate.
  destruct (N.ltb_spec cp 0x80).
  { intros [= <-]. cbn [app utf8_decode_opt].
    rewrite N_of_byte_of_N_small by lia. n_tests. reflexivity. }
  destruct (N.ltb_spec cp 0x800).
  { intros [= <-]. cbn [app utf8_decode_opt]. unfold is_cont, cont_bits.
    rewrite !N_of_byte_of_N_small by lia.
    replace ((0xC0 + cp / 64 - 0xC0) * 64 + (0x80 + cp mod 64 - 0x80)) with cp
      by lia.
    n_tests. reflexivity. }
  destruct (N.ltb_spec cp 0x10000).
  { destruct (N.leb_spec 0xD800 cp); destruct (N.leb_spec cp 0xDFFF);
      cbn [andb]; try discriminate;
      intros [= <-]; cbn [app utf8_decode_opt]; unfold is_cont, cont_bits,
        is_surrogate;
      rewrite !N_of_byte_of_N_small by lia;
      replace ((0xE0 + cp / 4096 - 0xE0) * 4096
               + (0x80 + (cp / 64) mod 64 - 0x80) * 64
               + (0x80 + cp mod 64 - 0x80)) with cp by lia;
      n_tests; reflexivity. }
  destruct (N.leb_spec cp 0x10FFFF); try discriminate.
  intros [= <-]. cbn [app utf8_decode_opt]. unfold is_cont, cont_bits.
  rewrite !N_of_byte_of_N_small by lia.
  replace ((0xF0 + cp / 262144 - 0xF0) * 262144
           + (0x80 + (cp / 4096) mod 64 - 0x80) * 4096
           + (0x80 + (cp / 64) mod 64 - 0x80) * 64
           + (0x80 + cp mod 64 - 0x80)) with cp by lia.
  n_tests. reflexivity.
Qed.

Lemma utf8_decode_encode_opt (s : str) (b : bytes) :
  utf8_encode_opt s = Some b -> utf8_decode_opt b = Some s.
Proof.
  revert b. induction s as [|cp s IH]; intros b.
  - intros [= <-]. reflexivity.
  - cbn [utf8_encode_opt].
    destruct (utf8_encode_cp cp) as [b1|] eqn:E1; try discriminate.
    destruct (utf8_encode_opt s) as [b2|] eqn:E2; try discriminate.
    intros [= <-].
    rewrite (utf8_decode_encode_cp _ _ _ E1), (IH _ eq_refl). reflexivity.
Qed.

Lemma utf8_encode_cp_scalar (cp : N) :
  is_scalar cp = true -> exists b, utf8_encode_cp cp = Some b.
Proof.
  unfold is_scalar, utf8_encode_cp. intros H.
  apply andb_true_iff in H as [H1 H2]. apply negb_true_iff in H2.
  rewrite H1, H2.
  repeat match goal with |- context [if ?c then _ else _] => destruct c end;
    eauto.
Qed.

Lemma utf8_encode_opt_valid (s : str) :
  valid_str s -> exists b, utf8_encode_opt s = Some b.
Proof.
  unfold valid_str. induction s as [|cp s IH]; cbn [forallb utf8_encode_opt].
  - eauto.
  - intros H. apply andb_true_iff in H as [H1 H2].
    destruct (utf8_encode_cp_scalar _ H1) as [b1 ->].
    destruct (IH H2) as [b2 ->]. eauto.
Qed.

(** ** Base64 round trip *)

Lemma b64_char_code (s : N) :
  s < 64 ->
  N_of_byte (b64_char s)
  = (if s <? 26 then 65 + s else if s <? 52 then 71 + s
     else if s <? 62 then s - 4 else if s =? 62 then 43 else 47).
Proof.
  intros H. unfold b64_char. apply N_of_byte_of_N_small.
  destruct (N.eqb_spec s 62); n_tests.
Qed.

Lemma b64_index_char (s : N) : s < 64 -> b64_index (b64_char s) = Some s.
Proof.
  intros H. unfold b64_index. rewrite (b64_char_code s H).
  destruct (N.ltb_spec s 26).
  { n_tests. cbn. f_equal. lia. }
  destruct (N.ltb_spec s 52).
  { n_tests. cbn. f_equal. lia. }
  destruct (N.ltb_spec s 62).
  { n_tests. cbn. f_equal. lia. }
  destruct (N.eqb_spec s 62) as [->|]; [reflexivity|].
  assert (s = 63) as -> by lia. reflexivity.
Qed.

Lemma b64_char_not_pad (s : N) : s < 64 -> b64_char s <> b64_pad.
Proof.
  intros H E. apply (f_equal N_of_byte) in E.
  rewrite (b64_char_code s H) in E. unfold b64_pad in E.
  rewrite N_of_byte_of_N_small in E by lia.
  destruct (N.eqb_spec s 62); revert E; n_tests.
Qed.

Lemma b64_char_ascii (s : N) : s < 64 -> N_of_byte (b64_char s) < 128.
Proof.
  intros H. rewrite (b64_char_code s H).
  destruct (N.eqb_spec s 62); n_tests.
Qed.

Lemma sextet1_lt a : sextet1 a < 64.
Proof. unfold sextet1. pose proof (N_of_byte_lt a). lia. Qed.
Lemma sextet2_lt a b : sextet2 a b < 64.
Proof. unfold sextet2. pose proof (N_of_byte_lt b). lia. Qed.
Lemma sextet3_lt b c : sextet3 b c < 64.
Proof. unfold sextet3. pose proof (N_of_byte_lt c). lia. Qed.
Lemma sextet4_lt c : sextet4 c < 64.
Proof. unfold sextet4. lia. Qed.

Create HintDb b64.

#[local] Hint Resolve sextet1_lt sextet2_lt sextet3_lt sextet4_lt : b64.

Lemma a2b_data (s : N) (rest : bytes) (qp : nat) (lc : N) (pads : nat) :
  s < 64 ->
  a2b_base64 (b64_char s :: rest) qp lc pads
  = match qp with
    | O => a2b_base64 rest 1 s 0
    | 1%nat => result_map (cons (byte_of_N (lc * 4 + s / 16)))
                          (a2b_base64 rest 2 (s mod 16) 0)
    | 2%nat => result_map (cons (byte_of_N (lc * 16 + s / 4)))
                          (a2b_base64 rest 3 (s mod 4) 0)
    | _ => result_map (cons (byte_of_N (lc * 64 + s))) (a2b_base64 rest 0 0 0)
    end.
Proof.
  intros H. cbn [a2b_base64].
  rewrite bool_decide_eq_false_2 by now apply b64_char_not_pad.
  now rewrite b64_index_char.
Qed.

Lemma a2b_pad (rest : bytes) (qp : nat) (lc : N) (pads : nat) :
  a2b_base64 (b64_pad :: rest) qp lc pads
  = if Nat.leb 2 qp
    then if Nat.leb 4 (qp + S pads) then Ok []
         else a2b_base64 rest qp lc (S pads)
    else a2b_base64 rest qp lc pads.
Proof. cbn [a2b_base64]. now rewrite bool_decide_eq_true_2. Qed.

Lemma quad_byte1 a b : byte_of_N (sextet1 a * 4 + sextet2 a b / 16) = a.
Proof.
  rewrite <- (byte_of_N_of_byte a) at 3. f_equal.
  unfold sextet1, sextet2. pose proof (N_of_byte_lt a). pose proof (N_of_byte_lt b).
  lia.
Qed.

Lemma quad_byte2 a b c :
  byte_of_N (sextet2 a b mod 16 * 16 + sextet3 b c / 4) = b.
Proof.
  rewrite <- (byte_of_N_of_byte b) at 3. f_equal.
  unfold sextet2, sextet3. pose proof (N_of_byte_lt b). pose proof (N_of_byte_lt c).
  lia.
Qed.

Lemma quad_byte3 b c : byte_of_N (sextet3 b c mod 4 * 64 + sextet4 c) = c.
Proof.
  rewrite <- (byte_of_N_of_byte c) at 3. f_equal.
  unfold sextet3, sextet4. pose proof (N_of_byte_lt b). pose proof (N_of_byte_lt c).
  lia.
Qed.

Lemma list_ind3 {A} (P : list A -> Prop) :
  P [] -> (forall a, P [a]) -> (forall a b, P [a; b]) ->
  (forall a b c r, P r -> P (a :: b :: c :: r)) ->
  forall l, P l.
Proof.
  intros H0 H1 H2 H3.
  assert (forall l, P l /\ (forall a, P (a :: l)) /\ (forall a b, P (a :: b :: l)))
    as H.
  { induction l as [|x l (IH0 & IH1 & IH2)]; auto. }
  intros l. apply H.
Qed.

Lemma a2b_b64encode (bs : bytes) : a2b_base64 (b64encode bs) 0 0 0 = Ok bs.
Proof.
  induction bs as [|a|a b|a b c r IH] using list_ind3.
  - reflexivity.
  - cbn [b64encode]. rewrite !a2b_data by auto with b64.
    rewrite !a2b_pad. cbn. now rewrite quad_byte1.
  - cbn [b64encode]. rewrite !a2b_data by auto with b64.
    rewrite !a2b_pad. cbn. now rewrite quad_byte1, quad_byte2.
  - cbn [b64encode]. rewrite !a2b_data by auto with b64. rewrite IH.
    cbn. now rewrite quad_byte1, quad_byte2, quad_byte3.
Qed.

Lemma b64encode_ascii (bs : bytes) :
  Forall (fun c => N_of_byte c < 128) (b64encode bs).
Proof.
  induction bs as [|a|a b|a b c r IH] using list_ind3; cbn [b64encode];
    repeat constructor; try (apply b64_char_ascii; auto with b64);
    try (vm_compute; reflexivity); assumption.
Qed.

Lemma encode_ascii_str (bs : bytes) :
  Forall (fun c => N_of_byte c < 128) bs ->
  encode_ascii (ascii_str bs) = Ok bs.
Proof.
  intros H. unfold encode_ascii, ascii_str.
  replace (forallb _ _) with true.
  - f_equal. rewrite List.map_map. erewrite List.map_ext; [apply List.map_id|].
    intros b. apply byte_of_N_of_byte.
  - symmetry. apply forallb_forall. intros c Hc.
    apply in_map_iff in Hc as (b & <- & Hb).
    rewrite Forall_forall in H. apply N.ltb_lt.
    apply H. now apply list_elem_of_In.
Qed.

Lemma b64decode_b64encode (bs : bytes) :
  b64decode (ascii_str (b64encode bs)) = Ok bs.
Proof.
  unfold b64decode. rewrite encode_ascii_str by apply b64encode_ascii.
  apply a2b_b64encode.
Qed.

(** ** The block cipher returns sixteen bytes *)

Lemma xor_words_length (x y : list N) :
  length (AES.xor_words x y) = Nat.min (length x) (length y).
Proof. unfold AES.xor_words. now rewrite length_map, length_combine. Qed.

Lemma rot_word_length (w : list N) : length (AES.rot_word w) = length w.
Proof. destruct w; cbn; [reflexivity|]. rewrite length_app. cbn. lia. Qed.

Lemma sub_word_length (w : list N) : length (AES.sub_word w) = length w.
Proof. apply length_map. Qed.

Lemma words4_nth (ws : list (list N)) (i : nat) :
  words4 ws -> (i < length ws)%nat -> length (nth i ws []) = 4%nat.
Proof.
  intros H Hi. unfold words4 in H. rewrite List.Forall_forall in H.
  apply H. now apply nth_In.
Qed.

Lemma expand_words_shape (fuel nk i : nat) (ws : list (list N)) :
  (0 < nk <= i)%nat -> length ws = i -> words4 ws ->
  length (AES.expand_words fuel nk i ws) = (i + fuel)%nat
  /\ words4 (AES.expand_words fuel nk i ws).
Proof.
  revert i ws. induction fuel as [|fuel IH]; intros i ws Hi Hlen Hws.
  - cbn. split; [lia|assumption].
  - cbn [AES.expand_words].
    assert (Hprev : length (nth (i - 1) ws []) = 4%nat)
      by (apply words4_nth; [assumption|lia]).
    assert (Hback : length (nth (i - nk) ws []) = 4%nat)
      by (apply words4_nth; [assumption|lia]).
    match goal with
    | |- context [AES.expand_words fuel nk (S i) (ws ++ [?w])] =>
        assert (Hw : length w = 4%nat)
    end.
    { rewrite xor_words_length, Hback.
      destruct (Nat.eqb (i mod nk) 0).
      - rewrite xor_words_length, sub_word_length, rot_word_length, Hprev.
        reflexivity.
      - destruct (Nat.ltb 6 nk && Nat.eqb (i mod nk) 4).
        + now rewrite sub_word_length, Hprev.
        + now rewrite Hprev. }
    destruct (IH (S i) (ws ++ [_]) ltac:(lia)
                 ltac:(rewrite length_app; cbn; lia)
                 ltac:(apply Forall_app; split; [exact Hws|repeat constructor; exact Hw]))
      as [H1 H2].
    split; [lia|exact H2].
Qed.

Lemma chunks4_shape (n : nat) (l : list N) :
  length l = (4 * n)%nat ->
  length (AES.chunks4 n l) = n /\ words4 (AES.chunks4 n l).
Proof.
  revert l. induction n as [|n IH]; intros l Hl; cbn [AES.chunks4].
  - split; [reflexivity|constructor].
  - destruct (IH (skipn 4 l)) as [H1 H2].
    { rewrite length_skipn. lia. }
    split; [cbn; lia|].
    constructor; [|exact H2]. rewrite length_firstn. lia.
Qed.

Lemma key_expansion_shape (key : bytes) :
  length key = 32%nat ->
  length (AES.key_expansion key) = 60%nat /\ words4 (AES.key_expansion key).
Proof.
  intros Hk. unfold AES.key_expansion, AES.rounds. rewrite Hk.
  change (32 / 4)%nat with 8%nat.
  destruct (chunks4_shape 8 (List.map N_of_byte key)) as [H1 H2].
  { rewrite length_map. lia. }
  destruct (expand_words_shape (4 * (8 + 6 + 1) - 8) 8 8 _ ltac:(lia) H1 H2)
    as [H3 H4].
  split; [rewrite H3; reflexivity|exact H4].
Qed.

Lemma concat_words4 (ws : list (list N)) :
  words4 ws -> length (concat ws) = (4 * length ws)%nat.
Proof.
  induction 1 as [|w ws Hw _ IH]; [reflexivity|].
  cbn [concat]. rewrite length_app, IH, Hw. cbn [length]. lia.
Qed.

Lemma In_skipn_firstn {A} (n m : nat) (l : list A) (x : A) :
  In x (firstn m (skipn n l)) -> In x l.
Proof.
  intros H. rewrite <- (firstn_skipn n l). apply in_or_app. right.
  rewrite <- (firstn_skipn m (skipn n l)). apply in_or_app. now left.
Qed.

Lemma round_key_length (key : bytes) (r : nat) :
  length key = 32%nat -> (r <= 14)%nat ->
  length (AES.round_key (AES.key_expansion key) r) = 16%nat.
Proof.
  intros Hk Hr. destruct (key_expansion_shape key Hk) as [H1 H2].
  unfold AES.round_key. rewrite concat_words4.
  - rewrite length_firstn, length_skipn, H1. lia.
  - unfold words4 in *. rewrite List.Forall_forall in *.
    intros w Hw. apply H2.
    apply (In_skipn_firstn (4 * r) 4). exact Hw.
Qed.

Lemma shift_rows_length (st : list N) : length (AES.shift_rows st) = 16%nat.
Proof. unfold AES.shift_rows. now rewrite length_map, length_seq. Qed.

Lemma encrypt_block_length (key blk : bytes) :
  length key = 32%nat -> length (AES.encrypt_block key blk) = 16%nat.
Proof.
  intros Hk. unfold AES.encrypt_block, AES.rounds. rewrite Hk.
  change (32 / 4 + 6)%nat with 14%nat.
  rewrite length_map, xor_words_length, shift_rows_length,
    round_key_length by (assumption || lia).
  reflexivity.
Qed.

(** ** Counter mode and the tag *)

Lemma long_to_bytes_length (w : nat) (n : N) : length (long_to_bytes w n) = w.
Proof.
  revert n. induction w as [|w IH]; intros n; cbn [long_to_bytes].
  - reflexivity.
  - rewrite length_app, IH. cbn. lia.
Qed.

Lemma xor_bytes_length (x y : bytes) :
  length (GCM.xor_bytes x y) = Nat.min (length x) (length y).
Proof. unfold GCM.xor_bytes. now rewrite length_map, length_combine. Qed.

Lemma keystream_length (key j : bytes) (n : nat) :
  length (GCM.keystream key j n) = n.
Proof. unfold GCM.keystream. now rewrite length_map, length_seq. Qed.

Lemma ctr_crypt_length (key j data : bytes) :
  length (GCM.ctr_crypt key j data) = length data.
Proof.
  unfold GCM.ctr_crypt. rewrite xor_bytes_length, keystream_length. lia.
Qed.

Lemma xor_bytes_cancel (d ks : bytes) :
  length ks = length d -> GCM.xor_bytes (GCM.xor_bytes d ks) ks = d.
Proof.
  revert ks. induction d as [|a d IH]; intros [|k ks] H; try discriminate.
  - reflexivity.
  - unfold GCM.xor_bytes in *. cbn [combine List.map fst snd].
    rewrite byte_xor_cancel. f_equal. apply IH. cbn in H. lia.
Qed.

Lemma ctr_crypt_involutive (key j data : bytes) :
  GCM.ctr_crypt key j (GCM.ctr_crypt key j data) = data.
Proof.
  unfold GCM.ctr_crypt at 1. rewrite ctr_crypt_length.
  unfold GCM.ctr_crypt. apply xor_bytes_cancel, keystream_length.
Qed.

Lemma mac_tag_length (key j ct : bytes) :
  length key = 32%nat -> length (GCM.mac_tag key j ct) = 16%nat.
Proof.
  intros Hk. unfold GCM.mac_tag.
  now rewrite xor_bytes_length, long_to_bytes_length, encrypt_block_length.
Qed.

Lemma drawn_nonce_length (w : world) : length (drawn_nonce w) = 12%nat.
Proof. unfold drawn_nonce. now rewrite length_map, length_seq. Qed.

(** ** ASCII text *)

Lemma utf8_decode_ascii (bs : bytes) :
  Forall (fun c => N_of_byte c < 128) bs ->
  utf8_decode_opt bs = Some (ascii_str bs).
Proof.
  induction 1 as [|b bs Hb _ IH]; [reflexivity|].
  cbn [utf8_decode_opt ascii_str List.map].
  destruct (N.ltb_spec (N_of_byte b) 128); [|lia].
  unfold ascii_str in IH. now rewrite IH.
Qed.

Lemma utf8_encode_ascii (bs : bytes) :
  Forall (fun c => N_of_byte c < 128) bs ->
  utf8_encode_opt (ascii_str bs) = Some bs.
Proof.
  induction 1 as [|b bs Hb _ IH]; [reflexivity|].
  cbn [utf8_encode_opt ascii_str List.map]. unfold ascii_str in IH. rewrite IH.
  unfold utf8_encode_cp.
  destruct (N.ltb_spec (N_of_byte b) 128); [|lia].
  now rewrite byte_of_N_of_byte.
Qed.

(** ** What [encrypt_value] and [decrypt_value] compute *)

Lemma AES_new_ok (key iv : bytes) :
  length key = 32%nat -> iv <> [] ->
  AES_new key iv = Ok (Cipher key (GCM.j0 key iv)).
Proof.
  intros Hk Hiv. unfold AES_new. rewrite Hk.
  destruct iv; [contradiction|]. reflexivity.
Qed.

Lemma encrypt_value_ok (p : str) (data : bytes) (w : world) :
  utf8_encode_opt p = Some data -> length (aes_key w) = 32%nat ->
  encrypt_value p w
  = (Ok (ascii_str (b64encode (envelope (aes_key w) (drawn_nonce w) data))),
     set_rng_pos (rng_pos w + 12) w).
Proof.
  intros Hp Hk. unfold encrypt_value, bind, get_aes_key, lift, utf8_encode,
    get_random_bytes.
  rewrite Hp. fold (drawn_nonce w). cbn [aes_key set_rng_pos].
  rewrite AES_new_ok; [|assumption|].
  - unfold encrypt_and_digest, envelope, utf8_decode. cbn [fst snd c_key c_j0].
    now rewrite utf8_decode_ascii by apply b64encode_ascii.
  - intros E. pose proof (drawn_nonce_length w) as H. rewrite E in H.
    discriminate.
Qed.

Lemma envelope_split (key iv data : bytes) :
  length key = 32%nat -> length iv = 12%nat ->
  let raw := envelope key iv data in
  firstn 12 raw = iv
  /\ firstn 16 (skipn 12 raw)
     = GCM.mac_tag key (GCM.j0 key iv) (GCM.ctr_crypt key (GCM.j0 key iv) data)
  /\ skipn 28 raw = GCM.ctr_crypt key (GCM.j0 key iv) data.
Proof.
  intros Hk Hiv raw. subst raw. unfold envelope, encrypt_and_digest.
  cbn [fst snd c_key c_j0].
  set (ct := GCM.ctr_crypt key (GCM.j0 key iv) data).
  set (tag := GCM.mac_tag key (GCM.j0 key iv) ct).
  assert (Ht : length tag = 16%nat) by now apply mac_tag_length.
  repeat split.
  - now rewrite take_app_length' by (symmetry; assumption).
  - rewrite drop_app_length' by (symmetry; assumption).
    now rewrite take_app_length' by (symmetry; assumption).
  - rewrite app_assoc. rewrite drop_app_length'; [reflexivity|].
    rewrite length_app. lia.
Qed.

Lemma decrypt_value_envelope (p : str) (data iv : bytes) (w : world) :
  utf8_encode_opt p = Some data -> length (aes_key w) = 32%nat ->
  length iv = 12%nat ->
  decrypt_value (ascii_str (b64encode (envelope (aes_key w) iv data))) w
  = (Ok p, w).
Proof.
  intros Hp Hk Hiv. unfold decrypt_value, bind, get_aes_key, lift.
  rewrite b64decode_b64encode.
  destruct (envelope_split (aes_key w) iv data Hk Hiv) as (E1 & E2 & E3).
  rewrite E1, E2, E3.
  rewrite AES_new_ok; [|assumption|intros ->; discriminate].
  unfold decrypt_and_verify. cbn [c_key c_j0].
  rewrite bool_decide_eq_true_2 by reflexivity.
  rewrite ctr_crypt_involutive. unfold utf8_decode.
  now rewrite (utf8_decode_encode_opt p data Hp).
Qed.

Lemma encrypt_value_inv (p : str) (w : world) (enc : str) (w' : world) :
  encrypt_value p w = (Ok enc, w') ->
  exists data,
    utf8_encode_opt p = Some data
    /\ enc = ascii_str (b64encode (envelope (aes_key w) (drawn_nonce w) data))
    /\ w' = set_rng_pos (rng_pos w + 12) w.
Proof.
  unfold encrypt_value, bind, get_aes_key, lift, utf8_encode, get_random_bytes.
  destruct (utf8_encode_opt p) as [data|]; [|discriminate].
  fold (drawn_nonce w). cbn [aes_key set_rng_pos].
  destruct (AES_new (aes_key w) (drawn_nonce w)) as [c|e] eqn:Ec;
    [|discriminate].
  assert (c = Cipher (aes_key w) (GCM.j0 (aes_key w) (drawn_nonce w))) as ->.
  { unfold AES_new in Ec.
    repeat match type of Ec with
           | (if ?b then _ else _) = _ => destruct b
           end; congruence. }
  unfold encrypt_and_digest, utf8_decode. cbn [c_key c_j0].
  rewrite utf8_decode_ascii by apply b64encode_ascii.
  intros [= <- <-]. exists data. repeat split.
Qed.

Lemma ascii_str_inj (a b : bytes) : ascii_str a = ascii_str b -> a = b.
Proof.
  revert b. induction a as [|x a IH]; intros [|y b]; cbn; try discriminate.
  - reflexivity.
  - intros [= H1 H2]. f_equal; [|now apply IH].
    rewrite <- (byte_of_N_of_byte x), <- (byte_of_N_of_byte y). now rewrite H1.
Qed.

Lemma b64encode_inj (a b : bytes) : b64encode a = b64encode b -> a = b.
Proof.
  intros H. apply (f_equal (fun x => a2b_base64 x 0 0 0)) in H.
  rewrite !a2b_b64encode in H. congruence.
Qed.

Lemma envelope_length (key iv data : bytes) :
  length key = 32%nat -> length iv = 12%nat ->
  length (envelope key iv data) = (28 + length data)%nat.
Proof.
  intros Hk Hiv. unfold envelope, encrypt_and_digest. cbn [fst snd c_key c_j0].
  rewrite !length_app, mac_tag_length, ctr_crypt_length by assumption. lia.
Qed.

(** ** The codec *)

(** C2: for every plaintext string (a sequence of Unicode scalar values,
    the empty one included) and a 256-bit key, [encrypt_value] returns an
    envelope and [decrypt_value] of that envelope, under the same key,
    returns exactly the plaintext. *)
Theorem decrypt_encrypt_round_trip (p : str) (w : world) :
  valid_str p -> length (aes_key w) = 32%nat ->
  exists enc w',
    encrypt_value p w = (Ok enc, w')
    /\ decrypt_value enc w' = (Ok p, w').
Proof.
  intros Hp Hk. destruct (utf8_encode_opt_valid p Hp) as [data Hd].
  eexists _, _. split; [apply (encrypt_value_ok p data w Hd Hk)|].
  apply (decrypt_value_envelope p data _ (set_rng_pos _ w) Hd Hk).
  apply drawn_nonce_length.
Qed.

Lemma decrypt_encrypt_round_trip_witness :
  (exists enc w',
     encrypt_value (py "555-0101") (sample_world ∅ []) = (Ok enc, w')
     /\ decrypt_value enc w' = (Ok (py "555-0101"), w'))
  /\ (exists enc w',
        encrypt_value [] (sample_world ∅ []) = (Ok enc, w')
        /\ decrypt_value enc w' = (Ok [], w')).
Proof.
  split.
  - apply (decrypt_encrypt_round_trip (py "555-0101") (sample_world ∅ []));
      reflexivity.
  - apply (decrypt_encrypt_round_trip [] (sample_world ∅ [])); reflexivity.
Defined.

(** C8: every envelope [encrypt_value] produces decodes from base64 to
    exactly the drawn nonce (12 bytes), then the GCM tag (16 bytes) of the
    ciphertext, then the ciphertext of the UTF-8 bytes of the plaintext, at
    least 28 bytes in all; the empty string is accepted and gives a
    non-empty envelope of exactly the 28 bytes of nonce and tag. *)
Theorem envelope_layout (w : world) :
  length (aes_key w) = 32%nat ->
  (forall p enc w',
     encrypt_value p w = (Ok enc, w') ->
     exists data,
       let c := Cipher (aes_key w) (GCM.j0 (aes_key w) (drawn_nonce w)) in
       let nonce := drawn_nonce w in
       let ciphertext := fst (encrypt_and_digest c data) in
       let tag := snd (encrypt_and_digest c data) in
       utf8_encode p = Ok data
       /\ b64decode enc = Ok (nonce ++ tag ++ ciphertext)
       /\ length nonce = 12%nat /\ length tag = 16%nat
       /\ length ciphertext = length data
       /\ (28 <= length (nonce ++ tag ++ ciphertext))%nat)
  /\ (exists enc w' raw,
        encrypt_value [] w = (Ok enc, w')
        /\ enc <> []
        /\ b64decode enc = Ok raw /\ length raw = 28%nat).
Proof.
  intros Hk. split.
  - intros p enc w' H.
    destruct (encrypt_value_inv p w enc w' H) as (data & Hd & -> & ->).
    exists data. cbv zeta. unfold utf8_encode. rewrite Hd, b64decode_b64encode.
    unfold envelope, encrypt_and_digest. cbn [fst snd c_key c_j0].
    pose proof (drawn_nonce_length w) as Hn.
    split; [reflexivity|]. split; [reflexivity|].
    split; [exact Hn|]. split; [now apply mac_tag_length|].
    split; [apply ctr_crypt_length|].
    rewrite !length_app, Hn, mac_tag_length by assumption. lia.
  - eexists _, _, _. split; [apply (encrypt_value_ok [] [] w eq_refl Hk)|].
    split; [|split; [apply b64decode_b64encode|]].
    + intros E.
      apply (f_equal (@length N)) in E. unfold ascii_str in E.
      rewrite length_map in E.
      pose proof (envelope_length (aes_key w) (drawn_nonce w) [] Hk
                    (drawn_nonce_length w)) as Hl.
      destruct (envelope (aes_key w) (drawn_nonce w) []) as [|a [|b [|c r]]];
        cbn in Hl, E; try discriminate.
    + now rewrite envelope_length by (assumption || apply drawn_nonce_length).
Qed.

Lemma envelope_layout_witness :
  let w := sample_world ∅ [] in
  (forall p enc w',
     encrypt_value p w = (Ok enc, w') ->
     exists data,
       let c := Cipher (aes_key w) (GCM.j0 (aes_key w) (drawn_nonce w)) in
       let nonce := drawn_nonce w in
       let ciphertext := fst (encrypt_and_digest c data) in
       let tag := snd (encrypt_and_digest c data) in
       utf8_encode p = Ok data
       /\ b64decode enc = Ok (nonce ++ tag ++ ciphertext)
       /\ length nonce = 12%nat /\ length tag = 16%nat
       /\ length ciphertext = length data
       /\ (28 <= length (nonce ++ tag ++ ciphertext))%nat)
  /\ (exists enc w' raw,
        encrypt_value [] w = (Ok enc, w')
        /\ enc <> []
        /\ b64decode enc = Ok raw /\ length raw = 28%nat).
Proof. apply (envelope_layout (sample_world ∅ [])). reflexivity. Defined.

(** C10: the decoded envelope of [encrypt_value p] is exactly 28 bytes
    longer than the UTF-8 encoding of [p]: the ciphertext has the length of
    the plaintext. *)
Theorem envelope_reveals_length (p : str) (w : world) (enc : str) (w' : world) :
  length (aes_key w) = 32%nat ->
  encrypt_value p w = (Ok enc, w') ->
  exists data raw,
    utf8_encode p = Ok data
    /\ b64decode enc = Ok raw
    /\ length raw = (28 + length data)%nat
    /\ length (skipn 28 raw) = length data.
Proof.
  intros Hk H.
  destruct (encrypt_value_inv p w enc w' H) as (data & Hd & -> & ->).
  exists data, (envelope (aes_key w) (drawn_nonce w) data).
  unfold utf8_encode. rewrite Hd, b64decode_b64encode.
  pose proof (envelope_length (aes_key w) (drawn_nonce w) data Hk
                (drawn_nonce_length w)) as Hl.
  repeat split; [exact Hl|]. rewrite length_skipn, Hl. lia.
Qed.

Lemma envelope_reveals_length_witness :
  exists data raw,
    utf8_encode (py "555-0101") = Ok data
    /\ b64decode sample_envelope = Ok raw
    /\ length raw = (28 + length data)%nat
    /\ length (skipn 28 raw) = length data.
Proof.
  apply (envelope_reveals_length (py "555-0101") (sample_world ∅ [])
           sample_envelope (snd sample_run)).
  - reflexivity.
  - vm_compute. reflexivity.
Defined.

Lemma envelope_nonce (key iv data : bytes) :
  length iv = 12%nat -> firstn 12 (envelope key iv data) = iv.
Proof.
  intros H. unfold envelope. now rewrite take_app_length' by (symmetry; exact H).
Qed.

(** C7: every call of [encrypt_value] takes twelve new bytes from the
    random source as its nonce, and two calls on the same plaintext under
    the same key whose drawn nonces differ return different envelopes. *)
Theorem fresh_nonce_distinct_envelopes
    (p : str) (w1 w2 : world) (enc1 enc2 : str) (w1' w2' : world) :
  aes_key w2 = aes_key w1 ->
  encrypt_value p w1 = (Ok enc1, w1') ->
  encrypt_value p w2 = (Ok enc2, w2') ->
  drawn_nonce w1 <> drawn_nonce w2 ->
  enc1 <> enc2
  /\ (exists raw1, b64decode enc1 = Ok raw1 /\ firstn 12 raw1 = drawn_nonce w1)
  /\ (exists raw2, b64decode enc2 = Ok raw2 /\ firstn 12 raw2 = drawn_nonce w2)
  /\ rng_pos w1' = (rng_pos w1 + 12)%nat
  /\ rng_pos w2' = (rng_pos w2 + 12)%nat.
Proof.
  intros Hk H1 H2 Hn.
  destruct (encrypt_value_inv p w1 enc1 w1' H1) as (d1 & Hd1 & -> & ->).
  destruct (encrypt_value_inv p w2 enc2 w2' H2) as (d2 & Hd2 & -> & ->).
  split; [|split; [|split; [|split; reflexivity]]].
  - intros E. apply ascii_str_inj, b64encode_inj in E.
    apply (f_equal (firstn 12)) in E.
    rewrite !envelope_nonce in E by apply drawn_nonce_length.
    contradiction.
  - eexists. split; [apply b64decode_b64encode|].
    apply envelope_nonce, drawn_nonce_length.
  - eexists. split; [apply b64decode_b64encode|].
    apply envelope_nonce, drawn_nonce_length.
Qed.

Lemma fresh_nonce_distinct_envelopes_witness :
  sample_envelope <> sample_second_envelope
  /\ (exists raw1, b64decode sample_envelope = Ok raw1
                   /\ firstn 12 raw1 = drawn_nonce (sample_world ∅ []))
  /\ (exists raw2, b64decode sample_second_envelope = Ok raw2
                   /\ firstn 12 raw2 = drawn_nonce (snd sample_run))
  /\ rng_pos (snd sample_run) = (rng_pos (sample_world ∅ []) + 12)%nat
  /\ rng_pos (set_rng_pos 24 (sample_world ∅ []))
     = (rng_pos (snd sample_run) + 12)%nat.
Proof.
  apply (fresh_nonce_distinct_envelopes (py "555-0101")
           (sample_world ∅ []) (snd sample_run)
           sample_envelope sample_second_envelope
           (snd sample_run) (set_rng_pos 24 (sample_world ∅ []))).
  - reflexivity.
  - vm_compute. reflexivity.
  - vm_compute. reflexivity.
  - vm_compute. discriminate.
Defined.

(** ** Failures of [decrypt_value] *)

Lemma decrypt_value_unfold (enc : str) (raw : bytes) (w : world) :
  b64decode enc = Ok raw ->
  decrypt_value enc w
  = match AES_new (aes_key w) (firstn 12 raw) with
    | Ok c =>
        match decrypt_and_verify c (skipn 28 raw) (firstn 16 (skipn 12 raw)) with
        | Ok data => (utf8_decode data, w)
        | Raise e => (Raise e, w)
        end
    | Raise e => (Raise e, w)
    end.
Proof.
  intros H. unfold decrypt_value, bind, get_aes_key, lift. rewrite H.
  destruct (AES_new _ _); [|reflexivity].
  destruct (decrypt_and_verify _ _ _); reflexivity.
Qed.

Lemma decrypt_value_tag_mismatch (enc : str) (raw : bytes) (w : world) :
  length (aes_key w) = 32%nat -> b64decode enc = Ok raw -> raw <> [] ->
  firstn 16 (skipn 12 raw)
  <> GCM.mac_tag (aes_key w) (GCM.j0 (aes_key w) (firstn 12 raw)) (skipn 28 raw) ->
  decrypt_value enc w = (Raise (ValueError "MAC check failed"), w).
Proof.
  intros Hk Hb Hr Ht. rewrite (decrypt_value_unfold enc raw w Hb).
  rewrite AES_new_ok; [|assumption|destruct raw; [contradiction|discriminate]].
  unfold decrypt_and_verify. cbn [c_key c_j0].
  rewrite bool_decide_eq_false_2 by (intros E; apply Ht; now symmetry).
  reflexivity.
Qed.




(** *** Inverting one bit *)

Lemma byte_flip_check :
  forallb (fun n =>
    forallb (fun i =>
      negb (bool_decide
              (byte_xor (byte_of_N (N.of_nat n)) (byte_of_N (2 ^ N.of_nat i))
               = byte_of_N (N.of_nat n))))
      (seq 0 8))
    (seq 0 256) = true.
Proof. vm_compute. reflexivity. Qed.

Lemma byte_flip_neq (b : byte) (i : nat) :
  (i < 8)%nat -> byte_xor b (byte_of_N (2 ^ N.of_nat i)) <> b.
Proof.
  intros Hi E. pose proof byte_flip_check as H.
  rewrite forallb_forall in H.
  specialize (H (N.to_nat (N_of_byte b))).
  rewrite N2Nat.id, byte_of_N_of_byte in H.
  assert (Hin : In (N.to_nat (N_of_byte b)) (seq 0 256)).
  { apply in_seq. pose proof (N_of_byte_lt b). lia. }
  specialize (H Hin). rewrite forallb_forall in H.
  specialize (H i ltac:(apply in_seq; lia)).
  apply negb_true_iff, bool_decide_eq_false in H. contradiction.
Qed.

Lemma flip_bit_length (i : nat) (bs : bytes) :
  length (flip_bit i bs) = length bs.
Proof.
  revert i. induction bs as [|b r IH]; intros i; cbn [flip_bit]; [reflexivity|].
  destruct (Nat.ltb i 8); cbn [length]; [reflexivity|]. now rewrite IH.
Qed.

Lemma flip_bit_neq (i : nat) (bs : bytes) :
  (i < 8 * length bs)%nat -> flip_bit i bs <> bs.
Proof.
  revert i. induction bs as [|b r IH]; intros i Hi; cbn [length] in Hi; [lia|].
  cbn [flip_bit]. destruct (Nat.ltb_spec i 8).
  - intros [= E]. now apply (byte_flip_neq b i).
  - intros [= E]. apply (IH (i - 8)%nat); [lia|exact E].
Qed.

Lemma flip_bit_app_r (i : nat) (a b : bytes) :
  (8 * length a <= i)%nat ->
  flip_bit i (a ++ b) = a ++ flip_bit (i - 8 * length a) b.
Proof.
  revert i. induction a as [|x a IH]; intros i Hi; cbn [length app] in *.
  - f_equal. lia.
  - cbn [flip_bit]. destruct (Nat.ltb_spec i 8); [lia|].
    rewrite IH by lia. do 3 f_equal. lia.
Qed.

Lemma flip_bit_app_l (i : nat) (a b : bytes) :
  (i < 8 * length a)%nat -> flip_bit i (a ++ b) = flip_bit i a ++ b.
Proof.
  revert i. induction a as [|x a IH]; intros i Hi; cbn [length app] in *; [lia|].
  cbn [flip_bit]. destruct (Nat.ltb_spec i 8); [reflexivity|].
  cbn [app]. now rewrite IH by lia.
Qed.

Lemma split_envelope (iv tag ct : bytes) :
  length iv = 12%nat -> length tag = 16%nat ->
  firstn 12 (iv ++ tag ++ ct) = iv
  /\ firstn 16 (skipn 12 (iv ++ tag ++ ct)) = tag
  /\ skipn 28 (iv ++ tag ++ ct) = ct.
Proof.
  intros Hiv Ht. repeat split.
  - now rewrite take_app_length' by (symmetry; assumption).
  - rewrite drop_app_length' by (symmetry; assumption).
    now rewrite take_app_length' by (symmetry; assumption).
  - rewrite app_assoc. rewrite drop_app_length'; [reflexivity|].
    rewrite length_app. lia.
Qed.

Lemma decrypt_value_tag_bit (iv data : bytes) (i : nat) (w : world) :
  length (aes_key w) = 32%nat -> length iv = 12%nat ->
  (96 <= i < 224)%nat ->
  decrypt_value
    (ascii_str (b64encode (flip_bit i (envelope (aes_key w) iv data)))) w
  = (Raise (ValueError "MAC check failed"), w).
Proof.
  intros Hk Hiv Hi.
  set (key := aes_key w).
  set (ct := GCM.ctr_crypt key (GCM.j0 key iv) data).
  set (tag := GCM.mac_tag key (GCM.j0 key iv) ct).
  assert (Ht : length tag = 16%nat) by now apply mac_tag_length.
  assert (E : flip_bit i (envelope key iv data)
              = iv ++ flip_bit (i - 96) tag ++ ct).
  { unfold envelope, encrypt_and_digest. cbn [fst snd c_key c_j0].
    fold ct. fold tag.
    rewrite flip_bit_app_r by lia. rewrite Hiv.
    rewrite flip_bit_app_l by lia. reflexivity. }
  rewrite E.
  destruct (split_envelope iv (flip_bit (i - 96) tag) ct Hiv
              ltac:(now rewrite flip_bit_length)) as (E1 & E2 & E3).
  apply (decrypt_value_tag_mismatch _ _ w Hk (b64decode_b64encode _)).
  - destruct iv; discriminate.
  - rewrite E1, E2, E3. fold key. fold ct. fold tag.
    apply flip_bit_neq. lia.
Qed.




(** On the sample envelope, an inverted bit of the nonce or of the
    ciphertext and another key are rejected in the same way; in general
    this rests on the strength of the cipher, not on the code. *)
Example sample_envelope_other_corruptions :
  let w := sample_world ∅ [] in
  let other := World sample_tape 0 (GCM.zeros 32) ∅ ∅ 0 [] 1000 in
  decrypt_value (ascii_str (b64encode (flip_bit 3 sample_raw))) w
  = (Raise (ValueError "MAC check failed"), w)
  /\ decrypt_value (ascii_str (b64encode (flip_bit 230 sample_raw))) w
     = (Raise (ValueError "MAC check failed"), w)
  /\ decrypt_value sample_envelope other
     = (Raise (ValueError "MAC check failed"), other).
Proof. vm_compute. repeat split; reflexivity. Qed.

(** ** The intake handler *)

Lemma bind_ok_inv {A B} (m : M A) (k : A -> M B) (w : world) (b : B)
    (w' : world) :
  bind m k w = (Ok b, w') ->
  exists a w1, m w = (Ok a, w1) /\ k a w1 = (Ok b, w').
Proof.
  unfold bind. destruct (m w) as [[a|e] w1]; [eauto|discriminate].
Qed.

Lemma save_intake_returns (full_name dob email phone address mrn diagnosis
    insurance card amount : str) (w : world) (r : response) (w' : world) :
  save_intake full_name dob email phone address mrn diagnosis insurance card
    amount w = (Ok r, w') ->
  r = Redirect "/success".
Proof.
  unfold save_intake. intros H.
  repeat (apply bind_ok_inv in H as (? & ? & _ & H)).
  unfold ret in H. congruence.
Qed.

Lemma patient_form_post (r : request) (w : world) :
  method r = "POST" ->
  patient_form r w
  = if invalid_input (read_field r "full_name") (read_field r "email")
         (read_field r "mrn") (read_field r "card")
    then (Ok (Text "Invalid input" 400), w)
    else
      match save_intake (read_field r "full_name") (read_field r "dob")
              (read_field r "email") (read_field r "phone")
              (read_field r "address") (read_field r "mrn")
              (read_field r "diagnosis") (read_field r "insurance")
              (read_field r "card") (read_field r "amount") w with
      | (Ok a, w') => (Ok a, w')
      | (Raise e, w') =>
          (Ok (Text ("Error while saving to DB: " ++ exn_message e) 500), w')
      end.
Proof.
  intros Hm. unfold patient_form. rewrite bool_decide_eq_true_2 by exact Hm.
  unfold try_except, read_field.
  destruct (invalid_input _ _ _ _); reflexivity.
Qed.

Lemma invalid_input_iff (full_name email mrn card : str) :
  invalid_input full_name email mrn card = true
  <-> ((length full_name < 2)%nat \/ contains_at email = false
       \/ (length mrn < 3)%nat \/ (length card < 4)%nat).
Proof.
  unfold invalid_input. rewrite !orb_true_iff, negb_true_iff, !Nat.ltb_lt.
  tauto.
Qed.

Lemma lstrip_contains_at (s : str) : contains_at (lstrip s) = contains_at s.
Proof.
  induction s as [|c s IH]; [reflexivity|]. cbn [lstrip].
  destruct (is_space c) eqn:E; [|reflexivity].
  rewrite IH. unfold contains_at. cbn [existsb].
  destruct (N.eqb_spec 64 c) as [<-|]; [discriminate E|reflexivity].
Qed.

Lemma contains_at_rev (s : str) : contains_at (rev s) = contains_at s.
Proof.
  unfold contains_at. induction s as [|c s IH]; [reflexivity|].
  cbn [rev existsb]. rewrite existsb_app, IH. cbn [existsb].
  now rewrite orb_false_r, orb_comm.
Qed.

Lemma strip_contains_at (s : str) : contains_at (strip s) = contains_at s.
Proof.
  unfold strip.
  now rewrite contains_at_rev, lstrip_contains_at, contains_at_rev,
    lstrip_contains_at.
Qed.

(** ** Running the store *)

Ltac string_tests :=
  repeat match goal with
  | |- context [@bool_decide (@eq string ?a ?b) ?d] =>
      let v := eval vm_compute in (@bool_decide (@eq string a b) d) in
      change (@bool_decide (@eq string a b) d) with v
  end.

Lemma bind_step {A B} (m : M A) (k : A -> M B) (w w1 : world) (a : A) :
  m w = (Ok a, w1) -> bind m k w = k a w1.
Proof. intros H. unfold bind. now rewrite H. Qed.

Lemma bind_raise {A B} (m : M A) (k : A -> M B) (w w1 : world) (e : exn) :
  m w = (Raise e, w1) -> bind m k w = (Raise e, w1).
Proof. intros H. unfold bind. now rewrite H. Qed.

Lemma server_step_quiet (w : world) : faults w = [] -> server_step w = (Ok tt, w).
Proof. intros H. unfold server_step. now rewrite H. Qed.

Lemma get_db_conn_quiet (w : world) :
  faults w = [] ->
  get_db_conn w = (Ok tt, set_lastrowid 0 (set_working (committed w) w)).
Proof.
  intros H. unfold get_db_conn.
  now rewrite (bind_step _ _ _ _ _ (server_step_quiet w H)).
Qed.

Lemma commit_quiet (w : world) :
  faults w = [] -> commit w = (Ok tt, set_committed (working w) w).
Proof.
  intros H. unfold commit.
  now rewrite (bind_step _ _ _ _ _ (server_step_quiet w H)).
Qed.

Lemma lookup_append_row_ne (t t' : string) (row : list value) (st : store) :
  t <> t' -> append_row t row st !! t' = st !! t'.
Proof.
  intros H. unfold append_row. destruct (st !! t); [|reflexivity].
  now rewrite lookup_insert_ne.
Qed.

Lemma has_table_append_row (t t' : string) (row : list value) (st : store)
    (cols : list column) :
  has_table st t' cols -> has_table (append_row t row st) t' cols.
Proof.
  intros (tb & H1 & H2). unfold has_table, append_row.
  destruct (st !! t) as [tb0|] eqn:E; [|eauto].
  destruct (decide (t = t')) as [->|Hne].
  - rewrite lookup_insert_eq. eexists. split; [reflexivity|].
    cbn. congruence.
  - rewrite lookup_insert_ne by exact Hne. eauto.
Qed.

(** An [INSERT] the server accepts, into a table without insert trigger. *)
Lemma execute_insert_quiet (t : string) (assigns : list (string * value))
    (cols : list column) (row : list value) (w : world) :
  faults w = [] -> t <> "Payment_Transactions" ->
  has_table (working w) t cols ->
  (forall id, build_row cols id assigns = Some (VInt id :: row)) ->
  execute_insert t assigns w
  = (Ok tt,
     set_lastrowid (next_id (working w) t)
       (set_working
          (append_row t (VInt (next_id (working w) t) :: row) (working w)) w)).
Proof.
  intros Hf Ht (tb & Hl & Hc) Hrow. unfold execute_insert.
  rewrite (bind_step _ _ _ _ _ (server_step_quiet w Hf)).
  unfold sql_insert, store_insert, next_id, append_row.
  rewrite Hl, Hc, Hrow, lookup_insert_eq.
  unfold after_insert_trigger. now rewrite bool_decide_eq_false_2.
Qed.

Lemma encrypt_value_nth (p : str) (data : bytes) (w0 w : world) (k : nat) :
  utf8_encode_opt p = Some data -> length (aes_key w0) = 32%nat ->
  aes_key w = aes_key w0 -> rng_tape w = rng_tape w0 ->
  rng_pos w = (rng_pos w0 + 12 * k)%nat ->
  encrypt_value p w
  = (Ok (ascii_str (envelope_text w0 k data)),
     set_rng_pos (rng_pos w0 + 12 * S k) w).
Proof.
  intros Hp Hk Ek Et Er.
  rewrite (encrypt_value_ok p data w Hp) by now rewrite Ek.
  unfold envelope_text, nth_nonce, drawn_nonce. rewrite Ek, Et, Er.
  do 2 f_equal. lia.
Qed.

Ltac build_row_tac :=
  intros;
  unfold patients_cols, medical_records_cols, insurance_cols, billing_cols,
    payments_cols, col, stamp;
  cbn [build_row build_cells assoc col_name col_type col_default];
  string_tests;
  cbn [to_column option_map];
  rewrite ?utf8_encode_ascii by (unfold envelope_text; apply b64encode_ascii);
  reflexivity.

Ltac sw :=
  cbn [working committed lastrowid faults aes_key rng_tape rng_pos clock
       set_working set_lastrowid set_rng_pos set_committed set_faults].

Ltac table_tac :=
  cbn [working committed set_working set_lastrowid set_rng_pos set_committed set_faults];
  repeat apply has_table_append_row; assumption.

Lemma save_intake_ok (full_name dob email phone address mrn diagnosis
    insurance card amount : str) (mrn_b diagnosis_b insurance_b card_b : bytes)
    (w : world) :
  faults w = [] -> length (aes_key w) = 32%nat -> intake_ready (committed w) ->
  utf8_encode_opt mrn = Some mrn_b ->
  utf8_encode_opt diagnosis = Some diagnosis_b ->
  utf8_encode_opt insurance = Some insurance_b ->
  utf8_encode_opt card = Some card_b ->
  exists w',
    save_intake full_name dob email phone address mrn diagnosis insurance card
      amount w = (Ok (Redirect "/success"), w')
    /\ committed w'
       = intake_store w full_name dob email phone address amount mrn_b
           diagnosis_b insurance_b card_b
    /\ aes_key w' = aes_key w.
Proof.
  intros Hf Hk (Hp & Hm & Hi & Hb & Hy) E1 E2 E3 E4.
  unfold save_intake.
  rewrite (bind_step _ _ _ _ _ (get_db_conn_quiet w Hf)). sw.
  erewrite bind_step;
    [|apply (execute_insert_quiet "patients" _ patients_cols);
      [exact Hf|done|table_tac|build_row_tac]]. sw.
  erewrite bind_step; [|reflexivity]. sw.
  erewrite bind_step;
    [|apply (encrypt_value_nth mrn mrn_b w _ 0 E1 Hk); cbn; try reflexivity; lia]. sw.
  erewrite bind_step;
    [|apply (encrypt_value_nth diagnosis diagnosis_b w _ 1 E2 Hk); cbn; try reflexivity; lia]. sw.
  erewrite bind_step;
    [|apply (execute_insert_quiet "medical_records" _ medical_records_cols);
      [exact Hf|done|table_tac|build_row_tac]]. sw.
  erewrite bind_step;
    [|apply (encrypt_value_nth insurance insurance_b w _ 2 E3 Hk); cbn; try reflexivity; lia]. sw.
  erewrite bind_step;
    [|apply (execute_insert_quiet "insurance" _ insurance_cols);
      [exact Hf|done|table_tac|build_row_tac]]. sw.
  erewrite bind_step;
    [|apply (execute_insert_quiet "billing" _ billing_cols);
      [exact Hf|done|table_tac|build_row_tac]]. sw.
  erewrite bind_step; [|reflexivity]. sw.
  erewrite bind_step;
    [|apply (encrypt_value_nth card card_b w _ 3 E4 Hk); cbn; try reflexivity; lia]. sw.
  erewrite bind_step;
    [|apply (execute_insert_quiet "payments" _ payments_cols);
      [exact Hf|done|table_tac|build_row_tac]]. sw.
  erewrite bind_step; [|apply commit_quiet; exact Hf]. sw.
  erewrite bind_step; [|reflexivity]. sw.
  unfold ret. eexists. split; [reflexivity|]. sw.
  split; reflexivity.
Qed.

Lemma intake_schema_ready : intake_ready intake_schema.
Proof. repeat split; eexists; split; vm_compute; reflexivity. Qed.

(** C4 (as the code has it): a posted submission is rejected with
    ["Invalid input"], status 400, if and only if, once the handler has
    trimmed the whitespace around each field (a missing field counts as
    empty), the full name has fewer than 2 characters, or the email holds
    no ['@'], or the medical-record number has fewer than 3 characters, or
    the card number has fewer than 4; each rule alone is enough.  A
    submission that passes the four rules is processed: when the store
    offers the intake tables and reports no failure, the answer is the
    redirect to [/success] and the five rows are committed. *)
Theorem patient_form_rejects_iff (r : request) (w : world) :
  method r = "POST" ->
  let full_name := read_field r "full_name" in
  let mrn := read_field r "mrn" in
  let card := read_field r "card" in
  let rejected :=
    (length full_name < 2)%nat \/ contains_at (form_get r "email") = false
    \/ (length mrn < 3)%nat \/ (length card < 4)%nat in
  (fst (patient_form r w) = Ok (Text "Invalid input" 400) <-> rejected)
  /\ (~ rejected ->
      faults w = [] -> length (aes_key w) = 32%nat ->
      intake_ready (committed w) ->
      valid_str mrn -> valid_str (read_field r "diagnosis") ->
      valid_str (read_field r "insurance") -> valid_str card ->
      exists w' mrn_b diagnosis_b insurance_b card_b,
        patient_form r w = (Ok (Redirect "/success"), w')
        /\ utf8_encode mrn = Ok mrn_b
        /\ utf8_encode (read_field r "diagnosis") = Ok diagnosis_b
        /\ utf8_encode (read_field r "insurance") = Ok insurance_b
        /\ utf8_encode card = Ok card_b
        /\ committed w'
           = intake_store w full_name (read_field r "dob")
               (read_field r "email") (read_field r "phone")
               (read_field r "address") (read_field r "amount")
               mrn_b diagnosis_b insurance_b card_b).
Proof.
  intros Hm full_name mrn card rejected.
  assert (Hrej : invalid_input full_name (read_field r "email") mrn card = true
                 <-> rejected).
  { rewrite invalid_input_iff. unfold rejected, read_field.
    now rewrite strip_contains_at. }
  rewrite (patient_form_post r w Hm). fold full_name mrn card.
  split.
  - destruct (invalid_input full_name (read_field r "email") mrn card) eqn:Ei.
    + cbn [fst]. split; [intros _; now apply Hrej|reflexivity].
    + split; [|intros Hr; apply Hrej in Hr; discriminate].
      destruct (save_intake _ _ _ _ _ _ _ _ _ _ w) as [[a|e] w1] eqn:Es;
        cbn [fst]; [|discriminate].
      apply save_intake_returns in Es. subst a. discriminate.
  - intros Hn Hf Hk Hready V1 V2 V3 V4.
    destruct (invalid_input full_name (read_field r "email") mrn card) eqn:Ei.
    { exfalso. apply Hn. now apply Hrej. }
    destruct (utf8_encode_opt_valid _ V1) as [b1 E1].
    destruct (utf8_encode_opt_valid _ V2) as [b2 E2].
    destruct (utf8_encode_opt_valid _ V3) as [b3 E3].
    destruct (utf8_encode_opt_valid _ V4) as [b4 E4].
    destruct (save_intake_ok full_name (read_field r "dob")
                (read_field r "email") (read_field r "phone")
                (read_field r "address") mrn (read_field r "diagnosis")
                (read_field r "insurance") card (read_field r "amount")
                b1 b2 b3 b4 w Hf Hk Hready E1 E2 E3 E4) as (w' & Hs & Hc & _).
    exists w', b1, b2, b3, b4. rewrite Hs. unfold utf8_encode.
    rewrite E1, E2, E3, E4. repeat split; try reflexivity. exact Hc.
Qed.

Lemma patient_form_rejects_iff_witness :
  let r := sample_submission (py " Ann Lee ") (py "a@b.com") (py "MRN1")
             (py "4111111111111111") in
  let w := sample_world intake_schema [] in
  let rejected :=
    (length (read_field r "full_name") < 2)%nat
    \/ contains_at (form_get r "email") = false
    \/ (length (read_field r "mrn") < 3)%nat
    \/ (length (read_field r "card") < 4)%nat in
  (fst (patient_form r w) = Ok (Text "Invalid input" 400) <-> rejected)
  /\ exists w' mrn_b diagnosis_b insurance_b card_b,
       patient_form r w = (Ok (Redirect "/success"), w')
       /\ utf8_encode (read_field r "mrn") = Ok mrn_b
       /\ utf8_encode (read_field r "diagnosis") = Ok diagnosis_b
       /\ utf8_encode (read_field r "insurance") = Ok insurance_b
       /\ utf8_encode (read_field r "card") = Ok card_b
       /\ committed w'
          = intake_store w (read_field r "full_name") (read_field r "dob")
              (read_field r "email") (read_field r "phone")
              (read_field r "address") (read_field r "amount")
              mrn_b diagnosis_b insurance_b card_b.
Proof.
  intros r w rejected.
  destruct (patient_form_rejects_iff r w eq_refl) as [H1 H2].
  split; [exact H1|].
  apply H2; try reflexivity.
  - intros [H|[H|[H|H]]]; vm_compute in H; (lia || discriminate).
  - exact intake_schema_ready.
Defined.

(** C4 fails as stated: a full name of two characters, the second a
    space, passes the four rules as the claim words them, yet the
    submission is rejected. *)
Lemma padded_name_is_rejected :
  let r := sample_submission (py "A ") (py "a@b.com") (py "MRN1") (py "4111") in
  length (form_get r "full_name") = 2%nat
  /\ contains_at (form_get r "email") = true
  /\ length (form_get r "mrn") = 4%nat
  /\ length (form_get r "card") = 4%nat
  /\ fst (patient_form r (sample_world intake_schema []))
     = Ok (Text "Invalid input" 400).
Proof. vm_compute. repeat split; reflexivity. Qed.

(** C9 (as the code has it): every violated rule gets the one fixed
    answer ["Invalid input"] with status 400, which names no rule; a
    failure of the store or of the cipher while saving gets status 500 and
    the text ["Error while saving to DB: "] followed by the message of the
    exception; the handler itself never raises. *)
Theorem patient_form_error_responses (r : request) (w : world) :
  method r = "POST" ->
  let invalid :=
    invalid_input (read_field r "full_name") (read_field r "email")
      (read_field r "mrn") (read_field r "card") in
  let save :=
    save_intake (read_field r "full_name") (read_field r "dob")
      (read_field r "email") (read_field r "phone") (read_field r "address")
      (read_field r "mrn") (read_field r "diagnosis")
      (read_field r "insurance") (read_field r "card")
      (read_field r "amount") in
  (invalid = true -> patient_form r w = (Ok (Text "Invalid input" 400), w))
  /\ (invalid = false ->
      forall e w', save w = (Raise e, w') ->
      patient_form r w
      = (Ok (Text ("Error while saving to DB: " ++ exn_message e) 500), w'))
  /\ (exists resp, fst (patient_form r w) = Ok resp).
Proof.
  intros Hm invalid save. rewrite (patient_form_post r w Hm).
  fold invalid. fold save. repeat split.
  - now intros ->.
  - intros -> e w' ->. reflexivity.
  - destruct invalid; [eauto|]. destruct (save w) as [[a|e] w1]; eauto.
Qed.

Lemma patient_form_error_responses_witness :
  let short_name :=
    sample_submission (py "A") (py "a@b.com") (py "MRN1") (py "4111") in
  let valid :=
    sample_submission (py "Ann Lee") (py "a@b.com") (py "MRN1") (py "4111") in
  let w := sample_world intake_schema [] in
  let failing := sample_world intake_schema [None; Some "1205 (HY000)"] in
  patient_form short_name w = (Ok (Text "Invalid input" 400), w)
  /\ fst (patient_form valid failing)
     = Ok (Text "Error while saving to DB: 1205 (HY000)" 500)
  /\ (exists resp, fst (patient_form valid failing) = Ok resp).
Proof.
  intros short_name valid w failing.
  destruct (patient_form_error_responses short_name w eq_refl) as (H1 & _ & _).
  destruct (patient_form_error_responses valid failing eq_refl)
    as (_ & H2 & H3).
  split; [apply H1; reflexivity|]. split; [|exact H3].
  rewrite (H2 eq_refl (DbError "1205 (HY000)")
             (snd (patient_form valid failing))); [reflexivity|].
  vm_compute. reflexivity.
Defined.

(** C9 fails as stated: a too short name and an email without ['@'] get
    the same answer, which names neither rule, and the message of a
    failing statement is part of the answer. *)
Lemma error_responses_are_not_as_designed :
  let w := sample_world intake_schema [] in
  let short_name :=
    sample_submission (py "A") (py "a@b.com") (py "MRN1") (py "4111") in
  let no_at :=
    sample_submission (py "Ann Lee") (py "nodomain") (py "MRN1") (py "4111") in
  let valid :=
    sample_submission (py "Ann Lee") (py "a@b.com") (py "MRN1") (py "4111") in
  let failing :=
    sample_world intake_schema
      [None; Some "1062 (23000): Duplicate entry 'a@b.com' for key 'patients.email'"] in
  fst (patient_form short_name w) = Ok (Text "Invalid input" 400)
  /\ fst (patient_form no_at w) = Ok (Text "Invalid input" 400)
  /\ fst (patient_form valid failing)
     = Ok (Text "Error while saving to DB: 1062 (23000): Duplicate entry 'a@b.com' for key 'patients.email'" 500).
Proof. vm_compute. repeat split; reflexivity. Qed.

(** ** The patient repository *)

Lemma b64encode_length_ge (bs : bytes) : (length bs <= length (b64encode bs))%nat.
Proof.
  induction bs as [|a|a b|a b c r IH] using list_ind3; cbn [b64encode length];
    lia.
Qed.

Lemma nth_nonce_length (w : world) (k : nat) : length (nth_nonce w k) = 12%nat.
Proof. unfold nth_nonce. now rewrite length_map, length_seq. Qed.

Lemma envelope_text_longer (w : world) (k : nat) (data : bytes) :
  length (aes_key w) = 32%nat ->
  (length data < length (envelope_text w k data))%nat.
Proof.
  intros Hk. unfold envelope_text.
  pose proof (b64encode_length_ge (envelope (aes_key w) (nth_nonce w k) data)) as H.
  rewrite envelope_length in H by (assumption || apply nth_nonce_length). lia.
Qed.

(** A stored envelope is read back by [decrypt_data] in any world with
    the same key. *)
Lemma holds_envelope_text (w0 w : world) (k : nat) (p : str) (data : bytes) :
  utf8_encode_opt p = Some data -> length (aes_key w0) = 32%nat ->
  aes_key w = aes_key w0 ->
  holds_envelope_of w (VBytes (envelope_text w0 k data)) p.
Proof.
  intros Hp Hk Ek.
  pose proof (envelope_text_longer w0 k data Hk) as Hl.
  exists (envelope_text w0 k data), data. unfold utf8_encode. rewrite Hp.
  split; [reflexivity|]. split; [reflexivity|].
  split; [intros E; rewrite E in Hl; lia|]. split; [exact Hl|].
  unfold decrypt_data.
  destruct (envelope_text w0 k data) as [|b0 r] eqn:Ee; [cbn in Hl; lia|].
  rewrite <- Ee. unfold utf8_decode.
  rewrite utf8_decode_ascii by (unfold envelope_text; apply b64encode_ascii).
  unfold lift at 1. unfold bind at 1.
  unfold envelope_text. rewrite <- Ek.
  apply decrypt_value_envelope; [exact Hp|now rewrite Ek|apply nth_nonce_length].
Qed.

Ltac hospital_row_tac :=
  intros;
  unfold Patient_cols, Staff_cols, Patient_Sensitive_cols,
    Medical_Record_cols, Payment_Methods_cols, col, stamp;
  cbn [build_row build_cells assoc col_name col_type col_default];
  string_tests;
  cbn [to_column option_map];
  rewrite ?utf8_encode_ascii by (unfold envelope_text; apply b64encode_ascii);
  reflexivity.

Lemma insert_patient_data_ok (pd : patient_data)
    (phone email ssn state_id : bytes) (w : world) :
  faults w = [] -> length (aes_key w) = 32%nat ->
  has_table (working w) "Patient" Patient_cols ->
  utf8_encode_opt (or_empty (p_phone_number pd)) = Some phone ->
  utf8_encode_opt (or_empty (p_email pd)) = Some email ->
  utf8_encode_opt (or_empty (p_ssn pd)) = Some ssn ->
  utf8_encode_opt (or_empty (p_state_id pd)) = Some state_id ->
  exists w1,
    insert_patient_data pd w = (Ok (next_id (working w) "Patient"), w1)
    /\ working w1
       = append_row "Patient" (patient_row w pd phone email ssn state_id)
           (working w)
    /\ committed w1 = working w1
    /\ faults w1 = [] /\ aes_key w1 = aes_key w.
Proof.
  intros Hf Hk Ht E1 E2 E3 E4. unfold insert_patient_data, encrypt_data.
  erewrite bind_step;
    [|apply (encrypt_value_nth _ phone w _ 0 E1 Hk); cbn; try reflexivity; lia].
  sw.
  erewrite bind_step;
    [|apply (encrypt_value_nth _ email w _ 1 E2 Hk); cbn; try reflexivity; lia].
  sw.
  erewrite bind_step;
    [|apply (encrypt_value_nth _ ssn w _ 2 E3 Hk); cbn; try reflexivity; lia].
  sw.
  erewrite bind_step;
    [|apply (encrypt_value_nth _ state_id w _ 3 E4 Hk); cbn; try reflexivity; lia].
  sw.
  erewrite bind_step;
    [|apply (execute_insert_quiet "Patient" _ Patient_cols);
      [exact Hf|done|exact Ht|hospital_row_tac]].
  sw.
  erewrite bind_step; [|apply commit_quiet; exact Hf]. sw.
  erewrite bind_step; [|reflexivity]. sw.
  unfold ret. eexists. split; [reflexivity|]. sw.
  repeat split; try reflexivity. exact Hf.
Qed.

Lemma select_new_row (st : store) (t key : string) (cols : list column)
    (row : list value) :
  has_table st t cols -> keys_below_next st t ->
  col_index cols key = Some 0%nat ->
  sql_select (append_row t (VInt (next_id st t) :: row) st) t key
    (VInt (next_id st t))
  = Ok [VInt (next_id st t) :: row].
Proof.
  intros (tb & Hl & Hc) Hwf Hk. unfold sql_select, append_row, next_id.
  specialize (Hwf tb Hl). rewrite Hl, lookup_insert_eq. cbn [t_cols t_rows].
  f_equal. rewrite List.filter_app. cbn [List.filter].
  replace (List.filter _ (t_rows tb)) with (@nil (list value)).
  - unfold row_matches, field. rewrite Hc, Hk. cbn [nth].
    now rewrite bool_decide_eq_true_2.
  - symmetry. induction Hwf as [|r rs (i & Hi & Hlt) _ IH]; [reflexivity|].
    cbn [List.filter]. unfold row_matches at 1. unfold field.
    rewrite Hc, Hk, Hi.
    rewrite bool_decide_eq_false_2 by (intros [= E]; lia).
    rewrite <- Hc. exact IH.
Qed.

Lemma get_patient_data_new (w0 w1 : world) (pd : patient_data)
    (phone email ssn state_id : bytes) :
  faults w1 = [] -> length (aes_key w0) = 32%nat -> aes_key w1 = aes_key w0 ->
  has_table (working w0) "Patient" Patient_cols ->
  keys_below_next (working w0) "Patient" ->
  working w1
  = append_row "Patient" (patient_row w0 pd phone email ssn state_id)
      (working w0) ->
  utf8_encode_opt (or_empty (p_phone_number pd)) = Some phone ->
  utf8_encode_opt (or_empty (p_email pd)) = Some email ->
  utf8_encode_opt (or_empty (p_ssn pd)) = Some ssn ->
  utf8_encode_opt (or_empty (p_state_id pd)) = Some state_id ->
  get_patient_data (next_id (working w0) "Patient") w1
  = (Ok (Some (view_of_row (patient_row w0 pd phone email ssn state_id)
                 (or_empty (p_phone_number pd)) (or_empty (p_email pd))
                 (or_empty (p_ssn pd)) (or_empty (p_state_id pd)))), w1).
Proof.
  intros Hf Hk Ek Ht Hwf Ew E1 E2 E3 E4. unfold get_patient_data.
  assert (Hsel : execute_select_one "Patient" "patient_id"
                   (VInt (next_id (working w0) "Patient")) w1
                 = (Ok (Some (patient_row w0 pd phone email ssn state_id)), w1)).
  { unfold execute_select_one.
    rewrite (bind_step _ _ _ _ _ (server_step_quiet w1 Hf)).
    rewrite Ew. unfold patient_row at 1.
    assert (Hc : col_index Patient_cols "patient_id" = Some 0%nat)
      by (vm_compute; reflexivity).
    now rewrite (select_new_row _ "Patient" "patient_id" Patient_cols _ Ht
                   Hwf Hc). }
  rewrite (bind_step _ _ _ _ _ Hsel).
  destruct (holds_envelope_text w0 w1 0 _ _ E1 Hk Ek) as (? & ? & _ & _ & _ & _ & D1).
  destruct (holds_envelope_text w0 w1 1 _ _ E2 Hk Ek) as (? & ? & _ & _ & _ & _ & D2).
  destruct (holds_envelope_text w0 w1 2 _ _ E3 Hk Ek) as (? & ? & _ & _ & _ & _ & D3).
  destruct (holds_envelope_text w0 w1 3 _ _ E4 Hk Ek) as (? & ? & _ & _ & _ & _ & D4).
  unfold patient_row at 1 2 3 4. cbn [nth].
  rewrite (bind_step _ _ _ _ _ D1), (bind_step _ _ _ _ _ D2),
    (bind_step _ _ _ _ _ D3), (bind_step _ _ _ _ _ D4).
  reflexivity.
Qed.

(** ** The other writers of encrypted columns *)

Lemma insert_staff_data_envelopes (sd : staff_data) :
  writes_envelopes (insert_staff_data sd) "Staff" Staff_cols
    [(4%nat, or_empty (s_email sd)); (5%nat, or_empty (s_phone_number sd))].
Proof.
  intros w Hf Hk Ht Hv.
  inversion Hv as [|? ? V1 Hv1]; subst. inversion Hv1 as [|? ? V2 _]; subst.
  cbn [snd] in V1, V2.
  destruct (utf8_encode_opt_valid _ V1) as [b1 E1].
  destruct (utf8_encode_opt_valid _ V2) as [b2 E2].
  unfold insert_staff_data, encrypt_data.
  erewrite bind_step;
    [|apply (encrypt_value_nth _ b1 w _ 0 E1 Hk); cbn; try reflexivity; lia].
  sw.
  erewrite bind_step;
    [|apply (encrypt_value_nth _ b2 w _ 1 E2 Hk); cbn; try reflexivity; lia].
  sw.
  erewrite bind_step;
    [|apply (execute_insert_quiet "Staff" _ Staff_cols);
      [exact Hf|done|exact Ht|hospital_row_tac]].
  sw.
  erewrite bind_step; [|apply commit_quiet; exact Hf]. sw.
  erewrite bind_step; [|reflexivity]. sw.
  unfold ret. eexists _, _, _. split; [reflexivity|]. sw.
  split; [reflexivity|].
  repeat constructor; cbn [fst snd nth]; now apply holds_envelope_text.
Qed.

Lemma insert_sensitive_envelopes (sd : sensitive_data) :
  writes_envelopes (insert_sensitive sd) "Patient_Sensitive"
    Patient_Sensitive_cols
    [(2%nat, sd_mrn sd); (3%nat, sd_home_address sd);
     (4%nat, sd_insurance_policy sd)].
Proof.
  intros w Hf Hk Ht Hv.
  inversion Hv as [|? ? V1 Hv1]; subst. inversion Hv1 as [|? ? V2 Hv2]; subst.
  inversion Hv2 as [|? ? V3 _]; subst. cbn [snd] in V1, V2, V3.
  destruct (utf8_encode_opt_valid _ V1) as [b1 E1].
  destruct (utf8_encode_opt_valid _ V2) as [b2 E2].
  destruct (utf8_encode_opt_valid _ V3) as [b3 E3].
  unfold insert_sensitive, encrypt_data. cbn [or_empty].
  erewrite bind_step;
    [|apply (encrypt_value_nth _ b1 w _ 0 E1 Hk); cbn; try reflexivity; lia].
  sw.
  erewrite bind_step;
    [|apply (encrypt_value_nth _ b2 w _ 1 E2 Hk); cbn; try reflexivity; lia].
  sw.
  erewrite bind_step;
    [|apply (encrypt_value_nth _ b3 w _ 2 E3 Hk); cbn; try reflexivity; lia].
  sw.
  erewrite (execute_insert_quiet "Patient_Sensitive" _ Patient_Sensitive_cols);
    [|exact Hf|done|exact Ht|hospital_row_tac].
  sw. eexists _, _, _. split; [reflexivity|]. sw.
  split; [reflexivity|].
  repeat constructor; cbn [fst snd nth]; now apply holds_envelope_text.
Qed.

Lemma insert_medical_record_envelopes (patient_id doctor_id : Z)
    (diagnosis treatment_plan : str) :
  writes_envelopes
    (insert_medical_record (patient_id, doctor_id, diagnosis, treatment_plan))
    "Medical_Record" Medical_Record_cols
    [(3%nat, diagnosis); (4%nat, treatment_plan)].
Proof.
  intros w Hf Hk Ht Hv.
  inversion Hv as [|? ? V1 Hv1]; subst. inversion Hv1 as [|? ? V2 _]; subst.
  cbn [snd] in V1, V2.
  destruct (utf8_encode_opt_valid _ V1) as [b1 E1].
  destruct (utf8_encode_opt_valid _ V2) as [b2 E2].
  unfold insert_medical_record, encrypt_data. cbn [or_empty].
  erewrite bind_step;
    [|apply (encrypt_value_nth _ b1 w _ 0 E1 Hk); cbn; try reflexivity; lia].
  sw.
  erewrite bind_step;
    [|apply (encrypt_value_nth _ b2 w _ 1 E2 Hk); cbn; try reflexivity; lia].
  sw.
  erewrite (execute_insert_quiet "Medical_Record" _ Medical_Record_cols);
    [|exact Hf|done|exact Ht|hospital_row_tac].
  sw. eexists _, _, _. split; [reflexivity|]. sw.
  split; [reflexivity|].
  repeat constructor; cbn [fst snd nth]; now apply holds_envelope_text.
Qed.

Lemma insert_payment_method_envelopes (patient_id : Z)
    (type last4 payload : str) :
  writes_envelopes
    (bind (encrypt_payment_method (patient_id, type, last4, payload))
          insert_payment_method)
    "Payment_Methods" Payment_Methods_cols [(4%nat, payload)].
Proof.
  intros w Hf Hk Ht Hv.
  inversion Hv as [|? ? V1 _]; subst. cbn [snd] in V1.
  destruct (utf8_encode_opt_valid _ V1) as [b1 E1].
  unfold encrypt_payment_method, insert_payment_method, encrypt_data.
  cbn [or_empty].
  erewrite bind_step.
  2:{ erewrite bind_step;
        [|apply (encrypt_value_nth _ b1 w _ 0 E1 Hk); cbn; try reflexivity; lia].
      reflexivity. }
  sw.
  erewrite bind_step;
    [|apply (execute_insert_quiet "Payment_Methods" _ Payment_Methods_cols);
      [exact Hf|done|exact Ht|hospital_row_tac]].
  sw. eexists _, _, _. split; [reflexivity|]. sw.
  split; [reflexivity|].
  repeat constructor; cbn [fst snd nth]; now apply holds_envelope_text.
Qed.

(** C1 (as the code has it): a patient record inserted with
    [insert_patient_data] is read back by [get_patient_data], under the
    returned identifier, with exactly the plaintext of its four sensitive
    entries (phone, email, ssn, state_id; [None] reads back as the empty
    string), and the four stored cells are envelopes, not the plaintext
    bytes.  The intake form handler stores as envelopes the
    medical-record number, the diagnosis, the insurance identifier and the
    card number; the row it writes to [patients] is the one [intake_store]
    describes.  [insert_staff_data] and the inserts of the seed script
    into [Patient_Sensitive], [Medical_Record] and [Payment_Methods] write
    envelopes into every [BLOB] column they fill. *)
Theorem sensitive_fields_encrypted_at_rest :
  (forall (pd : patient_data) (w : world),
     faults w = [] -> length (aes_key w) = 32%nat ->
     has_table (working w) "Patient" Patient_cols ->
     keys_below_next (working w) "Patient" ->
     valid_str (or_empty (p_phone_number pd)) ->
     valid_str (or_empty (p_email pd)) ->
     valid_str (or_empty (p_ssn pd)) ->
     valid_str (or_empty (p_state_id pd)) ->
     exists id w1 row,
       insert_patient_data pd w = (Ok id, w1)
       /\ sql_select (committed w1) "Patient" "patient_id" (VInt id) = Ok [row]
       /\ get_patient_data id w1
          = (Ok (Some (view_of_row row (or_empty (p_phone_number pd))
                         (or_empty (p_email pd)) (or_empty (p_ssn pd))
                         (or_empty (p_state_id pd)))), w1)
       /\ holds_envelope_of w1 (nth 5 row VNull) (or_empty (p_phone_number pd))
       /\ holds_envelope_of w1 (nth 6 row VNull) (or_empty (p_email pd))
       /\ holds_envelope_of w1 (nth 7 row VNull) (or_empty (p_ssn pd))
       /\ holds_envelope_of w1 (nth 8 row VNull) (or_empty (p_state_id pd)))
  /\ (forall (r : request) (w : world),
        method r = "POST" ->
        invalid_input (read_field r "full_name") (read_field r "email")
          (read_field r "mrn") (read_field r "card") = false ->
        faults w = [] -> length (aes_key w) = 32%nat ->
        intake_ready (committed w) ->
        valid_str (read_field r "mrn") ->
        valid_str (read_field r "diagnosis") ->
        valid_str (read_field r "insurance") ->
        valid_str (read_field r "card") ->
        exists w' mrn_b diagnosis_b insurance_b card_b,
          patient_form r w = (Ok (Redirect "/success"), w')
          /\ committed w'
             = intake_store w (read_field r "full_name") (read_field r "dob")
                 (read_field r "email") (read_field r "phone")
                 (read_field r "address") (read_field r "amount")
                 mrn_b diagnosis_b insurance_b card_b
          /\ holds_envelope_of w' (VBytes (envelope_text w 0 mrn_b))
               (read_field r "mrn")
          /\ holds_envelope_of w' (VBytes (envelope_text w 1 diagnosis_b))
               (read_field r "diagnosis")
          /\ holds_envelope_of w' (VBytes (envelope_text w 2 insurance_b))
               (read_field r "insurance")
          /\ holds_envelope_of w' (VBytes (envelope_text w 3 card_b))
               (read_field r "card"))
  /\ (forall sd : staff_data,
        writes_envelopes (insert_staff_data sd) "Staff" Staff_cols
          [(4%nat, or_empty (s_email sd));
           (5%nat, or_empty (s_phone_number sd))])
  /\ (forall sd : sensitive_data,
        writes_envelopes (insert_sensitive sd) "Patient_Sensitive"
          Patient_Sensitive_cols
          [(2%nat, sd_mrn sd); (3%nat, sd_home_address sd);
           (4%nat, sd_insurance_policy sd)])
  /\ (forall (patient_id doctor_id : Z) (diagnosis treatment_plan : str),
        writes_envelopes
          (insert_medical_record
             (patient_id, doctor_id, diagnosis, treatment_plan))
          "Medical_Record" Medical_Record_cols
          [(3%nat, diagnosis); (4%nat, treatment_plan)])
  /\ (forall (patient_id : Z) (type last4 payload : str),
        writes_envelopes
          (bind (encrypt_payment_method (patient_id, type, last4, payload))
                insert_payment_method)
          "Payment_Methods" Payment_Methods_cols [(4%nat, payload)]).
Proof.
  split; [|split; [|split; [|split; [|split]]]];
    [| |exact insert_staff_data_envelopes|exact insert_sensitive_envelopes
     |exact insert_medical_record_envelopes
     |exact insert_payment_method_envelopes].
  - intros pd w Hf Hk Ht Hwf V1 V2 V3 V4.
    destruct (utf8_encode_opt_valid _ V1) as [b1 E1].
    destruct (utf8_encode_opt_valid _ V2) as [b2 E2].
    destruct (utf8_encode_opt_valid _ V3) as [b3 E3].
    destruct (utf8_encode_opt_valid _ V4) as [b4 E4].
    destruct (insert_patient_data_ok pd b1 b2 b3 b4 w Hf Hk Ht E1 E2 E3 E4)
      as (w1 & Hins & Hw & Hc & Hf1 & Ek).
    exists (next_id (working w) "Patient"), w1,
      (patient_row w pd b1 b2 b3 b4).
    split; [exact Hins|]. split.
    { rewrite Hc, Hw. unfold patient_row at 1.
      apply (select_new_row _ "Patient" "patient_id" Patient_cols _ Ht Hwf).
      vm_compute. reflexivity. }
    split.
    { now apply (get_patient_data_new w w1 pd b1 b2 b3 b4). }
    unfold patient_row. cbn [nth].
    repeat split; now apply holds_envelope_text.
  - intros r w Hm Hv Hf Hk Hready V1 V2 V3 V4.
    destruct (utf8_encode_opt_valid _ V1) as [b1 E1].
    destruct (utf8_encode_opt_valid _ V2) as [b2 E2].
    destruct (utf8_encode_opt_valid _ V3) as [b3 E3].
    destruct (utf8_encode_opt_valid _ V4) as [b4 E4].
    destruct (save_intake_ok (read_field r "full_name") (read_field r "dob")
                (read_field r "email") (read_field r "phone")
                (read_field r "address") (read_field r "mrn")
                (read_field r "diagnosis") (read_field r "insurance")
                (read_field r "card") (read_field r "amount")
                b1 b2 b3 b4 w Hf Hk Hready E1 E2 E3 E4) as (w' & Hs & Hc & Ek).
    exists w', b1, b2, b3, b4.
    rewrite (patient_form_post r w Hm), Hv, Hs.
    split; [reflexivity|]. split; [exact Hc|].
    repeat split; now apply holds_envelope_text.
Qed.

Lemma hospital_schema_has_patient :
  has_table hospital_schema "Patient" Patient_cols.
Proof. eexists. split; vm_compute; reflexivity. Qed.

Lemma hospital_schema_keys : keys_below_next hospital_schema "Patient".
Proof. intros tb H. vm_compute in H. injection H as <-. constructor. Qed.

Lemma hospital_schema_has_staff : has_table hospital_schema "Staff" Staff_cols.
Proof. eexists. split; vm_compute; reflexivity. Qed.

Lemma hospital_schema_has_sensitive :
  has_table hospital_schema "Patient_Sensitive" Patient_Sensitive_cols.
Proof. eexists. split; vm_compute; reflexivity. Qed.

Lemma hospital_schema_has_medical_record :
  has_table hospital_schema "Medical_Record" Medical_Record_cols.
Proof. eexists. split; vm_compute; reflexivity. Qed.

Lemma hospital_schema_has_payment_methods :
  has_table hospital_schema "Payment_Methods" Payment_Methods_cols.
Proof. eexists. split; vm_compute; reflexivity. Qed.

Lemma sensitive_fields_encrypted_at_rest_witness :
  (exists id w1 row,
     insert_patient_data sample_patient (sample_world hospital_schema [])
     = (Ok id, w1)
     /\ sql_select (committed w1) "Patient" "patient_id" (VInt id) = Ok [row]
     /\ get_patient_data id w1
        = (Ok (Some (view_of_row row (py "555-0101") (py "a@b.com")
                       (py "123-45-6789") (py "TX123"))), w1)
     /\ holds_envelope_of w1 (nth 5 row VNull) (py "555-0101")
     /\ holds_envelope_of w1 (nth 6 row VNull) (py "a@b.com")
     /\ holds_envelope_of w1 (nth 7 row VNull) (py "123-45-6789")
     /\ holds_envelope_of w1 (nth 8 row VNull) (py "TX123"))
  /\ (let r := sample_submission (py "Ann Lee") (py "a@b.com") (py "MRN1")
                 (py "4111111111111111") in
      let w := sample_world intake_schema [] in
      exists w' mrn_b diagnosis_b insurance_b card_b,
        patient_form r w = (Ok (Redirect "/success"), w')
        /\ committed w'
           = intake_store w (read_field r "full_name") (read_field r "dob")
               (read_field r "email") (read_field r "phone")
               (read_field r "address") (read_field r "amount")
               mrn_b diagnosis_b insurance_b card_b
        /\ holds_envelope_of w' (VBytes (envelope_text w 0 mrn_b))
             (read_field r "mrn")
        /\ holds_envelope_of w' (VBytes (envelope_text w 1 diagnosis_b))
             (read_field r "diagnosis")
        /\ holds_envelope_of w' (VBytes (envelope_text w 2 insurance_b))
             (read_field r "insurance")
        /\ holds_envelope_of w' (VBytes (envelope_text w 3 card_b))
             (read_field r "card"))
  /\ (exists a w1 row,
        insert_staff_data (nth 0 staff_members (StaffData [] [] [] None None))
          (sample_world hospital_schema []) = (Ok a, w1)
        /\ working w1
           = append_row "Staff" row (working (sample_world hospital_schema []))
        /\ Forall (fun c => holds_envelope_of w1 (nth (fst c) row VNull) (snd c))
             [(4%nat, py "michael.johnson@hospital.com");
              (5%nat, py "555-0101")])
  /\ (exists a w1 row,
        insert_sensitive (SensitiveData 1 (py "MRN003456")
                            (py "789 Pine Road, Houston, TX 77001")
                            (py "INS-345678901") (py "3456"))
          (sample_world hospital_schema []) = (Ok a, w1)
        /\ working w1
           = append_row "Patient_Sensitive" row
               (working (sample_world hospital_schema []))
        /\ Forall (fun c => holds_envelope_of w1 (nth (fst c) row VNull) (snd c))
             [(2%nat, py "MRN003456");
              (3%nat, py "789 Pine Road, Houston, TX 77001");
              (4%nat, py "INS-345678901")])
  /\ (exists a w1 row,
        insert_medical_record (1%Z, 1%Z, py "Asthma", py "Albuterol inhaler")
          (sample_world hospital_schema []) = (Ok a, w1)
        /\ working w1
           = append_row "Medical_Record" row
               (working (sample_world hospital_schema []))
        /\ Forall (fun c => holds_envelope_of w1 (nth (fst c) row VNull) (snd c))
             [(3%nat, py "Asthma"); (4%nat, py "Albuterol inhaler")])
  /\ (exists a w1 row,
        bind (encrypt_payment_method
                (1%Z, py "CARD", py "4567", py_dq "{'card_number':'****4567'}"))
             insert_payment_method (sample_world hospital_schema [])
        = (Ok a, w1)
        /\ working w1
           = append_row "Payment_Methods" row
               (working (sample_world hospital_schema []))
        /\ Forall (fun c => holds_envelope_of w1 (nth (fst c) row VNull) (snd c))
             [(4%nat, py_dq "{'card_number':'****4567'}")]).
Proof.
  pose proof sensitive_fields_encrypted_at_rest
    as (H1 & H2 & H3 & H4 & H5 & H6).
  split; [|split; [|split; [|split; [|split]]]].
  - apply (H1 sample_patient (sample_world hospital_schema []));
      try reflexivity.
    + exact hospital_schema_has_patient.
    + exact hospital_schema_keys.
  - apply (H2 (sample_submission (py "Ann Lee") (py "a@b.com") (py "MRN1")
                 (py "4111111111111111"))
              (sample_world intake_schema []));
      try reflexivity.
    exact intake_schema_ready.
  - apply (H3 (nth 0 staff_members (StaffData [] [] [] None None))
              (sample_world hospital_schema [])); try reflexivity.
    + exact hospital_schema_has_staff.
    + repeat constructor.
  - apply (H4 (SensitiveData 1 (py "MRN003456")
                 (py "789 Pine Road, Houston, TX 77001")
                 (py "INS-345678901") (py "3456"))
              (sample_world hospital_schema [])); try reflexivity.
    + exact hospital_schema_has_sensitive.
    + repeat constructor.
  - apply (H5 1%Z 1%Z (py "Asthma") (py "Albuterol inhaler")
              (sample_world hospital_schema [])); try reflexivity.
    + exact hospital_schema_has_medical_record.
    + repeat constructor.
  - apply (H6 1%Z (py "CARD") (py "4567") (py_dq "{'card_number':'****4567'}")
              (sample_world hospital_schema [])); try reflexivity.
    + exact hospital_schema_has_payment_methods.
    + repeat constructor.
Defined.

(** C1 fails as stated: the intake form handler keeps the email, the
    phone number and the address of the patient exactly as submitted. *)
Lemma intake_form_keeps_contact_data_in_clear :
  let r := sample_submission (py "Ann Lee") (py "a@b.com") (py "MRN1")
             (py "4111111111111111") in
  let run := patient_form r (sample_world intake_schema []) in
  fst run = Ok (Redirect "/success")
  /\ sql_select (committed (snd run)) "patients" "id" (VInt 1)
     = Ok [[VInt 1; VStr (py "Ann Lee"); VStr (py "1990-04-01");
            VStr (py "a@b.com"); VStr (py "555-0101");
            VStr (py "1 Main Street")]].
Proof. vm_compute. split; reflexivity. Qed.

(** ** Transactions *)

Lemma keeps_committed_bind {A B} (m : M A) (k : A -> M B) :
  keeps_committed m -> (forall a, keeps_committed (k a)) ->
  keeps_committed (bind m k).
Proof.
  intros Hm Hk w. unfold bind. specialize (Hm w).
  destruct (m w) as [[a|e] w1]; cbn [snd] in *; [|exact Hm].
  now rewrite Hk.
Qed.

Lemma all_or_nothing_bind {A B} (m : M A) (k : A -> M B) :
  keeps_committed m -> (forall a, all_or_nothing (k a)) ->
  all_or_nothing (bind m k).
Proof.
  intros Hm Hk w e. unfold bind. specialize (Hm w).
  destruct (m w) as [[a|e'] w1]; cbn [snd] in *; [|intros _; exact Hm].
  intros H. now rewrite (Hk a w1 e H).
Qed.

Lemma keeps_committed_server_step : keeps_committed server_step.
Proof.
  intros w. unfold server_step. destruct (faults w) as [|[msg|] r]; reflexivity.
Qed.

Lemma keeps_committed_get_db_conn : keeps_committed get_db_conn.
Proof.
  apply keeps_committed_bind; [apply keeps_committed_server_step|].
  intros _ w. reflexivity.
Qed.

Lemma keeps_committed_execute_insert (t : string)
    (assigns : list (string * value)) :
  keeps_committed (execute_insert t assigns).
Proof.
  apply keeps_committed_bind; [apply keeps_committed_server_step|].
  intros _ w. destruct (sql_insert (working w) t assigns) as [[st id]|e];
    reflexivity.
Qed.

Lemma keeps_committed_lift {A} (r : result A) : keeps_committed (lift r).
Proof. intros w. reflexivity. Qed.

Lemma keeps_committed_encrypt_value (p : str) :
  keeps_committed (encrypt_value p).
Proof.
  unfold encrypt_value.
  apply keeps_committed_bind; [intros w; reflexivity|]. intros key.
  apply keeps_committed_bind; [apply keeps_committed_lift|]. intros data.
  apply keeps_committed_bind; [intros w; reflexivity|]. intros iv.
  apply keeps_committed_bind; [apply keeps_committed_lift|]. intros c.
  destruct (encrypt_and_digest c data). apply keeps_committed_lift.
Qed.

Lemma all_or_nothing_commit_close {A} (a : A) :
  all_or_nothing (bind commit (fun _ => bind close (fun _ => ret a))).
Proof.
  intros w e. unfold commit, close, rollback, bind, ret, server_step.
  destruct (faults w) as [|[msg|] r]; cbn; try discriminate. reflexivity.
Qed.

Lemma all_or_nothing_save_intake (full_name dob email phone address mrn
    diagnosis insurance card amount : str) :
  all_or_nothing
    (save_intake full_name dob email phone address mrn diagnosis insurance
       card amount).
Proof.
  unfold save_intake.
  repeat first
    [ apply all_or_nothing_commit_close
    | apply all_or_nothing_bind;
      [ first [ apply keeps_committed_get_db_conn
              | apply keeps_committed_execute_insert
              | apply keeps_committed_encrypt_value
              | intros w; reflexivity ]
      | intros ? ] ].
Qed.

(** The intake handler commits its five rows together or not at all. *)
Lemma patient_form_all_or_nothing (r : request) (w : world) :
  method r = "POST" ->
  fst (patient_form r w) <> Ok (Redirect "/success") ->
  committed (snd (patient_form r w)) = committed w.
Proof.
  intros Hm. rewrite (patient_form_post r w Hm).
  destruct (invalid_input _ _ _ _); [reflexivity|].
  destruct (save_intake _ _ _ _ _ _ _ _ _ _ w) as [[a|e] w1] eqn:Es;
    cbn [fst snd].
  - apply save_intake_returns in Es. subst a. contradiction.
  - intros _.
    pose proof (all_or_nothing_save_intake (read_field r "full_name")
                  (read_field r "dob") (read_field r "email")
                  (read_field r "phone") (read_field r "address")
                  (read_field r "mrn") (read_field r "diagnosis")
                  (read_field r "insurance") (read_field r "card")
                  (read_field r "amount") w e) as H.
    rewrite Es in H. now apply H.
Qed.

(** C5, at the failing input: the seed script loses the connection at
    the first insert into [Patient_Sensitive].  Its [except] branch rolls
    back and re-raises, but [insert_staff_data] and [insert_patient_data]
    have already committed: five staff rows and four patient rows stay
    visible, without any of their satellite rows. *)
Theorem seed_failure_leaves_patients_without_satellites :
  let run := insert_comprehensive_dummy_data failing_seed_world in
  fst run = Raise (DbError connection_lost)
  /\ sql_count (committed failing_seed_world) "Staff" = Ok 0%Z
  /\ sql_count (committed failing_seed_world) "Patient" = Ok 0%Z
  /\ sql_count (committed (snd run)) "Staff" = Ok 5%Z
  /\ sql_count (committed (snd run)) "Patient" = Ok 4%Z
  /\ sql_count (committed (snd run)) "Patient_Sensitive" = Ok 0%Z.
Proof. vm_compute. repeat split; reflexivity. Qed.

(** ** Audit triggers *)

(** [CONCAT] is NULL exactly when one of its arguments is NULL. *)
Lemma sql_concat_null_iff (vs : list value) :
  sql_concat vs = VNull <-> In VNull vs.
Proof.
  induction vs as [|v r IH]; cbn [sql_concat In].
  - split; [discriminate|contradiction].
  - assert (Hr : sql_concat r = VNull \/ exists s, sql_concat r = VStr s).
    { clear IH. destruct r as [|v' r']; cbn [sql_concat]; [eauto|].
      destruct (sql_text v'); [|now left].
      destruct (sql_concat r'); eauto. }
    destruct (sql_text v) as [s|] eqn:Et.
    + destruct Hr as [Hr|[sr Hr]]; rewrite Hr.
      * split; [intros _; right; now apply IH|reflexivity].
      * split; [discriminate|].
        intros [H|H]; [subst v; discriminate Et|].
        apply IH in H. congruence.
    + split; [|reflexivity]. intros _. left.
      destruct v; try discriminate Et. reflexivity.
Qed.

(** One updated row of a table with a [BEFORE UPDATE] trigger: exactly
    one audit row is added, in the same uncommitted store, under the key of
    the row as it was, with the two snapshots of the trigger. *)
Lemma update_row_writes_one_audit_row (t tname key : string)
    (snapshot : (string -> value) -> value) (cols : list column)
    (sets : list (string * value)) (wcol : string) (wval : value)
    (st : store) (done : list (list value)) (row : list value) :
  (forall old new,
     before_update_trigger t old new
     = Some (audit_update tname key snapshot old new)) ->
  has_table st "Audit_Log" Audit_Log_cols ->
  row_matches cols row wcol wval = true ->
  update_row t cols sets wcol wval (Ok (st, done)) row
  = Ok (append_row "Audit_Log"
          [VInt (next_id st "Audit_Log"); VStr (py tname);
           field cols row key; VStr (py "UPDATE"); VStr (py "SYSTEM");
           VDefault; snapshot (field cols row);
           snapshot (field cols (set_cells cols row sets))] st,
        done ++ [set_cells cols row sets]).
Proof.
  intros Htrg (tb & Hl & Hc) Hm. unfold update_row. rewrite Hm, Htrg.
  unfold store_insert, append_row, next_id. rewrite Hl, Hc.
  unfold audit_update, Audit_Log_cols, col, stamp.
  cbn [build_row build_cells assoc col_name col_type col_default].
  string_tests. cbn [to_column option_map]. reflexivity.
Qed.

Lemma tracked_tables_have_update_triggers :
  (forall old new,
     before_update_trigger "Patient" old new
     = Some (audit_update "Patient" "patient_id" patient_snapshot old new))
  /\ (forall old new,
        before_update_trigger "Patient_Sensitive" old new
        = Some (audit_update "Patient_Sensitive" "sensitive_id"
                  patient_sensitive_snapshot old new))
  /\ (forall old new,
        before_update_trigger "Billing" old new
        = Some (audit_update "Billing" "billing_id" billing_snapshot old new))
  /\ (forall old new,
        before_update_trigger "Payment_Methods" old new
        = Some (audit_update "Payment_Methods" "payment_method_id"
                  paymethod_snapshot old new)).
Proof. repeat split; intros; unfold before_update_trigger; string_tests; reflexivity. Qed.

(** The snapshot of a payment method is NULL as soon as one of [type],
    [last4], [is_default] is. *)
Lemma paymethod_snapshot_null_iff (r : string -> value) :
  paymethod_snapshot r = VNull
  <-> (r "type" = VNull \/ r "last4" = VNull \/ r "is_default" = VNull).
Proof.
  unfold paymethod_snapshot. rewrite sql_concat_null_iff. unfold lit.
  cbn [In]. split.
  - intros [H|[H|[H|[H|[H|[H|[H|H]]]]]]]; try discriminate H; try contradiction;
      eauto.
  - intros [H|[H|H]]; rewrite H; tauto.
Qed.

(** C6, at the failing input: a payment method whose [last4] is NULL
    has its default flag cleared.  The trigger writes one audit row for
    key 1, but [CONCAT] makes both snapshots NULL, so the row says nothing of
    the type of the method nor of the flag before and after. *)
Theorem audit_snapshot_is_null_when_a_field_is_null :
  rows_of store_with_bank_method "Audit_Log" = []
  /\ rows_of store_with_bank_method "Payment_Methods"
     = [[VInt 1; VInt 1; VStr (py "BANK"); VNull;
         VBytes (List.map byte_of_N sample_envelope); VBool true;
         VDefault; VDefault]]
  /\ match sql_update store_with_bank_method "Payment_Methods"
             [("is_default", VBool false)] "payment_method_id" (VInt 1) with
     | Ok st =>
         rows_of st "Payment_Methods"
         = [[VInt 1; VInt 1; VStr (py "BANK"); VNull;
             VBytes (List.map byte_of_N sample_envelope); VBool false;
             VDefault; VDefault]]
         /\ rows_of st "Audit_Log"
            = [[VInt 1; VStr (py "Payment_Methods"); VInt 1;
                VStr (py "UPDATE"); VStr (py "SYSTEM"); VDefault;
                VNull; VNull]]
     | Raise _ => False
     end.
Proof. vm_compute. repeat split; reflexivity. Qed.

(** * Further properties of the code *)

(** ** The codec at its edges *)

Lemma utf8_encode_cp_some_scalar (cp : N) (b : bytes) :
  utf8_encode_cp cp = Some b -> is_scalar cp = true.
Proof.
  unfold utf8_encode_cp, is_scalar, is_surrogate.
  repeat match goal with
         | |- context [?a <? ?b] => destruct (N.ltb_spec a b)
         | |- context [?a <=? ?b] => destruct (N.leb_spec a b)
         end; cbn; try discriminate; try reflexivity; lia.
Qed.

Lemma utf8_encode_opt_some_valid (s : str) (b : bytes) :
  utf8_encode_opt s = Some b -> valid_str s.
Proof.
  unfold valid_str. revert b. induction s as [|cp s IH]; intros b; [reflexivity|].
  cbn [utf8_encode_opt forallb].
  destruct (utf8_encode_cp cp) as [b1|] eqn:E1; [|discriminate].
  destruct (utf8_encode_opt s) as [b2|] eqn:E2; [|discriminate].
  intros _. apply andb_true_iff. split.
  - now apply (utf8_encode_cp_some_scalar cp b1).
  - now apply (IH b2).
Qed.

(** X1: [encrypt_value] succeeds exactly on the strings UTF-8 can encode; on
    any other string it raises [UnicodeEncodeError] before it touches the
    random source. *)
Theorem encrypt_value_succeeds_iff_encodable (p : str) (w : world) :
  length (aes_key w) = 32%nat ->
  ((exists enc w', encrypt_value p w = (Ok enc, w')) <-> valid_str p)
  /\ (~ valid_str p ->
      exists msg, encrypt_value p w = (Raise (UnicodeEncodeError msg), w)).
Proof.
  intros Hk. split; [split|].
  - intros (enc & w' & H).
    destruct (encrypt_value_inv p w enc w' H) as (data & Hd & _).
    now apply (utf8_encode_opt_some_valid p data).
  - intros Hv. destruct (utf8_encode_opt_valid p Hv) as [data Hd].
    eexists _, _. apply (encrypt_value_ok p data w Hd Hk).
  - intros Hn. destruct (utf8_encode_opt p) as [data|] eqn:Hd.
    + exfalso. apply Hn. now apply (utf8_encode_opt_some_valid p data).
    + eexists. unfold encrypt_value, bind, get_aes_key, lift, utf8_encode.
      rewrite Hd. reflexivity.
Qed.

Lemma encrypt_value_succeeds_iff_encodable_witness :
  (exists enc w',
     encrypt_value (py "TX123") (sample_world ∅ []) = (Ok enc, w'))
  /\ (exists msg,
        encrypt_value [0xD800] (sample_world ∅ [])
        = (Raise (UnicodeEncodeError msg), sample_world ∅ [])).
Proof.
  split.
  - apply (proj1 (encrypt_value_succeeds_iff_encodable (py "TX123")
                    (sample_world ∅ []) eq_refl)).
    reflexivity.
  - apply (proj2 (encrypt_value_succeeds_iff_encodable [0xD800]
                    (sample_world ∅ []) eq_refl)).
    intros H. discriminate H.
Defined.

Lemma ascii_str_nonempty (bs : bytes) : bs <> [] -> ascii_str bs <> [].
Proof. destruct bs; [contradiction|discriminate]. Qed.

Lemma envelope_text_nonempty (w : world) (k : nat) (data : bytes) :
  length (aes_key w) = 32%nat -> envelope_text w k data <> [].
Proof.
  intros Hk E. pose proof (envelope_text_longer w k data Hk) as H.
  rewrite E in H. cbn in H. lia.
Qed.

(** X2: what [encrypt_data] wrote, [decrypt_data] reads back, whether the cell
    comes back as text or as bytes; [None] is written as the empty string,
    and an absent or empty cell also reads as the empty string. *)
Theorem decrypt_data_encrypt_data (plain_text : option str) (w : world) :
  valid_str (or_empty plain_text) -> length (aes_key w) = 32%nat ->
  (exists enc cell w',
     encrypt_data plain_text w = (Ok enc, w')
     /\ enc <> []
     /\ utf8_encode enc = Ok cell
     /\ decrypt_data (VStr enc) w' = (Ok (or_empty plain_text), w')
     /\ decrypt_data (VBytes cell) w' = (Ok (or_empty plain_text), w'))
  /\ decrypt_data VNull w = (Ok [], w)
  /\ decrypt_data (VBytes []) w = (Ok [], w)
  /\ decrypt_data (VStr []) w = (Ok [], w).
Proof.
  intros Hv Hk. split; [|repeat split].
  destruct (utf8_encode_opt_valid _ Hv) as [data Hd].
  exists (ascii_str (envelope_text w 0 data)), (envelope_text w 0 data),
    (set_rng_pos (rng_pos w + 12 * 1) w).
  split.
  { unfold encrypt_data.
    apply (encrypt_value_nth _ data w w 0 Hd Hk); try reflexivity. lia. }
  split; [apply ascii_str_nonempty, envelope_text_nonempty, Hk|].
  split.
  { unfold utf8_encode.
    now rewrite utf8_encode_ascii by (unfold envelope_text; apply b64encode_ascii). }
  destruct (holds_envelope_text w (set_rng_pos (rng_pos w + 12 * 1) w) 0
              (or_empty plain_text) data Hd Hk eq_refl)
    as (e & d & He & _ & _ & _ & Hdec).
  split; [|exact Hdec].
  pose proof (envelope_text_nonempty w 0 data Hk) as Hne.
  unfold decrypt_data.
  destruct (ascii_str (envelope_text w 0 data)) as [|c r] eqn:Ea.
  { exfalso. now apply (ascii_str_nonempty _ Hne). }
  rewrite <- Ea. unfold envelope_text.
  change (aes_key w) with (aes_key (set_rng_pos (rng_pos w + 12 * 1) w)).
  apply decrypt_value_envelope; [exact Hd|exact Hk|apply nth_nonce_length].
Qed.

Lemma decrypt_data_encrypt_data_witness :
  (exists enc cell w',
     encrypt_data None (sample_world ∅ []) = (Ok enc, w')
     /\ enc <> []
     /\ utf8_encode enc = Ok cell
     /\ decrypt_data (VStr enc) w' = (Ok [], w')
     /\ decrypt_data (VBytes cell) w' = (Ok [], w'))
  /\ (exists enc cell w',
        encrypt_data (Some (py "555-0101")) (sample_world ∅ []) = (Ok enc, w')
        /\ enc <> []
        /\ utf8_encode enc = Ok cell
        /\ decrypt_data (VStr enc) w' = (Ok (py "555-0101"), w')
        /\ decrypt_data (VBytes cell) w' = (Ok (py "555-0101"), w')).
Proof.
  split.
  - apply (proj1 (decrypt_data_encrypt_data None (sample_world ∅ [])
                    eq_refl eq_refl)).
  - apply (proj1 (decrypt_data_encrypt_data (Some (py "555-0101"))
                    (sample_world ∅ []) eq_refl eq_refl)).
Defined.

Lemma a2b_base64_filter (s : bytes) (quad_pos : nat) (leftchar : N) (pads : nat) :
  a2b_base64 (List.filter is_b64_char s) quad_pos leftchar pads
  = a2b_base64 s quad_pos leftchar pads.
Proof.
  revert quad_pos leftchar pads.
  induction s as [|ch rest IH]; intros quad_pos leftchar pads; [reflexivity|].
  cbn [List.filter]. unfold is_b64_char at 1.
  destruct (bool_decide (ch = b64_pad)) eqn:Ep.
  - cbn [orb a2b_base64]. rewrite Ep.
    destruct (Nat.leb 2 quad_pos); [|apply IH].
    destruct (Nat.leb 4 (quad_pos + S pads)); [reflexivity|apply IH].
  - cbn [orb]. destruct (b64_index ch) as [v|] eqn:Ei.
    + cbn [a2b_base64]. rewrite Ep, Ei.
      destruct quad_pos as [|[|[|q]]]; rewrite IH; reflexivity.
    + cbn [a2b_base64]. rewrite Ep, Ei. apply IH.
Qed.

Lemma map_filter_b64 (s : str) :
  List.map byte_of_N (List.filter is_b64_code s)
  = List.filter is_b64_char (List.map byte_of_N s).
Proof.
  induction s as [|c s IH]; [reflexivity|]. cbn [List.filter List.map].
  unfold is_b64_code at 1. destruct (is_b64_char (byte_of_N c)); cbn [List.map];
    now rewrite IH.
Qed.

Lemma is_ascii_str_filter (f : N -> bool) (s : str) :
  is_ascii_str s = true -> is_ascii_str (List.filter f s) = true.
Proof.
  unfold is_ascii_str. induction s as [|c s IH]; [reflexivity|].
  cbn [forallb List.filter]. intros H. apply andb_true_iff in H as [H1 H2].
  destruct (f c); cbn [forallb]; [rewrite H1|]; now apply IH.
Qed.

Lemma b64decode_filter (s : str) :
  is_ascii_str s = true -> b64decode (List.filter is_b64_code s) = b64decode s.
Proof.
  intros H. unfold b64decode, encode_ascii.
  fold (is_ascii_str s). fold (is_ascii_str (List.filter is_b64_code s)).
  rewrite H, (is_ascii_str_filter _ _ H), map_filter_b64.
  apply a2b_base64_filter.
Qed.

Lemma decrypt_value_ext (enc1 enc2 : str) (w : world) :
  b64decode enc1 = b64decode enc2 -> decrypt_value enc1 w = decrypt_value enc2 w.
Proof. intros H. unfold decrypt_value, bind, lift. now rewrite H. Qed.

(** X3: [decrypt_value] reads the stored text leniently: in ASCII text every
    character outside the base64 alphabet (a space, a line break) is
    skipped, so an envelope with such characters put in decrypts as
    before; text with a character beyond ASCII is refused with
    [ValueError]. *)
Theorem decrypt_value_skips_foreign_characters (enc : str) (w : world) :
  (is_ascii_str enc = true ->
   decrypt_value enc w = decrypt_value (List.filter is_b64_code enc) w)
  /\ (is_ascii_str enc = true ->
      forall p w0 w',
        length (aes_key w0) = 32%nat -> aes_key w = aes_key w0 ->
        encrypt_value p w0 = (Ok (List.filter is_b64_code enc), w') ->
        decrypt_value enc w = (Ok p, w))
  /\ (is_ascii_str enc = false ->
      decrypt_value enc w
      = (Raise (ValueError "string argument should contain only ASCII characters"),
         w)).
Proof.
  repeat split.
  - intros H. apply decrypt_value_ext. symmetry. now apply b64decode_filter.
  - intros H p w0 w' Hk Ek He.
    rewrite (decrypt_value_ext enc (List.filter is_b64_code enc)) by
      (symmetry; now apply b64decode_filter).
    destruct (encrypt_value_inv p w0 _ w' He) as (data & Hd & -> & _).
    rewrite <- Ek.
    apply decrypt_value_envelope;
      [exact Hd|now rewrite Ek|apply drawn_nonce_length].
  - intros H. unfold decrypt_value, bind, get_aes_key, lift, b64decode,
      encode_ascii. fold (is_ascii_str enc). now rewrite H.
Qed.

Lemma decrypt_value_skips_foreign_characters_witness :
  let w := sample_world ∅ [] in
  let broken := firstn 20 sample_envelope ++ [10; 32] ++ skipn 20 sample_envelope in
  decrypt_value broken w = (Ok (py "555-0101"), w)
  /\ decrypt_value (sample_envelope ++ [0xE9]) w
     = (Raise (ValueError "string argument should contain only ASCII characters"),
        w).
Proof.
  intros w broken.
  destruct (decrypt_value_skips_foreign_characters broken w) as (_ & H2 & _).
  destruct (decrypt_value_skips_foreign_characters (sample_envelope ++ [0xE9]) w)
    as (_ & _ & H3).
  split.
  - apply (H2 eq_refl (py "555-0101") w (snd sample_run));
      [reflexivity|reflexivity|vm_compute; reflexivity].
  - apply H3. reflexivity.
Defined.

(** ** The patient repository, further *)

Lemma rows_of_append_row_eq (t : string) (row : list value) (st : store)
    (cols : list column) :
  has_table st t cols ->
  rows_of (append_row t row st) t = rows_of st t ++ [row].
Proof.
  intros (tb & Hl & _). unfold rows_of, append_row.
  now rewrite Hl, lookup_insert_eq.
Qed.

Lemma rows_of_append_row_ne (t t' : string) (row : list value) (st : store) :
  t <> t' -> rows_of (append_row t row st) t' = rows_of st t'.
Proof. intros H. unfold rows_of. now rewrite lookup_append_row_ne. Qed.

Lemma next_id_append_row_eq (t : string) (row : list value) (st : store)
    (cols : list column) :
  has_table st t cols ->
  next_id (append_row t row st) t = (next_id st t + 1)%Z.
Proof.
  intros (tb & Hl & _). unfold next_id, append_row.
  now rewrite Hl, lookup_insert_eq.
Qed.

Lemma sql_select_rows (st : store) (t key : string) (v : value)
    (cols : list column) :
  has_table st t cols ->
  sql_select st t key v
  = Ok (List.filter (fun row => row_matches cols row key v) (rows_of st t)).
Proof.
  intros (tb & Hl & Hc). unfold sql_select, rows_of. now rewrite Hl, Hc.
Qed.


Lemma filter_key_none (cols : list column) (key : string) (id : Z)
    (rows : list (list value)) :
  col_index cols key = Some 0%nat ->
  Forall (fun row => nth 0 row VNull <> VInt id) rows ->
  List.filter (fun row => row_matches cols row key (VInt id)) rows = [].
Proof.
  intros Hk. induction 1 as [|r rs Hr _ IH]; [reflexivity|].
  cbn [List.filter]. unfold row_matches at 1. unfold field. rewrite Hk.
  now rewrite bool_decide_eq_false_2.
Qed.

Lemma keys_below_next_rows (st : store) (t : string) (cols : list column)
    (id : Z) :
  has_table st t cols -> keys_below_next st t -> (next_id st t <= id)%Z ->
  Forall (fun row => nth 0 row VNull <> VInt id) (rows_of st t).
Proof.
  intros (tb & Hl & _) Hwf Hid. specialize (Hwf tb Hl).
  unfold rows_of, next_id in *. rewrite Hl in *.
  eapply Forall_impl; [exact Hwf|].
  intros r (i & Hi & Hlt) E. rewrite Hi in E. injection E as ->. lia.
Qed.

Lemma patient_key_column : col_index Patient_cols "patient_id" = Some 0%nat.
Proof. vm_compute. reflexivity. Qed.

(** X4: [get_patient_data] answers [None], and changes nothing, when no row
    of [Patient] carries the identifier; this is so for every identifier
    the table has not yet given out. *)
Theorem get_patient_data_not_found (patient_id : Z) (w : world) :
  faults w = [] -> has_table (working w) "Patient" Patient_cols ->
  (Forall (fun row => nth 0 row VNull <> VInt patient_id)
          (rows_of (working w) "Patient")
   -> get_patient_data patient_id w = (Ok None, w))
  /\ (keys_below_next (working w) "Patient" ->
      (next_id (working w) "Patient" <= patient_id)%Z ->
      get_patient_data patient_id w = (Ok None, w)).
Proof.
  intros Hf Ht.
  assert (H : Forall (fun row => nth 0 row VNull <> VInt patient_id)
                     (rows_of (working w) "Patient")
              -> get_patient_data patient_id w = (Ok None, w)).
  { intros Hrows.
    assert (Hsel : execute_select_one "Patient" "patient_id" (VInt patient_id) w
                   = (Ok None, w)).
    { unfold execute_select_one.
      rewrite (bind_step _ _ _ _ _ (server_step_quiet w Hf)).
      rewrite (sql_select_rows _ _ _ _ Patient_cols Ht).
      now rewrite (filter_key_none _ _ _ _ patient_key_column Hrows). }
    unfold get_patient_data. now rewrite (bind_step _ _ _ _ _ Hsel). }
  split; [exact H|].
  intros Hwf Hid. apply H.
  now apply (keys_below_next_rows _ _ Patient_cols).
Qed.

Lemma get_patient_data_not_found_witness :
  get_patient_data 7 (sample_world hospital_schema [])
  = (Ok None, sample_world hospital_schema []).
Proof.
  apply (proj2 (get_patient_data_not_found 7 (sample_world hospital_schema [])
                  eq_refl hospital_schema_has_patient)).
  - exact hospital_schema_keys.
  - vm_compute. discriminate.
Defined.






(** ** Inserts and the transaction of the connection *)

Lemma server_step_ok_inv (w w' : world) :
  server_step w = (Ok tt, w') ->
  committed w' = committed w /\ working w' = working w
  /\ lastrowid w' = lastrowid w /\ aes_key w' = aes_key w.
Proof.
  unfold server_step. destruct (faults w) as [|[msg|] r]; intros [= <-];
    repeat split.
Qed.

Lemma execute_insert_ok_inv (t : string) (assigns : list (string * value))
    (w w' : world) :
  execute_insert t assigns w = (Ok tt, w') ->
  exists st id,
    sql_insert (working w) t assigns = Ok (st, id)
    /\ working w' = st /\ lastrowid w' = id /\ committed w' = committed w.
Proof.
  unfold execute_insert. intros H.
  apply bind_ok_inv in H as ([] & w1 & Hs & H).
  apply server_step_ok_inv in Hs as (Hc & Hw & _ & _).
  rewrite <- Hw, <- Hc.
  destruct (sql_insert (working w1) t assigns) as [[st id]|e]; [|discriminate].
  injection H as <-. exists st, id. repeat split.
Qed.

Lemma commit_ok_inv (w w' : world) :
  commit w = (Ok tt, w') ->
  committed w' = working w /\ working w' = working w
  /\ lastrowid w' = lastrowid w.
Proof.
  unfold commit. intros H.
  apply bind_ok_inv in H as ([] & w1 & Hs & H).
  apply server_step_ok_inv in Hs as (_ & Hw & Hl & _).
  injection H as <-. cbn. now rewrite Hw, Hl.
Qed.

Lemma encrypt_value_ok_store (p : str) (w : world) (enc : str) (w' : world) :
  encrypt_value p w = (Ok enc, w') ->
  working w' = working w /\ committed w' = committed w.
Proof.
  intros H. destruct (encrypt_value_inv p w enc w' H) as (_ & _ & _ & ->).
  split; reflexivity.
Qed.

Lemma sql_insert_plain (st : store) (t : string)
    (assigns : list (string * value)) (st' : store) (id : Z) :
  t <> "Payment_Transactions" ->
  sql_insert st t assigns = Ok (st', id) ->
  exists row, id = next_id st t /\ st' = append_row t row st.
Proof.
  intros Ht. unfold sql_insert, store_insert, next_id, append_row.
  destruct (st !! t) as [tb|] eqn:Hl; [|discriminate].
  destruct (build_row (t_cols tb) (t_next tb) assigns) as [row|]; [|discriminate].
  rewrite lookup_insert_eq. unfold after_insert_trigger.
  rewrite bool_decide_eq_false_2 by exact Ht.
  intros [= <- <-]. exists row. split; reflexivity.
Qed.

Lemma all_or_nothing_commit_then {A} (k : unit -> M A) :
  (forall u w, exists a, fst (k u w) = Ok a) ->
  all_or_nothing (bind commit k).
Proof.
  intros Hk w e. unfold bind, commit at 1 2. unfold bind, server_step.
  destruct (faults w) as [|[msg|] r]; cbn [fst snd].
  - intros H. destruct (Hk tt (set_committed (working w) w)) as [a Ha].
    rewrite Ha in H. discriminate.
  - intros _. reflexivity.
  - intros H.
    destruct (Hk tt (set_committed (working (set_faults r w)) (set_faults r w)))
      as [a Ha].
    rewrite Ha in H. discriminate.
Qed.

Lemma insert_patient_data_ok_inv (pd : patient_data) (w : world) (id : Z)
    (w' : world) :
  insert_patient_data pd w = (Ok id, w') ->
  exists row,
    id = next_id (working w) "Patient"
    /\ working w' = append_row "Patient" row (working w)
    /\ committed w' = working w'.
Proof.
  intros H. unfold insert_patient_data, encrypt_data in H.
  apply bind_ok_inv in H as (e1 & w1 & H1 & H).
  apply bind_ok_inv in H as (e2 & w2 & H2 & H).
  apply bind_ok_inv in H as (e3 & w3 & H3 & H).
  apply bind_ok_inv in H as (e4 & w4 & H4 & H).
  apply bind_ok_inv in H as ([] & w5 & H5 & H).
  apply bind_ok_inv in H as ([] & w6 & H6 & H).
  apply bind_ok_inv in H as (i & w7 & H7 & H).
  apply encrypt_value_ok_store in H1 as [G1 _], H2 as [G2 _],
    H3 as [G3 _], H4 as [G4 _].
  apply execute_insert_ok_inv in H5 as (st & id5 & Hi & Hw5 & Hl5 & _).
  apply commit_ok_inv in H6 as (Hc6 & Hw6 & Hl6).
  unfold get_lastrowid in H7. injection H7 as <- <-.
  unfold ret in H. injection H as <- <-.
  rewrite G4, G3, G2, G1 in Hi.
  apply sql_insert_plain in Hi as (row & -> & ->); [|done].
  exists row. repeat split; congruence.
Qed.

Lemma insert_staff_data_ok_inv (sd : staff_data) (w : world) (id : Z)
    (w' : world) :
  insert_staff_data sd w = (Ok id, w') ->
  exists row,
    id = next_id (working w) "Staff"
    /\ working w' = append_row "Staff" row (working w)
    /\ committed w' = working w'.
Proof.
  intros H. unfold insert_staff_data, encrypt_data in H.
  apply bind_ok_inv in H as (e1 & w1 & H1 & H).
  apply bind_ok_inv in H as (e2 & w2 & H2 & H).
  apply bind_ok_inv in H as ([] & w5 & H5 & H).
  apply bind_ok_inv in H as ([] & w6 & H6 & H).
  apply bind_ok_inv in H as (i & w7 & H7 & H).
  apply encrypt_value_ok_store in H1 as [G1 _], H2 as [G2 _].
  apply execute_insert_ok_inv in H5 as (st & id5 & Hi & Hw5 & Hl5 & _).
  apply commit_ok_inv in H6 as (Hc6 & Hw6 & Hl6).
  unfold get_lastrowid in H7. injection H7 as <- <-.
  unfold ret in H. injection H as <- <-.
  rewrite G2, G1 in Hi.
  apply sql_insert_plain in Hi as (row & -> & ->); [|done].
  exists row. repeat split; congruence.
Qed.

Lemma insert_patient_data_all_or_nothing (pd : patient_data) :
  all_or_nothing (insert_patient_data pd).
Proof.
  unfold insert_patient_data, encrypt_data.
  repeat (apply all_or_nothing_bind;
          [apply keeps_committed_encrypt_value|intros ?]).
  apply all_or_nothing_bind; [apply keeps_committed_execute_insert|intros _].
  apply all_or_nothing_commit_then. intros u w. eexists. reflexivity.
Qed.

Lemma insert_staff_data_all_or_nothing (sd : staff_data) :
  all_or_nothing (insert_staff_data sd).
Proof.
  unfold insert_staff_data, encrypt_data.
  repeat (apply all_or_nothing_bind;
          [apply keeps_committed_encrypt_value|intros ?]).
  apply all_or_nothing_bind; [apply keeps_committed_execute_insert|intros _].
  apply all_or_nothing_commit_then. intros u w. eexists. reflexivity.
Qed.

(** X6: [insert_patient_data] and [insert_staff_data] commit nothing when
    they raise; when they return, they have committed the whole
    uncommitted state of the connection they were given, their own row
    and whatever was pending before, and the identifier they return is
    the one the table had next. *)
Theorem inserts_commit_the_connection :
  (forall pd : patient_data,
     all_or_nothing (insert_patient_data pd)
     /\ forall w id w',
          insert_patient_data pd w = (Ok id, w') ->
          exists row,
            id = next_id (working w) "Patient"
            /\ working w' = append_row "Patient" row (working w)
            /\ committed w' = working w')
  /\ (forall sd : staff_data,
        all_or_nothing (insert_staff_data sd)
        /\ forall w id w',
             insert_staff_data sd w = (Ok id, w') ->
             exists row,
               id = next_id (working w) "Staff"
               /\ working w' = append_row "Staff" row (working w)
               /\ committed w' = working w').
Proof.
  split.
  - intros pd. split; [apply insert_patient_data_all_or_nothing|].
    apply insert_patient_data_ok_inv.
  - intros sd. split; [apply insert_staff_data_all_or_nothing|].
    apply insert_staff_data_ok_inv.
Qed.

(** ** Setting up the database *)

Lemma create_table_if_not_exists_quiet (name : string) (cols : list column)
    (w : world) :
  faults w = [] ->
  create_table_if_not_exists name cols w
  = (Ok tt,
     set_committed (working w ∪ {[name := Table cols 1 []]})
       (set_working (working w ∪ {[name := Table cols 1 []]}) w)).
Proof.
  intros Hf. unfold create_table_if_not_exists.
  rewrite (bind_step _ _ _ _ _ (server_step_quiet w Hf)).
  assert (E : match working w !! name with
              | Some _ => working w
              | None => <[name := Table cols 1 []]> (working w)
              end = working w ∪ {[name := Table cols 1 []]}).
  { destruct (working w !! name) as [tb|] eqn:Hl.
    - apply map_eq. intros j. rewrite lookup_union.
      destruct (decide (j = name)) as [->|Hne].
      + rewrite Hl, lookup_singleton_eq. reflexivity.
      + rewrite lookup_singleton_ne by congruence.
        destruct (working w !! j); reflexivity.
    - now apply insert_union_singleton_r. }
  rewrite E. reflexivity.
Qed.

Lemma world_ext (a b : world) :
  rng_tape a = rng_tape b -> rng_pos a = rng_pos b -> aes_key a = aes_key b ->
  committed a = committed b -> working a = working b ->
  lastrowid a = lastrowid b -> faults a = faults b -> clock a = clock b ->
  a = b.
Proof. destruct a, b. cbn. intros. subst. reflexivity. Qed.

Lemma create_database_and_tables_quiet (w : world) :
  faults w = [] ->
  create_database_and_tables w
  = (Ok tt,
     World (rng_tape w) (rng_pos w) (aes_key w)
       (committed w ∪ schema_tables) (committed w ∪ schema_tables) 0 []
       (clock w)).
Proof.
  intros Hf. unfold create_database_and_tables, connect_to_db.
  erewrite bind_step; [|apply get_db_conn_quiet; exact Hf].
  do 10 (erewrite bind_step;
         [|apply create_table_if_not_exists_quiet; sw; exact Hf]; sw).
  erewrite bind_step; [|apply commit_quiet; sw; exact Hf].
  unfold close, rollback. f_equal.
  apply world_ext; sw; try reflexivity; try exact Hf;
    unfold schema_tables; rewrite !(assoc_L (∪)); reflexivity.
Qed.

Lemma hospital_schema_tables : hospital_schema = schema_tables.
Proof.
  unfold hospital_schema.
  rewrite (create_database_and_tables_quiet (sample_world ∅ []) eq_refl).
  cbn [snd committed sample_world]. apply (left_id_L ∅ (∪)).
Qed.

(** X7: [create_database_and_tables], on a server that reports no failure,
    adds the tables that are missing, empty, and leaves every table that
    exists as it is, rows included; running it again changes nothing. *)
Theorem create_database_and_tables_keeps_existing_tables (w : world) :
  faults w = [] ->
  exists w',
    create_database_and_tables w = (Ok tt, w')
    /\ committed w' = committed w ∪ hospital_schema
    /\ working w' = committed w'
    /\ (forall t tb, committed w !! t = Some tb -> committed w' !! t = Some tb)
    /\ (forall t, committed w !! t = None ->
                  committed w' !! t = hospital_schema !! t)
    /\ create_database_and_tables w' = (Ok tt, w').
Proof.
  intros Hf. eexists. split; [apply create_database_and_tables_quiet, Hf|].
  sw. rewrite hospital_schema_tables.
  split; [reflexivity|]. split; [reflexivity|]. split; [|split].
  - intros t tb Hl. now apply lookup_union_Some_l.
  - intros t Hl. now apply lookup_union_r.
  - rewrite create_database_and_tables_quiet by reflexivity. sw.
    rewrite <- (assoc_L (∪)), (idemp_L (∪)). reflexivity.
Qed.

Lemma create_database_and_tables_keeps_existing_tables_witness :
  exists w',
    create_database_and_tables (sample_world store_with_bank_method [])
    = (Ok tt, w')
    /\ committed w'
       = committed (sample_world store_with_bank_method []) ∪ hospital_schema
    /\ working w' = committed w'
    /\ (forall t tb,
          committed (sample_world store_with_bank_method []) !! t = Some tb ->
          committed w' !! t = Some tb)
    /\ (forall t,
          committed (sample_world store_with_bank_method []) !! t = None ->
          committed w' !! t = hospital_schema !! t)
    /\ create_database_and_tables w' = (Ok tt, w').
Proof.
  apply (create_database_and_tables_keeps_existing_tables
           (sample_world store_with_bank_method [])).
  reflexivity.
Defined.

(** ** The initial accounts *)

Lemma execute_count_ok_inv (t : string) (w : world) (n : Z) (w' : world) :
  execute_count t w = (Ok n, w') ->
  sql_count (working w) t = Ok n /\ working w' = working w
  /\ committed w' = committed w.
Proof.
  unfold execute_count. intros H.
  apply bind_ok_inv in H as ([] & w1 & Hs & H).
  apply server_step_ok_inv in Hs as (Hc & Hw & _ & _).
  injection H as H <-. rewrite <- Hw, <- Hc. repeat split. exact H.
Qed.

Lemma execute_count_quiet (t : string) (w : world) :
  faults w = [] -> execute_count t w = (sql_count (working w) t, w).
Proof.
  intros Hf. unfold execute_count.
  now rewrite (bind_step _ _ _ _ _ (server_step_quiet w Hf)).
Qed.

Lemma keeps_committed_execute_count (t : string) :
  keeps_committed (execute_count t).
Proof.
  apply keeps_committed_bind; [apply keeps_committed_server_step|].
  intros _ w. reflexivity.
Qed.

Lemma all_or_nothing_commit : all_or_nothing commit.
Proof.
  intros w e. unfold commit, bind, server_step.
  destruct (faults w) as [|[msg|] r]; cbn; try discriminate; reflexivity.
Qed.

Lemma keeps_committed_leaves_database {A} (m : M A) :
  leaves_database m -> keeps_committed m.
Proof. intros H w. destruct (H w) as (a & w' & -> & Hc & _). exact Hc. Qed.

Lemma get_db_conn_ok_inv (w w0 : world) :
  get_db_conn w = (Ok tt, w0) ->
  working w0 = committed w /\ committed w0 = committed w.
Proof.
  unfold get_db_conn. intros H.
  apply bind_ok_inv in H as ([] & w1 & Hs & H).
  apply server_step_ok_inv in Hs as (Hc & _ & _ & _).
  injection H as <-. cbn. now rewrite Hc.
Qed.

Lemma sql_insert_user (st : store) (email password_hash role : str) :
  has_table st "Users" Users_cols ->
  sql_insert st "Users"
    [("email", VStr email); ("password_hash", VStr password_hash);
     ("role", VStr role); ("reference_id", VNull); ("is_active", VBool true)]
  = Ok (append_row "Users"
          (user_row (next_id st "Users") email password_hash role) st,
        next_id st "Users").
Proof.
  intros (tb & Hl & Hc).
  unfold sql_insert, store_insert, append_row, next_id. rewrite Hl, Hc.
  unfold Users_cols, col, stamp.
  cbn [build_row build_cells assoc col_name col_type col_default].
  string_tests. cbn [to_column option_map]. rewrite lookup_insert_eq.
  unfold after_insert_trigger. string_tests. reflexivity.
Qed.

Lemma has_table_with_initial_users (h1 h2 h3 : str) (st : store)
    (t : string) (cols : list column) :
  has_table st t cols -> has_table (with_initial_users h1 h2 h3 st) t cols.
Proof.
  intros H. unfold with_initial_users. now repeat apply has_table_append_row.
Qed.

Lemma create_initial_users_body_all_or_nothing
    (generate_password_hash : str -> M str) :
  (forall p, leaves_database (generate_password_hash p)) ->
  all_or_nothing (create_initial_users_body generate_password_hash).
Proof.
  intros Hh. unfold create_initial_users_body.
  apply all_or_nothing_bind; [apply keeps_committed_execute_count|]. intros n.
  destruct (0 <? n)%Z; [intros w e; discriminate|].
  repeat (apply all_or_nothing_bind;
          [first [apply keeps_committed_leaves_database, Hh
                 |apply keeps_committed_execute_insert]|intros ?]).
  apply all_or_nothing_commit.
Qed.

Lemma create_initial_users_body_ok_inv
    (generate_password_hash : str -> M str) (w w1 : world) :
  (forall p, leaves_database (generate_password_hash p)) ->
  has_table (working w) "Users" Users_cols ->
  create_initial_users_body generate_password_hash w = (Ok tt, w1) ->
  committed w1 = committed w
  \/ (rows_of (working w) "Users" = []
      /\ exists h1 h2 h3,
           hash_of generate_password_hash (py "default") h1
           /\ hash_of generate_password_hash (py "staff123") h2
           /\ hash_of generate_password_hash (py "patient123") h3
           /\ committed w1 = with_initial_users h1 h2 h3 (working w)).
Proof.
  intros Hh Ht H. unfold create_initial_users_body in H.
  apply bind_ok_inv in H as (n & w2 & Hc & H).
  apply execute_count_ok_inv in Hc as (Hn & Hw2 & Hc2).
  destruct (0 <? n)%Z eqn:En.
  { injection H as <-. left. exact Hc2. }
  right. split.
  { destruct Ht as (tb & Hl & _). unfold sql_count in Hn. rewrite Hl in Hn.
    injection Hn as Hn. unfold rows_of. rewrite Hl.
    destruct (t_rows tb); [reflexivity|]. cbn [length] in Hn. lia. }
  apply bind_ok_inv in H as (h1 & wa & G1 & H).
  destruct (Hh (py "default") w2) as (a1 & wa' & Ga & _ & Gw1 & _).
  assert (Hh1 : hash_of generate_password_hash (py "default") h1)
    by (now exists w2, wa).
  rewrite Ga in G1. injection G1 as -> ->.
  apply bind_ok_inv in H as ([] & wb & I1 & H).
  apply execute_insert_ok_inv in I1 as (st1 & id1 & Hi1 & Hwb & _ & _).
  rewrite Gw1, Hw2, sql_insert_user in Hi1 by exact Ht.
  injection Hi1 as <- <-.
  apply bind_ok_inv in H as (h2 & wc & G2 & H).
  destruct (Hh (py "staff123") wb) as (a2 & wc' & Gb & _ & Gw2 & _).
  assert (Hh2 : hash_of generate_password_hash (py "staff123") h2)
    by (now exists wb, wc).
  rewrite Gb in G2. injection G2 as -> ->.
  apply bind_ok_inv in H as ([] & wd & I2 & H).
  apply execute_insert_ok_inv in I2 as (st2 & id2 & Hi2 & Hwd & _ & _).
  rewrite Gw2, Hwb, sql_insert_user in Hi2
    by (apply has_table_append_row; exact Ht).
  injection Hi2 as <- <-.
  apply bind_ok_inv in H as (h3 & we & G3 & H).
  destruct (Hh (py "patient123") wd) as (a3 & we' & Gd & _ & Gw3 & _).
  assert (Hh3 : hash_of generate_password_hash (py "patient123") h3)
    by (now exists wd, we).
  rewrite Gd in G3. injection G3 as -> ->.
  apply bind_ok_inv in H as ([] & wf & I3 & H).
  apply execute_insert_ok_inv in I3 as (st3 & id3 & Hi3 & Hwf & _ & _).
  rewrite Gw3, Hwd, sql_insert_user in Hi3
    by (do 2 apply has_table_append_row; exact Ht).
  injection Hi3 as <- <-.
  apply commit_ok_inv in H as (Hcm & _ & _).
  exists h1, h2, h3. repeat split; try assumption.
  rewrite Hcm, Hwf. reflexivity.
Qed.

Lemma create_initial_users_run (generate_password_hash : str -> M str)
    (w w0 w1 : world) (r : result unit) :
  get_db_conn w = (Ok tt, w0) ->
  create_initial_users_body generate_password_hash w0 = (r, w1) ->
  create_initial_users generate_password_hash w
  = (Ok tt, set_working (committed w1) w1).
Proof.
  intros Ec Eb. unfold create_initial_users, connect_to_db, bind.
  rewrite Ec. unfold try_finally, try_except. rewrite Eb.
  destruct r as [[]|e]; reflexivity.
Qed.

Lemma create_initial_users_cases (generate_password_hash : str -> M str)
    (w : world) :
  (forall p, leaves_database (generate_password_hash p)) ->
  has_table (committed w) "Users" Users_cols ->
  (forall e,
     fst (create_initial_users generate_password_hash w) = Raise e ->
     fst (connect_to_db w) = Raise e)
  /\ (committed (snd (create_initial_users generate_password_hash w))
      = committed w
      \/ (rows_of (committed w) "Users" = []
          /\ exists h1 h2 h3,
               hash_of generate_password_hash (py "default") h1
               /\ hash_of generate_password_hash (py "staff123") h2
               /\ hash_of generate_password_hash (py "patient123") h3
               /\ committed (snd (create_initial_users generate_password_hash w))
                  = with_initial_users h1 h2 h3 (committed w))).
Proof.
  intros Hh Ht. unfold connect_to_db.
  pose proof (keeps_committed_get_db_conn w) as Hkc.
  destruct (get_db_conn w) as [[[]|e] w0] eqn:Ec; cbn [fst snd] in *.
  2:{ assert (E : create_initial_users generate_password_hash w = (Raise e, w0)).
      { unfold create_initial_users, connect_to_db, bind. now rewrite Ec. }
      rewrite E. cbn [fst snd].
      split; [intros e' H; exact H|left; exact Hkc]. }
  pose proof Ec as Ec0.
  apply get_db_conn_ok_inv in Ec0 as (Hw0 & Hc0).
  pose proof (create_initial_users_body_all_or_nothing _ Hh w0) as Haon.
  pose proof (create_initial_users_body_ok_inv generate_password_hash w0) as Hok.
  destruct (create_initial_users_body generate_password_hash w0)
    as [r w1] eqn:Eb.
  rewrite (create_initial_users_run _ w w0 w1 r Ec Eb). cbn [fst snd].
  split; [intros e; discriminate|]. sw.
  destruct r as [[]|e]; cbn [fst snd] in *.
  - rewrite Hw0 in Hok.
    destruct (Hok w1 Hh Ht eq_refl) as [H|(Hr & h1 & h2 & h3 & H1 & H2 & H3 & H)].
    + left. congruence.
    + right. split; [exact Hr|]. exists h1, h2, h3. now repeat split.
  - left. rewrite <- Hc0. exact (Haon e eq_refl).
Qed.


Lemma sample_hash_leaves_database (p : str) : leaves_database (sample_hash p).
Proof. intros w. eexists _, _. repeat split. Qed.

Lemma hospital_schema_has_users : has_table hospital_schema "Users" Users_cols.
Proof. eexists. split; vm_compute; reflexivity. Qed.


Lemma execute_insert_user_quiet (email password_hash role : str) (w : world) :
  faults w = [] -> has_table (working w) "Users" Users_cols ->
  execute_insert "Users"
    [("email", VStr email); ("password_hash", VStr password_hash);
     ("role", VStr role); ("reference_id", VNull); ("is_active", VBool true)] w
  = (Ok tt,
     set_lastrowid (next_id (working w) "Users")
       (set_working
          (append_row "Users"
             (user_row (next_id (working w) "Users") email password_hash role)
             (working w)) w)).
Proof.
  intros Hf Ht. unfold execute_insert.
  rewrite (bind_step _ _ _ _ _ (server_step_quiet w Hf)).
  now rewrite sql_insert_user.
Qed.

Lemma create_initial_users_body_quiet
    (generate_password_hash : str -> M str) (w : world) :
  (forall p, leaves_database (generate_password_hash p)) ->
  faults w = [] ->
  has_table (working w) "Users" Users_cols ->
  rows_of (working w) "Users" = [] ->
  exists h1 h2 h3 w1,
    create_initial_users_body generate_password_hash w = (Ok tt, w1)
    /\ hash_of generate_password_hash (py "default") h1
    /\ hash_of generate_password_hash (py "staff123") h2
    /\ hash_of generate_password_hash (py "patient123") h3
    /\ committed w1 = with_initial_users h1 h2 h3 (working w)
    /\ faults w1 = [].
Proof.
  intros Hh Hf Ht Hr.
  assert (Hn : execute_count "Users" w = (Ok 0%Z, w)).
  { rewrite execute_count_quiet by exact Hf.
    destruct Ht as (tb & Hl & _). unfold sql_count, rows_of in *.
    rewrite Hl in *. now rewrite Hr. }
  unfold create_initial_users_body.
  rewrite (bind_step _ _ _ _ _ Hn). cbn [Z.ltb Z.compare].
  destruct (Hh (py "default") w) as (h1 & wa & Ga & _ & Gwa & Gfa).
  rewrite (bind_step _ _ _ _ _ Ga).
  erewrite bind_step;
    [|apply execute_insert_user_quiet; [congruence|now rewrite Gwa]].
  cbv beta.
  match goal with |- context [bind (generate_password_hash _) _ ?x] =>
    destruct (Hh (py "staff123") x) as (h2 & wb & Gb & _ & Gwb & Gfb) end.
  rewrite (bind_step _ _ _ _ _ Gb). sw. cbn [working committed lastrowid faults set_working set_lastrowid
         set_committed set_faults] in Gwb, Gfb.
  erewrite bind_step;
    [|apply execute_insert_user_quiet;
      [congruence
      |rewrite Gwb; apply has_table_append_row; now rewrite Gwa]].
  cbv beta.
  match goal with |- context [bind (generate_password_hash _) _ ?x] =>
    destruct (Hh (py "patient123") x) as (h3 & wc & Gc & _ & Gwc & Gfc) end.
  rewrite (bind_step _ _ _ _ _ Gc). sw. cbn [working committed lastrowid faults set_working set_lastrowid
         set_committed set_faults] in Gwc, Gfc.
  erewrite bind_step;
    [|apply execute_insert_user_quiet;
      [congruence
      |rewrite Gwc, Gwb; do 2 apply has_table_append_row; now rewrite Gwa]].
  rewrite commit_quiet by (sw; congruence). sw.
  exists h1, h2, h3. eexists. split; [reflexivity|]. sw.
  split; [now exists w, wa|]. split; [eexists _, _; exact Gb|].
  split; [eexists _, _; exact Gc|]. split; [|congruence].
  rewrite Gwc, Gwb, Gwa. reflexivity.
Qed.

Lemma rows_of_with_initial_users (h1 h2 h3 : str) (st : store) :
  has_table st "Users" Users_cols ->
  rows_of (with_initial_users h1 h2 h3 st) "Users"
  = rows_of st "Users"
    ++ [user_row (next_id st "Users") (py "root@gmail.com") h1 (py "admin");
        user_row (next_id st "Users" + 1) (py "staff@hospital.com") h2
          (py "staff");
        user_row (next_id st "Users" + 2) (py "patient@hospital.com") h3
          (py "patient")].
Proof.
  intros Ht. unfold with_initial_users.
  rewrite !(rows_of_append_row_eq "Users" _ _ Users_cols)
    by (repeat apply has_table_append_row; exact Ht).
  rewrite !(next_id_append_row_eq "Users" _ _ Users_cols)
    by (repeat apply has_table_append_row; exact Ht).
  rewrite <- !app_assoc. cbn [app]. do 4 f_equal. f_equal. lia.
Qed.

(** X9: on a server that reports no failure, [create_initial_users] gives
    an empty [Users] table its three accounts: the administrator, the staff
    member and the patient, in this order, active, with consecutive
    identifiers, the hashes of their passwords, and no link yet to a staff
    member or patient.  No other table changes, and a second run adds
    nothing. *)
Theorem create_initial_users_creates_accounts_once
    (generate_password_hash : str -> M str) (w : world) :
  (forall p, leaves_database (generate_password_hash p)) ->
  faults w = [] ->
  has_table (committed w) "Users" Users_cols ->
  rows_of (committed w) "Users" = [] ->
  exists h1 h2 h3 w1,
    create_initial_users generate_password_hash w = (Ok tt, w1)
    /\ hash_of generate_password_hash (py "default") h1
    /\ hash_of generate_password_hash (py "staff123") h2
    /\ hash_of generate_password_hash (py "patient123") h3
    /\ rows_of (committed w1) "Users"
       = [user_row (next_id (committed w) "Users") (py "root@gmail.com") h1
            (py "admin");
          user_row (next_id (committed w) "Users" + 1)
            (py "staff@hospital.com") h2 (py "staff");
          user_row (next_id (committed w) "Users" + 2)
            (py "patient@hospital.com") h3 (py "patient")]
    /\ (forall t, t <> "Users" -> committed w1 !! t = committed w !! t)
    /\ committed (snd (create_initial_users generate_password_hash w1))
       = committed w1.
Proof.
  intros Hh Hf Ht Hr.
  destruct (create_initial_users_body_quiet generate_password_hash
              (set_lastrowid 0 (set_working (committed w) w)) Hh Hf Ht Hr)
    as (h1 & h2 & h3 & w1 & Hb & H1 & H2 & H3 & Hc & Hf1).
  cbn [working set_lastrowid set_working] in Hc.
  assert (Hrun : create_initial_users generate_password_hash w
                 = (Ok tt, set_working (committed w1) w1)).
  { unfold create_initial_users, connect_to_db.
    rewrite (bind_step _ _ _ _ _ (get_db_conn_quiet w Hf)).
    unfold try_finally, try_except. rewrite Hb. reflexivity. }
  exists h1, h2, h3, (set_working (committed w1) w1).
  split; [exact Hrun|]. sw.
  split; [exact H1|]. split; [exact H2|]. split; [exact H3|].
  assert (Ht1 : has_table (committed w1) "Users" Users_cols).
  { rewrite Hc. now apply has_table_with_initial_users. }
  assert (Hrows : rows_of (committed w1) "Users" <> []).
  { rewrite Hc, rows_of_with_initial_users by exact Ht.
    intros E. apply app_eq_nil in E as [_ E]. discriminate E. }
  split; [|split].
  - rewrite Hc, rows_of_with_initial_users, Hr by exact Ht. reflexivity.
  - intros t Hne. rewrite Hc. unfold with_initial_users.
    now rewrite !lookup_append_row_ne by congruence.
  - destruct (create_initial_users_cases generate_password_hash
                (set_working (committed w1) w1) Hh Ht1) as (_ & [H|(He & _)]).
    + exact H.
    + contradiction.
Qed.

Lemma create_initial_users_creates_accounts_once_witness :
  exists h1 h2 h3 w1,
    create_initial_users sample_hash (sample_world hospital_schema [])
    = (Ok tt, w1)
    /\ hash_of sample_hash (py "default") h1
    /\ hash_of sample_hash (py "staff123") h2
    /\ hash_of sample_hash (py "patient123") h3
    /\ rows_of (committed w1) "Users"
       = [user_row
            (next_id (committed (sample_world hospital_schema [])) "Users")
            (py "root@gmail.com") h1 (py "admin");
          user_row
            (next_id (committed (sample_world hospital_schema [])) "Users" + 1)
            (py "staff@hospital.com") h2 (py "staff");
          user_row
            (next_id (committed (sample_world hospital_schema [])) "Users" + 2)
            (py "patient@hospital.com") h3 (py "patient")]
    /\ (forall t, t <> "Users" ->
          committed w1 !! t
          = committed (sample_world hospital_schema []) !! t)
    /\ committed (snd (create_initial_users sample_hash w1)) = committed w1.
Proof.
  apply (create_initial_users_creates_accounts_once sample_hash
           (sample_world hospital_schema [])).
  - exact sample_hash_leaves_database.
  - reflexivity.
  - exact hospital_schema_has_users.
  - vm_compute. reflexivity.
Defined.

(** ** Running the setup again *)

Lemma sql_count_rows (st : store) (t : string) :
  rows_of st t <> [] ->
  exists n, sql_count st t = Ok n /\ (0 <? n)%Z = true.
Proof.
  unfold rows_of, sql_count. destruct (st !! t) as [tb|]; [|contradiction].
  intros H. eexists. split; [reflexivity|].
  destruct (t_rows tb); [contradiction|]. cbn [length].
  apply Z.ltb_lt. lia.
Qed.

Lemma insert_comprehensive_dummy_data_skip (w : world) :
  faults w = [] ->
  rows_of (committed w) "Staff" <> [] ->
  rows_of (committed w) "Patient" <> [] ->
  insert_comprehensive_dummy_data w
  = (Ok tt, set_lastrowid 0 (set_working (committed w) w)).
Proof.
  intros Hf Hs Hp.
  destruct (sql_count_rows _ _ Hs) as (ns & Ens & Hns).
  destruct (sql_count_rows _ _ Hp) as (np & Enp & Hnp).
  unfold insert_comprehensive_dummy_data, connect_to_db.
  rewrite (bind_step _ _ _ _ _ (get_db_conn_quiet w Hf)).
  unfold try_finally, try_except, dummy_data_body.
  erewrite bind_step;
    [|rewrite execute_count_quiet by (sw; exact Hf); sw; rewrite Ens;
      reflexivity].
  erewrite bind_step;
    [|rewrite execute_count_quiet by (sw; exact Hf); sw; rewrite Enp;
      reflexivity].
  rewrite Hns, Hnp. cbn [andb]. reflexivity.
Qed.

(** X10: when [Staff] and [Patient] both have rows, the seed script inserts
    nothing and returns normally, whatever the other tables hold.  So a
    run that failed after it had committed its staff and patients is not
    completed by running the script again. *)
Theorem seed_skips_when_staff_and_patients_exist (w : world) :
  faults w = [] ->
  rows_of (committed w) "Staff" <> [] ->
  rows_of (committed w) "Patient" <> [] ->
  exists w',
    insert_comprehensive_dummy_data w = (Ok tt, w')
    /\ committed w' = committed w /\ working w' = committed w.
Proof.
  intros Hf Hs Hp. eexists.
  split; [apply insert_comprehensive_dummy_data_skip; assumption|].
  split; reflexivity.
Qed.

Lemma seed_skips_when_staff_and_patients_exist_witness :
  exists w',
    insert_comprehensive_dummy_data
      (sample_world
         (committed (snd (insert_comprehensive_dummy_data failing_seed_world)))
         [])
    = (Ok tt, w')
    /\ committed w'
       = committed
           (sample_world
              (committed
                 (snd (insert_comprehensive_dummy_data failing_seed_world)))
              [])
    /\ working w'
       = committed
           (sample_world
              (committed
                 (snd (insert_comprehensive_dummy_data failing_seed_world)))
              []).
Proof.
  apply (seed_skips_when_staff_and_patients_exist
           (sample_world
              (committed
                 (snd (insert_comprehensive_dummy_data failing_seed_world)))
              [])).
  - reflexivity.
  - vm_compute. discriminate.
  - vm_compute. discriminate.
Defined.

Lemma rows_of_union_l (st st' : store) (t : string) :
  rows_of st t <> [] -> rows_of (st ∪ st') t = rows_of st t.
Proof.
  unfold rows_of. destruct (st !! t) as [tb|] eqn:Hl; [|contradiction].
  intros _. now rewrite (lookup_union_Some_l _ _ _ _ Hl).
Qed.

Lemma create_initial_users_skip (generate_password_hash : str -> M str)
    (w : world) :
  faults w = [] ->
  rows_of (committed w) "Users" <> [] ->
  create_initial_users generate_password_hash w
  = (Ok tt, set_lastrowid 0 (set_working (committed w) w)).
Proof.
  intros Hf Hu.
  destruct (sql_count_rows _ _ Hu) as (n & En & Hn).
  assert (Eb : create_initial_users_body generate_password_hash
                 (set_lastrowid 0 (set_working (committed w) w))
               = (Ok tt, set_lastrowid 0 (set_working (committed w) w))).
  { unfold create_initial_users_body.
    erewrite bind_step;
      [|rewrite execute_count_quiet by (sw; exact Hf); sw; rewrite En;
        reflexivity].
    now rewrite Hn. }
  rewrite (create_initial_users_run _ _ _ _ _ (get_db_conn_quiet w Hf) Eb).
  reflexivity.
Qed.

(** X11: running [main] on a database that already has accounts, staff and
    patients changes no table that exists: it only adds, empty, the tables
    that are missing, and returns normally. *)
Theorem main_keeps_a_populated_database
    (generate_password_hash : str -> M str) (w : world) :
  faults w = [] ->
  rows_of (committed w) "Users" <> [] ->
  rows_of (committed w) "Staff" <> [] ->
  rows_of (committed w) "Patient" <> [] ->
  exists w',
    main generate_password_hash w = (Ok tt, w')
    /\ committed w' = committed w ∪ hospital_schema
    /\ (forall t tb, committed w !! t = Some tb -> committed w' !! t = Some tb)
    /\ ((forall t, committed w !! t = None -> hospital_schema !! t = None) ->
        committed w' = committed w).
Proof.
  intros Hf Hu Hs Hp. unfold main.
  rewrite (bind_step _ _ _ _ _ (create_database_and_tables_quiet w Hf)).
  erewrite bind_step;
    [|apply create_initial_users_skip;
      [reflexivity|sw; rewrite rows_of_union_l; assumption]].
  sw. rewrite insert_comprehensive_dummy_data_skip;
    [|reflexivity|sw; rewrite rows_of_union_l; assumption
     |sw; rewrite rows_of_union_l; assumption].
  eexists. split; [reflexivity|]. sw. rewrite hospital_schema_tables.
  split; [reflexivity|]. split.
  - intros t tb Hl. now apply lookup_union_Some_l.
  - intros Hsub. rewrite <- hospital_schema_tables in *.
    apply map_eq. intros t. rewrite lookup_union.
    destruct (committed w !! t) as [tb|] eqn:Hl.
    + destruct (hospital_schema !! t); reflexivity.
    + destruct (hospital_schema !! t) as [tb'|] eqn:Hl'; [|reflexivity].
      rewrite (Hsub t Hl) in Hl'. discriminate.
Qed.

Lemma first_setup_populated :
  let w := first_setup in
  faults w = []
  /\ length (rows_of (committed w) "Users") = 3%nat
  /\ length (rows_of (committed w) "Staff") = 5%nat
  /\ length (rows_of (committed w) "Patient") = 4%nat.
Proof. vm_compute. repeat split. Qed.

Lemma rows_of_length_pos (st : store) (t : string) (n : nat) :
  length (rows_of st t) = S n -> rows_of st t <> [].
Proof. intros H E. rewrite E in H. discriminate H. Qed.

Lemma main_keeps_a_populated_database_witness :
  exists w',
    main sample_hash first_setup = (Ok tt, w')
    /\ committed w' = committed first_setup ∪ hospital_schema
    /\ (forall t tb,
          committed first_setup !! t = Some tb -> committed w' !! t = Some tb)
    /\ ((forall t,
           committed first_setup !! t = None -> hospital_schema !! t = None) ->
        committed w' = committed first_setup).
Proof.
  apply (main_keeps_a_populated_database sample_hash first_setup).
  - exact (proj1 first_setup_populated).
  - exact (rows_of_length_pos _ _ _ (proj1 (proj2 first_setup_populated))).
  - exact (rows_of_length_pos _ _ _
             (proj1 (proj2 (proj2 first_setup_populated)))).
  - exact (rows_of_length_pos _ _ _
             (proj2 (proj2 (proj2 first_setup_populated)))).
Defined.

(** ** The audit trail *)

Lemma fold_update_rows (t tname key : string)
    (snapshot : (string -> value) -> value) (cols : list column)
    (sets : list (string * value)) (wcol : string) (wval : value)
    (rows : list (list value)) :
  (forall old new,
     before_update_trigger t old new
     = Some (audit_update tname key snapshot old new)) ->
  forall (st : store) (done : list (list value)),
    has_table st "Audit_Log" Audit_Log_cols ->
    fold_left (update_row t cols sets wcol wval) rows (Ok (st, done))
    = Ok (audited tname key snapshot cols sets
            (List.filter (fun row => row_matches cols row wcol wval) rows) st,
          done
          ++ List.map (fun row => if row_matches cols row wcol wval
                                  then set_cells cols row sets else row) rows).
Proof.
  intros Htrg. induction rows as [|row rows IH]; intros st done Ha.
  - cbn. now rewrite app_nil_r.
  - cbn [fold_left List.filter List.map].
    destruct (row_matches cols row wcol wval) eqn:Hm.
    + rewrite (update_row_writes_one_audit_row t tname key snapshot cols sets
                 wcol wval st done row Htrg Ha Hm).
      rewrite IH by (apply has_table_append_row; exact Ha).
      cbn [audited]. now rewrite <- app_assoc.
    + unfold update_row at 2. rewrite Hm.
      rewrite IH by exact Ha. now rewrite <- app_assoc.
Qed.

Lemma rows_of_audited (tname key : string)
    (snapshot : (string -> value) -> value) (cols : list column)
    (sets : list (string * value)) (matched : list (list value)) :
  forall st : store,
    has_table st "Audit_Log" Audit_Log_cols ->
    rows_of (audited tname key snapshot cols sets matched st) "Audit_Log"
    = rows_of st "Audit_Log"
      ++ audit_rows tname key snapshot cols sets (next_id st "Audit_Log")
           matched.
Proof.
  induction matched as [|row r IH]; intros st Ha; cbn [audited audit_rows].
  - now rewrite app_nil_r.
  - rewrite IH by (apply has_table_append_row; exact Ha).
    rewrite (rows_of_append_row_eq _ _ _ _ Ha),
      (next_id_append_row_eq _ _ _ _ Ha).
    now rewrite <- app_assoc.
Qed.

Lemma lookup_audited_ne (tname key : string)
    (snapshot : (string -> value) -> value) (cols : list column)
    (sets : list (string * value)) (matched : list (list value)) (t : string) :
  t <> "Audit_Log" ->
  forall st : store,
    audited tname key snapshot cols sets matched st !! t = st !! t.
Proof.
  intros Hne. induction matched as [|row r IH]; intros st; cbn [audited].
  - reflexivity.
  - rewrite IH. apply lookup_append_row_ne. congruence.
Qed.

(** X12: an [UPDATE] of a table with a [BEFORE UPDATE] trigger changes the
    rows its condition matches and no other, and adds to [Audit_Log] one
    row for each row matched, in the order of the table, with consecutive
    identifiers; a row is matched, and audited, whether or not the update
    changes it, and an update that matches no row adds no audit row. *)
Theorem update_audits_each_matched_row (st : store) (t tname key : string)
    (snapshot : (string -> value) -> value) (cols : list column)
    (sets : list (string * value)) (wcol : string) (wval : value) :
  (forall old new,
     before_update_trigger t old new
     = Some (audit_update tname key snapshot old new)) ->
  has_table st t cols ->
  has_table st "Audit_Log" Audit_Log_cols ->
  exists st',
    sql_update st t sets wcol wval = Ok st'
    /\ rows_of st' t
       = List.map (fun row => if row_matches cols row wcol wval
                              then set_cells cols row sets else row)
           (rows_of st t)
    /\ rows_of st' "Audit_Log"
       = rows_of st "Audit_Log"
         ++ audit_rows tname key snapshot cols sets (next_id st "Audit_Log")
              (List.filter (fun row => row_matches cols row wcol wval)
                 (rows_of st t))
    /\ next_id st' t = next_id st t.
Proof.
  intros Htrg (tb & Hl & Hc) Ha.
  assert (Hne : t <> "Audit_Log").
  { intros ->. specialize (Htrg (fun _ => VNull) (fun _ => VNull)).
    vm_compute in Htrg. discriminate Htrg. }
  unfold sql_update. rewrite Hl, Hc.
  rewrite (fold_update_rows t tname key snapshot cols sets wcol wval _ Htrg
             st [] Ha).
  eexists. split; [reflexivity|].
  unfold rows_of at 1 2 3 5, next_id at 2 3. rewrite Hl.
  rewrite lookup_insert_eq, lookup_insert_ne by exact Hne.
  cbn [t_rows t_next app]. split; [reflexivity|]. split; [|reflexivity].
  apply (rows_of_audited tname key snapshot cols sets _ st Ha).
Qed.

Lemma store_with_bank_method_has_methods :
  has_table store_with_bank_method "Payment_Methods" Payment_Methods_cols.
Proof. eexists. split; vm_compute; reflexivity. Qed.

Lemma store_with_bank_method_has_audit_log :
  has_table store_with_bank_method "Audit_Log" Audit_Log_cols.
Proof. eexists. split; vm_compute; reflexivity. Qed.

Lemma update_audits_each_matched_row_witness :
  exists st',
    sql_update store_with_bank_method "Payment_Methods"
      [("type", VStr (py "CARD")); ("last4", VStr (py "4242"))]
      "patient_id" (VInt 1) = Ok st'
    /\ rows_of st' "Payment_Methods"
       = List.map
           (fun row =>
              if row_matches Payment_Methods_cols row "patient_id" (VInt 1)
              then set_cells Payment_Methods_cols row
                     [("type", VStr (py "CARD")); ("last4", VStr (py "4242"))]
              else row)
           (rows_of store_with_bank_method "Payment_Methods")
    /\ rows_of st' "Audit_Log"
       = rows_of store_with_bank_method "Audit_Log"
         ++ audit_rows "Payment_Methods" "payment_method_id"
              paymethod_snapshot Payment_Methods_cols
              [("type", VStr (py "CARD")); ("last4", VStr (py "4242"))]
              (next_id store_with_bank_method "Audit_Log")
              (List.filter
                 (fun row =>
                    row_matches Payment_Methods_cols row "patient_id" (VInt 1))
                 (rows_of store_with_bank_method "Payment_Methods"))
    /\ next_id st' "Payment_Methods"
       = next_id store_with_bank_method "Payment_Methods".
Proof.
  apply (update_audits_each_matched_row store_with_bank_method
           "Payment_Methods" "Payment_Methods" "payment_method_id"
           paymethod_snapshot Payment_Methods_cols
           [("type", VStr (py "CARD")); ("last4", VStr (py "4242"))]
           "patient_id" (VInt 1)).
  - exact (proj2 (proj2 (proj2 tracked_tables_have_update_triggers))).
  - exact store_with_bank_method_has_methods.
  - exact store_with_bank_method_has_audit_log.
Defined.

Lemma store_insert_lookup_ne (st : store) (t t' : string)
    (assigns : list (string * value)) (st' : store) (id : Z) :
  t <> t' -> store_insert st t assigns = Ok (st', id) -> st' !! t' = st !! t'.
Proof.
  intros Hne. unfold store_insert.
  destruct (st !! t) as [tb|]; [|discriminate].
  destruct (build_row _ _ _); [|discriminate].
  intros [= <- _]. now apply lookup_insert_ne.
Qed.

Lemma fold_update_rows_untracked (t : string) (cols : list column)
    (sets : list (string * value)) (wcol : string) (wval : value)
    (rows : list (list value)) :
  (forall old new, before_update_trigger t old new = None) ->
  forall (st : store) (done : list (list value)),
    exists rows',
      fold_left (update_row t cols sets wcol wval) rows (Ok (st, done))
      = Ok (st, rows').
Proof.
  intros Htrg. induction rows as [|row rows IH]; intros st done.
  - eexists. reflexivity.
  - cbn [fold_left]. unfold update_row at 2. rewrite Htrg.
    destruct (row_matches cols row wcol wval); apply IH.
Qed.

Lemma sql_insert_not_audited (st : store) (t : string)
    (assigns : list (string * value)) (st' : store) (id : Z) :
  t <> "Payment_Transactions" -> t <> "Audit_Log" ->
  sql_insert st t assigns = Ok (st', id) ->
  st' !! "Audit_Log" = st !! "Audit_Log".
Proof.
  intros Hpt Hal H.
  apply sql_insert_plain in H as (row & _ & ->); [|exact Hpt].
  now apply lookup_append_row_ne.
Qed.

Lemma sql_update_not_audited (st : store) (t : string)
    (sets : list (string * value)) (wcol : string) (wval : value)
    (st' : store) :
  (forall old new, before_update_trigger t old new = None) ->
  t <> "Audit_Log" ->
  sql_update st t sets wcol wval = Ok st' ->
  st' !! "Audit_Log" = st !! "Audit_Log".
Proof.
  intros Htrg Hal. unfold sql_update.
  destruct (st !! t) as [tb|]; [|discriminate].
  destruct (fold_update_rows_untracked t (t_cols tb) sets wcol wval
              (t_rows tb) Htrg st []) as (rows' & ->).
  intros [= <-]. now apply lookup_insert_ne.
Qed.

(** X13: creating a record leaves no trace in [Audit_Log], payments apart:
    an [INSERT] into any table but [Payment_Transactions] adds no audit
    row, so [insert_patient_data] and [insert_staff_data] add none; and an
    [UPDATE] of a table without trigger ([Users], [Staff], [Appointment],
    [Medical_Record], [Payment_Transactions]) adds none either. *)
Theorem creating_records_is_not_audited :
  (forall (st : store) (t : string) (assigns : list (string * value))
          (st' : store) (id : Z),
     t <> "Payment_Transactions" -> t <> "Audit_Log" ->
     sql_insert st t assigns = Ok (st', id) ->
     st' !! "Audit_Log" = st !! "Audit_Log")
  /\ (forall (pd : patient_data) (w : world) (id : Z) (w' : world),
        insert_patient_data pd w = (Ok id, w') ->
        committed w' !! "Audit_Log" = working w !! "Audit_Log")
  /\ (forall (sd : staff_data) (w : world) (id : Z) (w' : world),
        insert_staff_data sd w = (Ok id, w') ->
        committed w' !! "Audit_Log" = working w !! "Audit_Log")
  /\ (forall (st : store) (t : string) (sets : list (string * value))
             (wcol : string) (wval : value) (st' : store),
        In t ["Users"; "Staff"; "Appointment"; "Medical_Record";
              "Payment_Transactions"] ->
        sql_update st t sets wcol wval = Ok st' ->
        st' !! "Audit_Log" = st !! "Audit_Log").
Proof.
  split; [exact sql_insert_not_audited|]. split; [|split].
  - intros pd w id w' H.
    apply insert_patient_data_ok_inv in H as (row & _ & Hw & ->).
    rewrite Hw. now apply lookup_append_row_ne.
  - intros sd w id w' H.
    apply insert_staff_data_ok_inv in H as (row & _ & Hw & ->).
    rewrite Hw. now apply lookup_append_row_ne.
  - intros st t sets wcol wval st' Hin.
    cbn [In] in Hin.
    destruct Hin as [<-|[<-|[<-|[<-|[<-|[]]]]]];
      (apply sql_update_not_audited;
       [intros old new; unfold before_update_trigger; string_tests; reflexivity
       |done]).
Qed.

Ltac col_index_tests :=
  repeat match goal with
  | |- context [col_index ?cols ?name] =>
      let v := eval vm_compute in (col_index cols name) in
      change (col_index cols name) with v
  end.

(** X14: [insert_payment_transaction], on a server that reports no failure,
    writes the payment and, in the same transaction, exactly one audit
    row: action [INSERT], the identifier of the payment, no old data, and
    the text of the posted payment as new data.  Nothing is committed by
    it.  Without an [Audit_Log] table the payment itself is refused and
    nothing is written. *)
Theorem payment_insert_writes_its_audit_row
    (billing_id patient_id payment_method_id amount : Z) (note : str)
    (w : world) :
  faults w = [] ->
  has_table (working w) "Payment_Transactions" Payment_Transactions_cols ->
  (has_table (working w) "Audit_Log" Audit_Log_cols ->
   exists w',
     insert_payment_transaction
       (billing_id, patient_id, payment_method_id, amount, note) w
     = (Ok tt, w')
     /\ rows_of (working w') "Payment_Transactions"
        = rows_of (working w) "Payment_Transactions"
          ++ [[VInt (next_id (working w) "Payment_Transactions");
               VInt billing_id; VInt patient_id; VInt payment_method_id;
               VDec amount; VDefault; VStr (py "Posted"); VStr note;
               VDefault]]
     /\ rows_of (working w') "Audit_Log"
        = rows_of (working w) "Audit_Log"
          ++ [[VInt (next_id (working w) "Audit_Log");
               VStr (py "Payment_Transactions");
               VInt (next_id (working w) "Payment_Transactions");
               VStr (py "INSERT"); VStr (py "SYSTEM"); VDefault; VNull;
               VStr (posted_payment_text billing_id patient_id amount)]]
     /\ committed w' = committed w)
  /\ (working w !! "Audit_Log" = None ->
      insert_payment_transaction
        (billing_id, patient_id, payment_method_id, amount, note) w
      = (Raise no_such_table, w)).
Proof.
  intros Hf (tb & Hl & Hc).
  assert (Hrun :
    insert_payment_transaction
      (billing_id, patient_id, payment_method_id, amount, note) w
    = match store_insert
              (<["Payment_Transactions" :=
                   Table Payment_Transactions_cols (t_next tb + 1)
                     (t_rows tb
                      ++ [[VInt (t_next tb); VInt billing_id; VInt patient_id;
                           VInt payment_method_id; VDec amount; VDefault;
                           VStr (py "Posted"); VStr note; VDefault]])]>
                 (working w))
              "Audit_Log"
              [("table_name", VStr (py "Payment_Transactions"));
               ("record_id", VInt (t_next tb));
               ("action", VStr (py "INSERT"));
               ("changed_by", VStr (py "SYSTEM"));
               ("new_data",
                VStr (posted_payment_text billing_id patient_id amount))] with
      | Raise e => (Raise e, w)
      | Ok (st2, _) => (Ok tt, set_lastrowid (t_next tb) (set_working st2 w))
      end).
  { unfold insert_payment_transaction, execute_insert.
    rewrite (bind_step _ _ _ _ _ (server_step_quiet w Hf)).
    unfold sql_insert. unfold store_insert at 1. rewrite Hl, Hc.
    unfold Payment_Transactions_cols at 1, col, stamp.
    cbn [build_row build_cells assoc col_name col_type col_default].
    string_tests. cbn [to_column option_map].
    rewrite lookup_insert_eq. cbn [t_rows t_cols]. rewrite last_last.
    unfold after_insert_trigger. string_tests.
    unfold payment_tx_snapshot, field. col_index_tests. cbn [nth].
    unfold lit. cbn [sql_concat sql_text].
    unfold posted_payment_text. rewrite <- !app_assoc.
    destruct (store_insert _ "Audit_Log" _) as [[st2 i]|e]; reflexivity. }
  split.
  - intros (ta & Hla & Hca). rewrite Hrun.
    unfold store_insert. rewrite lookup_insert_ne by done. rewrite Hla, Hca.
    unfold Audit_Log_cols at 1, col, stamp.
    cbn [build_row build_cells assoc col_name col_type col_default].
    string_tests. cbn [to_column option_map].
    eexists. split; [reflexivity|]. sw.
    unfold rows_of, next_id. rewrite Hl, Hla, lookup_insert_eq.
    rewrite lookup_insert_ne by done. rewrite lookup_insert_eq.
    cbn [t_rows]. repeat split.
  - intros Hla. rewrite Hrun.
    unfold store_insert. rewrite lookup_insert_ne by done. now rewrite Hla.
Qed.

(** ** Reading a damaged record *)

Lemma decrypt_data_tampered (iv data : bytes) (i : nat) (w : world) :
  length (aes_key w) = 32%nat -> length iv = 12%nat ->
  (96 <= i < 224)%nat ->
  decrypt_data
    (VBytes (b64encode (flip_bit i (envelope (aes_key w) iv data)))) w
  = (Raise (ValueError "MAC check failed"), w).
Proof.
  intros Hk Hiv Hi.
  pose proof (b64encode_length_ge (flip_bit i (envelope (aes_key w) iv data)))
    as Hl.
  rewrite flip_bit_length, envelope_length in Hl by assumption.
  unfold decrypt_data.
  destruct (b64encode (flip_bit i (envelope (aes_key w) iv data)))
    as [|b0 r] eqn:Ee; [cbn in Hl; lia|].
  rewrite <- Ee. unfold utf8_decode.
  rewrite utf8_decode_ascii by apply b64encode_ascii.
  unfold lift at 1. unfold bind at 1.
  now apply decrypt_value_tag_bit.
Qed.

(** X15: [get_patient_data] has no handler of its own: when one of the
    four encrypted cells of the row is an envelope with a bit of its tag
    inverted, and the cells before it can be read, it raises
    [ValueError("MAC check failed")] and returns no part of the record,
    neither the clear columns nor the cells that could be read. *)
Theorem get_patient_data_fails_on_a_tampered_cell (patient_id : Z)
    (w : world) (row : list value) (rest : list (list value))
    (iv data : bytes) (i k : nat) :
  faults w = [] -> length (aes_key w) = 32%nat ->
  has_table (working w) "Patient" Patient_cols ->
  List.filter (fun r => row_matches Patient_cols r "patient_id" (VInt patient_id))
    (rows_of (working w) "Patient") = row :: rest ->
  (5 <= k <= 8)%nat ->
  nth k row VNull
  = VBytes (b64encode (flip_bit i (envelope (aes_key w) iv data))) ->
  length iv = 12%nat -> (96 <= i < 224)%nat ->
  (forall j, (5 <= j < k)%nat ->
             exists p, decrypt_data (nth j row VNull) w = (Ok p, w)) ->
  get_patient_data patient_id w = (Raise (ValueError "MAC check failed"), w).
Proof.
  intros Hf Hk Ht Hrows Hrange Hcell Hiv Hi Hbefore.
  assert (Hsel : execute_select_one "Patient" "patient_id" (VInt patient_id) w
                 = (Ok (Some row), w)).
  { unfold execute_select_one.
    rewrite (bind_step _ _ _ _ _ (server_step_quiet w Hf)).
    now rewrite (sql_select_rows _ _ _ _ Patient_cols Ht), Hrows. }
  assert (Hbad : decrypt_data (nth k row VNull) w
                 = (Raise (ValueError "MAC check failed"), w)).
  { rewrite Hcell. now apply decrypt_data_tampered. }
  unfold get_patient_data. rewrite (bind_step _ _ _ _ _ Hsel).
  assert (Hcases : k = 5%nat \/ k = 6%nat \/ k = 7%nat \/ k = 8%nat) by lia.
  destruct Hcases as [-> | [-> | [-> | ->]]].
  - now rewrite (bind_raise _ _ _ _ _ Hbad).
  - destruct (Hbefore 5%nat ltac:(lia)) as (p5 & H5).
    rewrite (bind_step _ _ _ _ _ H5). now rewrite (bind_raise _ _ _ _ _ Hbad).
  - destruct (Hbefore 5%nat ltac:(lia)) as (p5 & H5).
    destruct (Hbefore 6%nat ltac:(lia)) as (p6 & H6).
    rewrite (bind_step _ _ _ _ _ H5), (bind_step _ _ _ _ _ H6).
    now rewrite (bind_raise _ _ _ _ _ Hbad).
  - destruct (Hbefore 5%nat ltac:(lia)) as (p5 & H5).
    destruct (Hbefore 6%nat ltac:(lia)) as (p6 & H6).
    destruct (Hbefore 7%nat ltac:(lia)) as (p7 & H7).
    rewrite (bind_step _ _ _ _ _ H5), (bind_step _ _ _ _ _ H6),
      (bind_step _ _ _ _ _ H7).
    now rewrite (bind_raise _ _ _ _ _ Hbad).
Qed.

Lemma store_with_tampered_ssn_has_patient :
  has_table store_with_tampered_ssn "Patient" Patient_cols.
Proof. eexists. split; vm_compute; reflexivity. Qed.

Lemma get_patient_data_fails_on_a_tampered_cell_witness :
  get_patient_data 1 (sample_world store_with_tampered_ssn [])
  = (Raise (ValueError "MAC check failed"),
     sample_world store_with_tampered_ssn []).
Proof.
  apply (get_patient_data_fails_on_a_tampered_cell 1
           (sample_world store_with_tampered_ssn [])
           (nth 0 (rows_of store_with_tampered_ssn "Patient") []) []
           (firstn 12 sample_raw)
           [Byte.x35; Byte.x35; Byte.x35; Byte.x2d; Byte.x30; Byte.x31;
            Byte.x30; Byte.x31]
           100 7).
  - reflexivity.
  - reflexivity.
  - exact store_with_tampered_ssn_has_patient.
  - vm_compute. reflexivity.
  - lia.
  - vm_compute. reflexivity.
  - reflexivity.
  - lia.
  - intros j Hj. assert (Hc : j = 5%nat \/ j = 6%nat) by lia.
    destruct Hc as [-> | ->].
    + exists (py "555-0101"). vm_compute. reflexivity.
    + exists []. vm_compute. reflexivity.
Defined.

(** ** How far a failed seed reaches *)








Section Radius.

Variable st0 : store.



















End Radius.



(** ** The intake form as one transaction *)

Lemma sql_insert_plain_rows (st : store) (t : string)
    (assigns : list (string * value)) (st' : store) (id : Z) :
  t <> "Payment_Transactions" ->
  sql_insert st t assigns = Ok (st', id) ->
  (forall t',
     length (rows_of st' t')
     = (length (rows_of st t') + if bool_decide (t' = t) then 1 else 0)%nat)
  /\ forall t', t' <> t -> st' !! t' = st !! t'.
Proof.
  intros Ht. unfold sql_insert, store_insert, rows_of.
  destruct (st !! t) as [tb|] eqn:Hl; [|discriminate].
  destruct (build_row (t_cols tb) (t_next tb) assigns) as [row|]; [|discriminate].
  rewrite lookup_insert_eq. unfold after_insert_trigger.
  rewrite bool_decide_eq_false_2 by exact Ht.
  intros [= <- <-]. split.
  - intros t'. destruct (decide (t' = t)) as [->|Hne].
    + rewrite lookup_insert_eq, Hl, bool_decide_eq_true_2 by reflexivity.
      cbn [t_rows]. now rewrite length_app.
    + rewrite lookup_insert_ne, bool_decide_eq_false_2 by congruence. lia.
  - intros t' Hne. now apply lookup_insert_ne.
Qed.

Lemma save_intake_ok_inv (full_name dob email phone address mrn diagnosis
    insurance card amount : str) (w : world) (r : response) (w' : world) :
  save_intake full_name dob email phone address mrn diagnosis insurance card
    amount w = (Ok r, w') ->
  Forall (fun t => length (rows_of (committed w') t)
                   = S (length (rows_of (committed w) t)))
    ["patients"; "medical_records"; "insurance"; "billing"; "payments"]
  /\ forall t, ~ In t ["patients"; "medical_records"; "insurance"; "billing";
                       "payments"] ->
               committed w' !! t = committed w !! t.
Proof.
  unfold save_intake. intros H.
  apply bind_ok_inv in H as ([] & w0 & Hc & H).
  apply get_db_conn_ok_inv in Hc as (Hw0 & _).
  apply bind_ok_inv in H as ([] & w1 & I1 & H).
  apply execute_insert_ok_inv in I1 as (st1 & id1 & Hi1 & Hw1 & _ & _).
  apply sql_insert_plain_rows in Hi1 as (R1 & O1); [|done].
  apply bind_ok_inv in H as (pid & w2 & G & H).
  unfold get_lastrowid in G. injection G as _ <-.
  apply bind_ok_inv in H as (e1 & w3 & E1 & H).
  apply encrypt_value_ok_store in E1 as [Hw3 _].
  apply bind_ok_inv in H as (e2 & w4 & E2 & H).
  apply encrypt_value_ok_store in E2 as [Hw4 _].
  apply bind_ok_inv in H as ([] & w5 & I2 & H).
  apply execute_insert_ok_inv in I2 as (st2 & id2 & Hi2 & Hw5 & _ & _).
  apply sql_insert_plain_rows in Hi2 as (R2 & O2); [|done].
  apply bind_ok_inv in H as (e3 & w6 & E3 & H).
  apply encrypt_value_ok_store in E3 as [Hw6 _].
  apply bind_ok_inv in H as ([] & w7 & I3 & H).
  apply execute_insert_ok_inv in I3 as (st3 & id3 & Hi3 & Hw7 & _ & _).
  apply sql_insert_plain_rows in Hi3 as (R3 & O3); [|done].
  apply bind_ok_inv in H as ([] & w8 & I4 & H).
  apply execute_insert_ok_inv in I4 as (st4 & id4 & Hi4 & Hw8 & _ & _).
  apply sql_insert_plain_rows in Hi4 as (R4 & O4); [|done].
  apply bind_ok_inv in H as (bid & w9 & G & H).
  unfold get_lastrowid in G. injection G as _ <-.
  apply bind_ok_inv in H as (e4 & w10 & E4 & H).
  apply encrypt_value_ok_store in E4 as [Hw10 _].
  apply bind_ok_inv in H as ([] & w11 & I5 & H).
  apply execute_insert_ok_inv in I5 as (st5 & id5 & Hi5 & Hw11 & _ & _).
  apply sql_insert_plain_rows in Hi5 as (R5 & O5); [|done].
  apply bind_ok_inv in H as ([] & w12 & Hcm & H).
  apply commit_ok_inv in Hcm as (Hc12 & _ & _).
  apply bind_ok_inv in H as ([] & w13 & Hcl & H).
  unfold close, rollback in Hcl. injection Hcl as <-.
  unfold ret in H. injection H as _ <-.
  cbn [committed set_working]. rewrite Hc12, Hw11.
  rewrite Hw10, Hw8 in *. rewrite Hw7 in *. rewrite Hw6, Hw5 in *.
  rewrite Hw4, Hw3, Hw1 in *. rewrite Hw0 in *.
  split.
  - repeat (apply List.Forall_cons;
            [rewrite R5, R4, R3, R2, R1; string_tests; cbv iota; lia|]).
    apply List.Forall_nil.
  - intros t Hn. cbn [In] in Hn.
    rewrite O5, O4, O3, O2, O1 by (intros ->; tauto). reflexivity.
Qed.

(** X17: the intake form handler publishes one submission as a whole or
    not at all, for every request and whatever fails: either the committed
    store is the one it found, or the response is the redirect to
    [/success] and each of [patients], [medical_records], [insurance],
    [billing] and [payments] has exactly one row more, nothing else having
    changed. *)
Theorem intake_commits_five_rows_or_none (r : request) (w : world) :
  committed (snd (patient_form r w)) = committed w
  \/ (fst (patient_form r w) = Ok (Redirect "/success")
      /\ Forall (fun t => length (rows_of (committed (snd (patient_form r w))) t)
                          = S (length (rows_of (committed w) t)))
           ["patients"; "medical_records"; "insurance"; "billing"; "payments"]
      /\ forall t, ~ In t ["patients"; "medical_records"; "insurance";
                           "billing"; "payments"] ->
                   committed (snd (patient_form r w)) !! t = committed w !! t).
Proof.
  destruct (decide (method r = "POST")) as [Hm|Hm].
  2:{ left. unfold patient_form. now rewrite bool_decide_eq_false_2. }
  rewrite (patient_form_post r w Hm).
  destruct (invalid_input _ _ _ _); [now left|].
  pose proof (all_or_nothing_save_intake (read_field r "full_name")
                (read_field r "dob") (read_field r "email")
                (read_field r "phone") (read_field r "address")
                (read_field r "mrn") (read_field r "diagnosis")
                (read_field r "insurance") (read_field r "card")
                (read_field r "amount") w) as Haon.
  destruct (save_intake _ _ _ _ _ _ _ _ _ _ w) as [[a|e] w1] eqn:Es;
    cbn [fst snd] in *.
  - right. pose proof (save_intake_returns _ _ _ _ _ _ _ _ _ _ _ _ _ Es) as ->.
    split; [reflexivity|].
    exact (save_intake_ok_inv _ _ _ _ _ _ _ _ _ _ _ _ _ Es).
  - left. exact (Haon e eq_refl).
Qed.

(** ** A misconfigured key *)

Lemma AES_new_bad_key (key iv : bytes) :
  length key <> 16%nat -> length key <> 24%nat -> length key <> 32%nat ->
  exists msg, AES_new key iv = Raise (ValueError msg).
Proof.
  intros H16 H24 H32. unfold AES_new.
  destruct (Nat.eqb (length iv) 0); [eauto|].
  rewrite (proj2 (Nat.eqb_neq _ _) H16), (proj2 (Nat.eqb_neq _ _) H24),
    (proj2 (Nat.eqb_neq _ _) H32). cbn [orb]. eauto.
Qed.

Lemma encrypt_value_bad_key (p : str) (w : world) :
  length (aes_key w) <> 16%nat -> length (aes_key w) <> 24%nat ->
  length (aes_key w) <> 32%nat ->
  exists e w',
    encrypt_value p w = (Raise e, w')
    /\ working w' = working w /\ committed w' = committed w
    /\ faults w' = faults w.
Proof.
  intros H16 H24 H32. unfold encrypt_value, get_aes_key, utf8_encode.
  unfold bind at 1. unfold bind at 1. unfold lift at 1.
  destruct (utf8_encode_opt p) as [data|]; [|eexists _, _; repeat split].
  unfold bind at 1, get_random_bytes. unfold bind at 1, lift at 1.
  destruct (AES_new_bad_key (aes_key w)
              (List.map (fun i => rng_tape w (rng_pos w + i)%nat) (seq 0 12))
              H16 H24 H32) as (msg & ->).
  eexists _, _. repeat split.
Qed.

Lemma get_db_conn_ok_key (w w0 : world) :
  get_db_conn w = (Ok tt, w0) -> aes_key w0 = aes_key w.
Proof.
  unfold get_db_conn. intros H.
  apply bind_ok_inv in H as ([] & w1 & Hs & H).
  apply server_step_ok_inv in Hs as (_ & _ & _ & Hk).
  injection H as <-. exact Hk.
Qed.

Lemma execute_insert_ok_key (t : string) (assigns : list (string * value))
    (w w' : world) :
  execute_insert t assigns w = (Ok tt, w') -> aes_key w' = aes_key w.
Proof.
  unfold execute_insert. intros H.
  apply bind_ok_inv in H as ([] & w1 & Hs & H).
  apply server_step_ok_inv in Hs as (_ & _ & _ & Hk).
  destruct (sql_insert (working w1) t assigns) as [[st id]|e]; [|discriminate].
  injection H as <-. exact Hk.
Qed.

Lemma save_intake_bad_key (full_name dob email phone address mrn diagnosis
    insurance card amount : str) (w : world) :
  length (aes_key w) <> 16%nat -> length (aes_key w) <> 24%nat ->
  length (aes_key w) <> 32%nat ->
  exists e,
    fst (save_intake full_name dob email phone address mrn diagnosis insurance
           card amount w) = Raise e.
Proof.
  intros H16 H24 H32.
  destruct (save_intake full_name dob email phone address mrn diagnosis
              insurance card amount w) as [[a|e] w'] eqn:Es; [|eauto].
  exfalso. unfold save_intake in Es.
  apply bind_ok_inv in Es as ([] & w0 & Hc & H).
  apply get_db_conn_ok_key in Hc.
  apply bind_ok_inv in H as ([] & w1 & I1 & H).
  apply execute_insert_ok_key in I1.
  apply bind_ok_inv in H as (pid & w2 & G & H).
  unfold get_lastrowid in G. injection G as _ <-.
  apply bind_ok_inv in H as (e1 & w3 & E1 & _).
  destruct (encrypt_value_bad_key mrn w1) as (e & w4 & E & _);
    [congruence|congruence|congruence|].
  rewrite E in E1. discriminate E1.
Qed.

(** X18: when the key provider hands out a key that is not 16, 24 or 32
    bytes long, the code fails closed: [encrypt_value] raises for every
    text; [insert_patient_data] and [insert_staff_data] raise without
    having sent a statement, so nothing is written, in clear or otherwise;
    and the intake form answers a submission that passes the validation
    with status 500 and commits nothing. *)
Theorem misconfigured_key_fails_closed (w : world) :
  length (aes_key w) <> 16%nat -> length (aes_key w) <> 24%nat ->
  length (aes_key w) <> 32%nat ->
  (forall p, exists e, fst (encrypt_value p w) = Raise e)
  /\ (forall pd, exists e,
        fst (insert_patient_data pd w) = Raise e
        /\ working (snd (insert_patient_data pd w)) = working w
        /\ committed (snd (insert_patient_data pd w)) = committed w
        /\ faults (snd (insert_patient_data pd w)) = faults w)
  /\ (forall sd, exists e,
        fst (insert_staff_data sd w) = Raise e
        /\ working (snd (insert_staff_data sd w)) = working w
        /\ committed (snd (insert_staff_data sd w)) = committed w
        /\ faults (snd (insert_staff_data sd w)) = faults w)
  /\ (forall r,
        method r = "POST" ->
        invalid_input (read_field r "full_name") (read_field r "email")
          (read_field r "mrn") (read_field r "card") = false ->
        (exists msg, fst (patient_form r w) = Ok (Text msg 500))
        /\ committed (snd (patient_form r w)) = committed w).
Proof.
  intros H16 H24 H32. split; [|split; [|split]].
  - intros p. destruct (encrypt_value_bad_key p w H16 H24 H32)
      as (e & w' & -> & _). eauto.
  - intros pd. unfold insert_patient_data, encrypt_data.
    destruct (encrypt_value_bad_key (or_empty (p_phone_number pd)) w
                H16 H24 H32) as (e & w' & E & Hw & Hc & Hf).
    rewrite (bind_raise _ _ _ _ _ E). exists e. now repeat split.
  - intros sd. unfold insert_staff_data, encrypt_data.
    destruct (encrypt_value_bad_key (or_empty (s_email sd)) w
                H16 H24 H32) as (e & w' & E & Hw & Hc & Hf).
    rewrite (bind_raise _ _ _ _ _ E). exists e. now repeat split.
  - intros r Hm Hv.
    destruct (save_intake_bad_key (read_field r "full_name")
                (read_field r "dob") (read_field r "email")
                (read_field r "phone") (read_field r "address")
                (read_field r "mrn") (read_field r "diagnosis")
                (read_field r "insurance") (read_field r "card")
                (read_field r "amount") w H16 H24 H32) as (e & He).
    pose proof (all_or_nothing_save_intake (read_field r "full_name")
                  (read_field r "dob") (read_field r "email")
                  (read_field r "phone") (read_field r "address")
                  (read_field r "mrn") (read_field r "diagnosis")
                  (read_field r "insurance") (read_field r "card")
                  (read_field r "amount") w e He) as Haon.
    rewrite (patient_form_post r w Hm), Hv.
    destruct (save_intake _ _ _ _ _ _ _ _ _ _ w) as [[a|e'] w1];
      cbn [fst snd] in *; [discriminate He|].
    split; [eauto|exact Haon].
Qed.

Lemma misconfigured_key_fails_closed_witness :
  (forall p, exists e, fst (encrypt_value p short_key_world) = Raise e)
  /\ (forall pd, exists e,
        fst (insert_patient_data pd short_key_world) = Raise e
        /\ working (snd (insert_patient_data pd short_key_world))
           = working short_key_world
        /\ committed (snd (insert_patient_data pd short_key_world))
           = committed short_key_world
        /\ faults (snd (insert_patient_data pd short_key_world))
           = faults short_key_world)
  /\ (forall sd, exists e,
        fst (insert_staff_data sd short_key_world) = Raise e
        /\ working (snd (insert_staff_data sd short_key_world))
           = working short_key_world
        /\ committed (snd (insert_staff_data sd short_key_world))
           = committed short_key_world
        /\ faults (snd (insert_staff_data sd short_key_world))
           = faults short_key_world)
  /\ (forall r,
        method r = "POST" ->
        invalid_input (read_field r "full_name") (read_field r "email")
          (read_field r "mrn") (read_field r "card") = false ->
        (exists msg, fst (patient_form r short_key_world) = Ok (Text msg 500))
        /\ committed (snd (patient_form r short_key_world))
           = committed short_key_world).
Proof.
  apply (misconfigured_key_fails_closed short_key_world).
  - vm_compute. discriminate.
  - vm_compute. discriminate.
  - vm_compute. discriminate.
Defined.

(** ** The statements above at sample inputs *)

Lemma inserts_commit_the_connection_witness :
  exists id w' row,
    insert_patient_data sample_patient pending_world = (Ok id, w')
    /\ id = next_id (working pending_world) "Patient"
    /\ working w' = append_row "Patient" row (working pending_world)
    /\ committed w' = working w'.
Proof.
  destruct (insert_patient_data sample_patient pending_world)
    as [[id|e] w'] eqn:E.
  - destruct (proj2 (proj1 inserts_commit_the_connection sample_patient)
                pending_world id w' E) as (row & H).
    exists id, w', row. split; [reflexivity|exact H].
  - vm_compute in E. discriminate E.
Defined.

Lemma creating_records_is_not_audited_witness :
  exists id w',
    insert_patient_data sample_patient pending_world = (Ok id, w')
    /\ committed w' !! "Audit_Log" = working pending_world !! "Audit_Log".
Proof.
  destruct (insert_patient_data sample_patient pending_world)
    as [[id|e] w'] eqn:E.
  - exists id, w'. split; [reflexivity|].
    exact (proj1 (proj2 creating_records_is_not_audited) sample_patient
             pending_world id w' E).
  - vm_compute in E. discriminate E.
Defined.

Lemma hospital_schema_has_payment_transactions :
  has_table hospital_schema "Payment_Transactions" Payment_Transactions_cols.
Proof. eexists. split; vm_compute; reflexivity. Qed.

Lemma payment_insert_writes_its_audit_row_witness :
  (has_table (working (sample_world hospital_schema [])) "Audit_Log"
     Audit_Log_cols ->
   exists w',
     insert_payment_transaction
       (1, 1, 1, 30000, py "Full payment for treatment")%Z
       (sample_world hospital_schema [])
     = (Ok tt, w')
     /\ rows_of (working w') "Payment_Transactions"
        = rows_of (working (sample_world hospital_schema []))
            "Payment_Transactions"
          ++ [[VInt (next_id (working (sample_world hospital_schema []))
                       "Payment_Transactions");
               VInt 1; VInt 1; VInt 1; VDec 30000; VDefault;
               VStr (py "Posted"); VStr (py "Full payment for treatment");
               VDefault]]
     /\ rows_of (working w') "Audit_Log"
        = rows_of (working (sample_world hospital_schema [])) "Audit_Log"
          ++ [[VInt (next_id (working (sample_world hospital_schema []))
                       "Audit_Log");
               VStr (py "Payment_Transactions");
               VInt (next_id (working (sample_world hospital_schema []))
                       "Payment_Transactions");
               VStr (py "INSERT"); VStr (py "SYSTEM"); VDefault; VNull;
               VStr (posted_payment_text 1 1 30000)]]
     /\ committed w' = committed (sample_world hospital_schema []))
  /\ (working (sample_world hospital_schema []) !! "Audit_Log" = None ->
      insert_payment_transaction
        (1, 1, 1, 30000, py "Full payment for treatment")%Z
        (sample_world hospital_schema [])
      = (Raise no_such_table, sample_world hospital_schema [])).
Proof.
  apply (payment_insert_writes_its_audit_row 1 1 1 30000
           (py "Full payment for treatment")
           (sample_world hospital_schema [])).
  - reflexivity.
  - exact hospital_schema_has_payment_transactions.
Defined.

